(** * track-money: the statement-ingestion pipeline

    A shallow embedding of the parsing, categorisation and upload code of the
    repository, and the properties of it that the specification states.

    Sources embedded here:
    - [Parser] : src/unnamed/part_001 (the stand-alone statement parser);
    - [StatementParser] : the [StatementParser] class of
      src/src/server/categorizer.ts;
    - [Categorizer] : the [TransactionCategorizer] class of the same file;
    - [Server] : src/src/server/working-server.ts (categoriser, field
      normalisers, row builders and the upload handler).

    Modelling conventions.
    - A JavaScript string is a [string] of ASCII characters; [\s] and
      [toLowerCase] are the ASCII ones.
    - A JavaScript number is [NaN], an infinity, or an exact rational
      ([Fin q], kept in lowest terms): decimal literals are read exactly,
      binary rounding is not modelled.
    - A [Date] is its time value: milliseconds of local time since the epoch,
      or the invalid date.  The time zone is a constant offset, so the
      calendar fields of [new Date(y, m, d)] are the civil ones. *)

From Stdlib Require Import ZArith QArith Qabs Qpower Qreduction List Bool Ascii String Lia.
Import ListNotations.

Local Open Scope string_scope.
Local Open Scope Z_scope.

(* ================================================================== *)
(** * Strings *)

Module Str.

Definition code (c : ascii) : nat := nat_of_ascii c.

(** [\d] *)
Definition isDigit (c : ascii) : bool :=
  (48 <=? code c)%nat && (code c <=? 57)%nat.

(** [\s], restricted to ASCII: TAB, LF, VT, FF, CR and SPACE. *)
Definition isSpace (c : ascii) : bool :=
  ((9 <=? code c)%nat && (code c <=? 13)%nat) || (code c =? 32)%nat.

Definition isUpper (c : ascii) : bool :=
  (65 <=? code c)%nat && (code c <=? 90)%nat.

Definition lower (c : ascii) : ascii :=
  if isUpper c then ascii_of_nat (code c + 32) else c.

Fixpoint map (f : ascii -> ascii) (s : string) : string :=
  match s with
  | EmptyString => EmptyString
  | String c t => String (f c) (map f t)
  end.

(** [s.toLowerCase()] *)
Definition toLowerCase (s : string) : string := map lower s.

(** [s.replace(/[cls]/g, '')]: every character of the class is removed. *)
Fixpoint remove (cls : ascii -> bool) (s : string) : string :=
  match s with
  | EmptyString => EmptyString
  | String c t => if cls c then remove cls t else String c (remove cls t)
  end.

Fixpoint existsb (p : ascii -> bool) (s : string) : bool :=
  match s with
  | EmptyString => false
  | String c t => p c || existsb p t
  end.

Fixpoint forallb (p : ascii -> bool) (s : string) : bool :=
  match s with
  | EmptyString => true
  | String c t => p c && forallb p t
  end.

(** [s.includes(sub)] *)
Fixpoint includes (s sub : string) : bool :=
  String.prefix sub s ||
  match s with
  | EmptyString => false
  | String _ t => includes t sub
  end.

Fixpoint rev_onto (s acc : string) : string :=
  match s with
  | EmptyString => acc
  | String c t => rev_onto t (String c acc)
  end.

Definition rev (s : string) : string := rev_onto s EmptyString.

Fixpoint dropWhile (p : ascii -> bool) (s : string) : string :=
  match s with
  | EmptyString => EmptyString
  | String c t => if p c then dropWhile p t else s
  end.

Fixpoint takeWhile (p : ascii -> bool) (s : string) : string :=
  match s with
  | EmptyString => EmptyString
  | String c t => if p c then String c (takeWhile p t) else EmptyString
  end.

Definition trimStart (s : string) : string := dropWhile isSpace s.
Definition trimEnd (s : string) : string := rev (dropWhile isSpace (rev s)).

(** [s.trim()] *)
Definition trim (s : string) : string := trimEnd (trimStart s).

(** [s.endsWith(suffix)] *)
Definition endsWith (s suffix : string) : bool :=
  String.prefix (rev suffix) (rev s).

Definition isEmpty (s : string) : bool :=
  match s with EmptyString => true | _ => false end.

Fixpoint take (n : nat) (s : string) : string :=
  match n, s with
  | S k, String c t => String c (take k t)
  | _, _ => EmptyString
  end.

Fixpoint drop (n : nat) (s : string) : string :=
  match n, s with
  | S k, String _ t => drop k t
  | _, _ => s
  end.

(** [s.indexOf(sub)], counting from [pos]; -1 when [sub] does not occur. *)
Fixpoint indexOfFrom (pos : nat) (s sub : string) : Z :=
  if String.prefix sub s then Z.of_nat pos
  else match s with
       | EmptyString => -1
       | String _ t => indexOfFrom (S pos) t sub
       end.

Definition indexOf (s sub : string) : Z := indexOfFrom 0 s sub.

(** [s.lastIndexOf(sub)] *)
Fixpoint lastIndexOfFrom (pos : nat) (s sub : string) : Z :=
  let later :=
    match s with
    | EmptyString => -1
    | String _ t => lastIndexOfFrom (S pos) t sub
    end in
  if 0 <=? later then later
  else if String.prefix sub s then Z.of_nat pos else -1.

Definition lastIndexOf (s sub : string) : Z := lastIndexOfFrom 0 s sub.

(** [s.substring(a, b)]: both ends are clamped to the string and swapped
    when [a > b]. *)
Definition substring (s : string) (a b : Z) : string :=
  let len := Z.of_nat (String.length s) in
  let a' := Z.min (Z.max a 0) len in
  let b' := Z.min (Z.max b 0) len in
  take (Z.to_nat (Z.max a' b' - Z.min a' b')) (drop (Z.to_nat (Z.min a' b')) s).

(** [s.replace(sub, '')] for a string [sub]: its first occurrence is
    removed. *)
Definition removeFirst (s sub : string) : string :=
  let i := indexOf s sub in
  if i <? 0 then s
  else take (Z.to_nat i) s ++ drop (Z.to_nat i + String.length sub) s.

End Str.

(* ================================================================== *)
(** * Numbers *)

Module Num.

Inductive number : Type :=
| NaN
| Inf (negative : bool)
| Fin (q : Q).

Definition isNaN (x : number) : bool :=
  match x with NaN => true | _ => false end.

(** [-x] *)
Definition neg (x : number) : number :=
  match x with
  | NaN => NaN
  | Inf b => Inf (negb b)
  | Fin q => Fin (Qopp q)
  end.

(** [Math.abs(x)] *)
Definition abs (x : number) : number :=
  match x with
  | NaN => NaN
  | Inf _ => Inf false
  | Fin q => Fin (Qabs q)
  end.

(** [x === 0] (both zeros; [NaN] is not equal to anything). *)
Definition isZero (x : number) : bool :=
  match x with
  | Fin q => Qeq_bool q 0
  | _ => false
  end.

(** [x > 0] *)
Definition gtZero (x : number) : bool :=
  match x with
  | NaN => false
  | Inf b => negb b
  | Fin q => negb (Qle_bool q 0)
  end.

(** [x < 0] *)
Definition ltZero (x : number) : bool :=
  match x with
  | NaN => false
  | Inf b => b
  | Fin q => negb (Qle_bool 0 q)
  end.

(** The value of a run of decimal digits, most significant first. *)
Fixpoint digitsValue (acc : Z) (s : string) : Z :=
  match s with
  | EmptyString => acc
  | String c t => digitsValue (10 * acc + Z.of_nat (Str.code c - 48)) t
  end.

(** The sign of a literal and what follows it. *)
Definition readSign (s : string) : bool * string :=
  match s with
  | String c t =>
      if Ascii.eqb c "-" then (true, t)
      else if Ascii.eqb c "+" then (false, t)
      else (false, s)
  | EmptyString => (false, s)
  end.

(** [ExponentPart]: [e] or [E], an optional sign and at least one digit;
    anything else is no exponent and is left unread. *)
Definition readExponent (s : string) : Z * string :=
  match s with
  | String c t =>
      if (Ascii.eqb c "e" || Ascii.eqb c "E")%bool then
        let (n, u) := readSign t in
        let ds := Str.takeWhile Str.isDigit u in
        if Str.isEmpty ds then (0, s)
        else ((if n then -1 else 1) * digitsValue 0 ds, Str.dropWhile Str.isDigit u)
      else (0, s)
  | EmptyString => (0, s)
  end.

Definition pow10 (e : Z) : Q := Qpower (10 # 1) e.

(** The longest prefix of [s] that is a [StrDecimalLiteral], as its value
    and the unread rest; [None] when no prefix is one. *)
Definition scanFloat (s : string) : option (number * string) :=
  let (n, u) := readSign s in
  if String.prefix "Infinity" u then Some (Inf n, Str.drop 8 u)
  else
    let ip := Str.takeWhile Str.isDigit u in
    let u1 := Str.dropWhile Str.isDigit u in
    let '(fp, u2) :=
      match u1 with
      | String c t =>
          let fp := Str.takeWhile Str.isDigit t in
          if (Ascii.eqb c "." && negb (Str.isEmpty ip && Str.isEmpty fp))%bool
          then (fp, Str.dropWhile Str.isDigit t)
          else (EmptyString, u1)
      | EmptyString => (EmptyString, u1)
      end in
    if (Str.isEmpty ip && Str.isEmpty fp)%bool then None
    else
      let (e, u3) := readExponent u2 in
      let m := digitsValue 0 (ip ++ fp) in
      let q := Qred (Qmult (inject_Z (if n then - m else m))
                           (pow10 (e - Z.of_nat (String.length fp)))) in
      Some (Fin q, u3).

(** [parseFloat(s)] *)
Definition parseFloat (s : string) : number :=
  match scanFloat (Str.trimStart s) with
  | Some (x, _) => x
  | None => NaN
  end.

End Num.

Import Num.


(* ================================================================== *)
(** * The field normaliser for amounts: [parseAmount]

    src/unnamed/part_001, lines 270-286; the function of the same name in
    src/src/server/working-server.ts (lines 291-303) has the same body. *)

Module Amount.

(** The class [[$,\s]]. *)
Definition isAmountNoise (c : ascii) : bool :=
  Ascii.eqb c "$" || Ascii.eqb c "," || Str.isSpace c.

(** The class [[()]]. *)
Definition isParen (c : ascii) : bool :=
  Ascii.eqb c "(" || Ascii.eqb c ")".

Definition parseAmount (amountStr : string) : number :=
  let cleanAmount := Str.remove isAmountNoise amountStr in
  if (Str.includes cleanAmount "(" && Str.includes cleanAmount ")")%bool then
    let number := parseFloat (Str.remove isParen cleanAmount) in
    if isNaN number then NaN else neg (abs number)
  else
    let number := parseFloat cleanAmount in
    if isNaN number then NaN else number.

(** The input has an opening and a closing parenthesis (in any order and
    position) once [$], [,] and white space are gone. *)
Definition parenthesized (amountStr : string) : bool :=
  let cleanAmount := Str.remove isAmountNoise amountStr in
  Str.includes cleanAmount "(" && Str.includes cleanAmount ")".

(** What [parseFloat] is finally applied to: the input without [$], [,] and
    white space, and without its parentheses when it has both kinds. *)
Definition numericResidue (amountStr : string) : string :=
  let cleanAmount := Str.remove isAmountNoise amountStr in
  if parenthesized amountStr then Str.remove isParen cleanAmount
  else cleanAmount.



End Amount.

Import Amount.

(* ================================================================== *)
(** * Regular expressions

    The fragment of JavaScript regular expressions the parsers use, with the
    backtracking semantics of [RegExp.prototype.exec]: alternatives are tried
    left to right, a greedy quantifier tries the longest repetition first, a
    lazy one the shortest.  Every quantifier of the sources applies to a
    single character class. *)

Module Regex.

Local Open Scope nat_scope.

Inductive regex : Type :=
| Chr (cls : ascii -> bool)
| Rep (cls : ascii -> bool) (lo : nat) (hi : option nat) (greedy : bool)
| Cat (r1 r2 : regex)
| Alt (r1 r2 : regex)
| Grp (i : nat) (r : regex)
| Eps
| Bol
| Eol.

(** The captures of a match, the most recent first. *)
Definition captures : Type := list (nat * string).

Fixpoint group (i : nat) (caps : captures) : string :=
  match caps with
  | [] => EmptyString
  | (j, w) :: rest => if (i =? j)%nat then w else group i rest
  end.

Definition canTake (hi : option nat) : bool :=
  match hi with Some O => false | _ => true end.

Definition decr (hi : option nat) : option nat :=
  match hi with Some h => Some (pred h) | None => None end.

Definition within (hi : option nat) (n : nat) : Prop :=
  match hi with Some h => (n <= h)%nat | None => True end.

Section Exec.

Context {A : Type}.

Definition orElse (x y : option A) : option A :=
  match x with Some _ => x | None => y end.

(** [cls{lo,hi}] at position [pos], then the continuation [k]. *)
Fixpoint rep (cls : ascii -> bool) (greedy : bool) (lo : nat) (hi : option nat)
    (pos : nat) (s : string) (k : nat -> string -> option A) {struct s}
    : option A :=
  let stop := match lo with O => k pos s | S _ => None end in
  let more :=
    match s with
    | String c t =>
        if (cls c && canTake hi)%bool
        then rep cls greedy (pred lo) (decr hi) (S pos) t k
        else None
    | EmptyString => None
    end in
  if greedy then orElse more stop else orElse stop more.

(** [exec r pos s caps k]: match [r] against [s], the input from position
    [pos] on, then continue with [k] on the rest. *)
Fixpoint exec (r : regex) (pos : nat) (s : string) (caps : captures)
    (k : nat -> string -> captures -> option A) {struct r} : option A :=
  match r with
  | Chr cls =>
      match s with
      | String c t => if cls c then k (S pos) t caps else None
      | EmptyString => None
      end
  | Rep cls lo hi g => rep cls g lo hi pos s (fun pos' s' => k pos' s' caps)
  | Cat r1 r2 =>
      exec r1 pos s caps (fun pos' s' caps' => exec r2 pos' s' caps' k)
  | Alt r1 r2 => orElse (exec r1 pos s caps k) (exec r2 pos s caps k)
  | Grp i r1 =>
      exec r1 pos s caps
        (fun pos' s' caps' => k pos' s' ((i, Str.take (pos' - pos) s) :: caps'))
  | Eps => k pos s caps
  | Bol => if (pos =? 0)%nat then k pos s caps else None
  | Eol => if Str.isEmpty s then k pos s caps else None
  end.

End Exec.

(** A successful match: where it starts, the matched text ([match[0]]), the
    captures, and the input after the match. *)
Record result : Type := mkResult {
  index : nat;
  matched : string;
  groups : captures;
  rest : string
}.

Definition matchAt (r : regex) (pos : nat) (s : string) : option result :=
  exec r pos s []
    (fun pos' s' caps => Some (mkResult pos (Str.take (pos' - pos) s) caps s')).

(** The leftmost match at or after position [pos]. *)
Fixpoint searchFrom (r : regex) (pos : nat) (s : string) : option result :=
  match matchAt r pos s with
  | Some m => Some m
  | None =>
      match s with
      | String _ t => searchFrom r (S pos) t
      | EmptyString => None
      end
  end.

(** [s.match(r)] for a regular expression without the [g] flag. *)
Definition matchRe (r : regex) (s : string) : option result := searchFrom r 0 s.

(** [Array.from(s.matchAll(r))] for a regular expression with the [g] flag:
    the successive matches, each search resuming where the last match ended
    (one character further after an empty match). *)
Fixpoint matchAllFrom (fuel : nat) (r : regex) (pos : nat) (s : string)
    : list result :=
  match fuel with
  | O => []
  | S fuel' =>
      match searchFrom r pos s with
      | None => []
      | Some m =>
          m :: match matched m, rest m with
               | EmptyString, EmptyString => []
               | EmptyString, String _ t =>
                   matchAllFrom fuel' r (S (index m)) t
               | _, u =>
                   matchAllFrom fuel' r (index m + String.length (matched m)) u
               end
      end
  end.

Definition matchAll (r : regex) (s : string) : list result :=
  matchAllFrom (S (String.length s)) r 0 s.

(** What a match is, declaratively: [matches r pos w rest caps caps'] says
    that [r] matches the word [w] at position [pos] with [rest] after it,
    and that the captures [caps] before the match are [caps'] after it. *)
Fixpoint matches (r : regex) (pos : nat) (w rest : string)
    (caps caps' : captures) : Prop :=
  match r with
  | Chr cls => exists c, w = String c EmptyString /\ cls c = true /\ caps' = caps
  | Rep cls lo hi _ =>
      Str.forallb cls w = true /\ lo <= String.length w /\
      within hi (String.length w) /\ caps' = caps
  | Cat r1 r2 =>
      exists w1 w2 mid,
        w = w1 ++ w2 /\ matches r1 pos w1 (w2 ++ rest) caps mid /\
        matches r2 (pos + String.length w1) w2 rest mid caps'
  | Alt r1 r2 =>
      matches r1 pos w rest caps caps' \/ matches r2 pos w rest caps caps'
  | Grp i r1 =>
      exists inner, matches r1 pos w rest caps inner /\ caps' = (i, w) :: inner
  | Eps => w = EmptyString /\ caps' = caps
  | Bol => w = EmptyString /\ pos = 0 /\ caps' = caps
  | Eol => w = EmptyString /\ rest = EmptyString /\ caps' = caps
  end.

(** Shorthands for the character classes and quantifiers of the sources. *)
Definition lit (c : ascii) : regex := Chr (Ascii.eqb c).
Definition digit : ascii -> bool := Str.isDigit.
Definition space : ascii -> bool := Str.isSpace.
(** [.]: any character but a line terminator. *)
Definition dot (c : ascii) : bool :=
  negb (Ascii.eqb c "010" || Ascii.eqb c "013").
(** [[\d,]] *)
Definition digitOrComma (c : ascii) : bool := Str.isDigit c || Ascii.eqb c ",".

Definition plus (cls : ascii -> bool) : regex := Rep cls 1 None true.
Definition plusLazy (cls : ascii -> bool) : regex := Rep cls 1 None false.
Definition opt (c : ascii) : regex := Rep (Ascii.eqb c) 0 (Some 1) true.
Definition times (cls : ascii -> bool) (lo hi : nat) : regex :=
  Rep cls lo (Some hi) true.

Fixpoint seq (rs : list regex) : regex :=
  match rs with
  | [] => Eps
  | [r] => r
  | r :: rest => Cat r (seq rest)
  end.

End Regex.

(* ================================================================== *)
(** * Dates

    The part of the JavaScript [Date] object the parsers use, after the
    ECMAScript definitions of [DayFromYear], [MakeDay], [YearFromTime],
    [MonthFromTime], [DateFromTime] and [TimeClip], in local time. *)

Module JSDate.

Definition msPerDay : Z := 86400000.

Definition DayFromYear (y : Z) : Z :=
  365 * (y - 1970) + (y - 1969) / 4 - (y - 1901) / 100 + (y - 1601) / 400.

Definition InLeapYear (y : Z) : bool :=
  (y mod 4 =? 0) && (negb (y mod 100 =? 0) || (y mod 400 =? 0)).

Definition DaysInYear (y : Z) : Z := if InLeapYear y then 366 else 365.

(** The day within the year on which month [m] (0 to 11) begins. *)
Definition monthStart (leap : bool) (m : Z) : Z :=
  let l := if leap then 1 else 0 in
  match m with
  | 0 => 0
  | 1 => 31
  | 2 => 59 + l
  | 3 => 90 + l
  | 4 => 120 + l
  | 5 => 151 + l
  | 6 => 181 + l
  | 7 => 212 + l
  | 8 => 243 + l
  | 9 => 273 + l
  | 10 => 304 + l
  | _ => 334 + l
  end.

(** Days of month [m] (0 to 11). *)
Definition DaysInMonth (leap : bool) (m : Z) : Z :=
  match m with
  | 1 => if leap then 29 else 28
  | 3 | 5 | 8 | 10 => 30
  | _ => 31
  end.

(** [MakeDay(year, month, date)]: months beyond 0..11 carry into the year,
    days beyond the month carry into the following months. *)
Definition MakeDay (year month date : Z) : Z :=
  let ym := year + month / 12 in
  let mn := month mod 12 in
  DayFromYear ym + monthStart (InLeapYear ym) mn + date - 1.

(** The year a day number falls in: the year [y] with
    [DayFromYear y <= d < DayFromYear (y + 1)]. *)
Definition YearFromDay (d : Z) : Z :=
  let y := 1970 + (d * 400) / 146097 in
  if d <? DayFromYear y then y - 1
  else if DayFromYear (y + 1) <=? d then y + 1
  else y.

Definition DayWithinYear (d : Z) : Z := d - DayFromYear (YearFromDay d).

(** The month (0 to 11) a day number falls in. *)
Definition MonthFromDay (d : Z) : Z :=
  let leap := InLeapYear (YearFromDay d) in
  let w := DayWithinYear d in
  if w <? monthStart leap 1 then 0
  else if w <? monthStart leap 2 then 1
  else if w <? monthStart leap 3 then 2
  else if w <? monthStart leap 4 then 3
  else if w <? monthStart leap 5 then 4
  else if w <? monthStart leap 6 then 5
  else if w <? monthStart leap 7 then 6
  else if w <? monthStart leap 8 then 7
  else if w <? monthStart leap 9 then 8
  else if w <? monthStart leap 10 then 9
  else if w <? monthStart leap 11 then 10
  else 11.

(** The day of the month (1 to 31) a day number falls on. *)
Definition DateFromDay (d : Z) : Z :=
  DayWithinYear d - monthStart (InLeapYear (YearFromDay d)) (MonthFromDay d) + 1.

(** A [Date]: the invalid date, or a time value in milliseconds. *)
Inductive Date : Type :=
| Invalid
| Time (t : Z).

Definition TimeClip (t : Z) : Date :=
  if Z.abs t <=? 8640000000000000 then Time t else Invalid.

(** [new Date(year, month, date)]; a year from 0 to 99 is read as 19xx. *)
Definition newDate (year month date : Z) : Date :=
  let yr := if (0 <=? year) && (year <=? 99) then 1900 + year else year in
  TimeClip (MakeDay yr month date * msPerDay).

(** [isNaN(date.getTime())] *)
Definition isInvalid (d : Date) : bool :=
  match d with Invalid => true | Time _ => false end.

(** The day number of a valid date. *)
Definition Day (t : Z) : Z := t / msPerDay.

(** [date.getFullYear()], [date.getMonth()] and [date.getDate()] of a valid
    date. *)
Definition getFullYear (t : Z) : Z := YearFromDay (Day t).
Definition getMonth (t : Z) : Z := MonthFromDay (Day t).
Definition getDate (t : Z) : Z := DateFromDay (Day t).

(** The civil date of a valid date: year, month (1 to 12), day. *)
Definition civil (d : Date) : option (Z * Z * Z) :=
  match d with
  | Invalid => None
  | Time t => Some (getFullYear t, getMonth t + 1, getDate t)
  end.

(** Equality of time values: two dates have the same [toISOString()]
    exactly when they are the same instant. *)
Definition eqb (d1 d2 : Date) : bool :=
  match d1, d2 with
  | Time t1, Time t2 => t1 =? t2
  | Invalid, Invalid => true
  | _, _ => false
  end.

(** [parseInt] of a run of digits, as captured by [(\d+)]. *)
Definition parseInt (s : string) : Z :=
  digitsValue 0 (Str.takeWhile Str.isDigit s).

End JSDate.

(* ================================================================== *)
(** * The stand-alone statement parser (src/unnamed/part_001) *)

Module Parser.

Import Regex JSDate.

(** [ParsedTransaction]; [originalText] is kept as the record it serialises
    (the line, or the row that [JSON.stringify] is applied to). *)
Inductive RawRecord : Type :=
| RawLine (line : string)
| RawRow (row : list (string * string)).

Record ParsedTransaction : Type := mkParsed {
  date : Date;
  description : string;
  amount : number;
  originalText : RawRecord;
  merchantName : string
}.

(** [isValidDate], lines 306-308. *)
Definition isValidDate (d : Date) : bool :=
  match d with
  | Invalid => false
  | Time t => (1900 <? getFullYear t) && (getFullYear t <? 2100)
  end.

(** The three formats of [parseDate], in the order of the array. *)
Inductive format : Type := MDY | YMD | MD.

Definition formats : list format := [MDY; YMD; MD].

Definition formatRegex (f : format) : regex :=
  match f with
  | MDY => (* /^(\d{1,2})\/(\d{1,2})\/(\d{4})$/ *)
      seq [Bol; Grp 1 (times digit 1 2); lit "/"; Grp 2 (times digit 1 2);
           lit "/"; Grp 3 (times digit 4 4); Eol]
  | YMD => (* /^(\d{4})-(\d{2})-(\d{2})$/ *)
      seq [Bol; Grp 1 (times digit 4 4); lit "-"; Grp 2 (times digit 2 2);
           lit "-"; Grp 3 (times digit 2 2); Eol]
  | MD => (* /^(\d{1,2})\/(\d{1,2})$/ *)
      seq [Bol; Grp 1 (times digit 1 2); lit "/"; Grp 2 (times digit 1 2); Eol]
  end.

(** The class [[^\d\/\-]]. *)
Definition isDateNoise (c : ascii) : bool :=
  negb (Str.isDigit c || Ascii.eqb c "/" || Ascii.eqb c "-").

Section WithClock.

(** [new Date().getFullYear()] at the time of the call. *)
Variable currentYear : Z.
(** [new Date(dateStr)] on a string: the engine's own date parser. *)
Variable dateParse : string -> Date.

(** The date a matched format denotes: the branches of the loop body. *)
Definition formatDate (f : format) (m : captures) : Date :=
  match f with
  | MD => newDate currentYear (parseInt (group 1 m) - 1) (parseInt (group 2 m))
  | YMD =>
      newDate (parseInt (group 1 m)) (parseInt (group 2 m) - 1)
              (parseInt (group 3 m))
  | MDY =>
      newDate (parseInt (group 3 m)) (parseInt (group 1 m) - 1)
              (parseInt (group 2 m))
  end.

(** The loop over [formats]: the first format that matches and whose date is
    valid decides; a format whose date is not valid is passed over. *)
Fixpoint tryFormats (fs : list format) (cleanDate : string) : option Date :=
  match fs with
  | [] => None
  | f :: rest =>
      match matchRe (formatRegex f) cleanDate with
      | Some m =>
          let date := formatDate f (groups m) in
          if isValidDate date then Some date else tryFormats rest cleanDate
      | None => tryFormats rest cleanDate
      end
  end.

(** [parseDate], lines 232-268. *)
Definition parseDate (dateStr : string) : option Date :=
  let cleanDate := Str.remove isDateNoise dateStr in
  match tryFormats formats cleanDate with
  | Some date => Some date
  | None =>
      let date := dateParse dateStr in
      if isValidDate date then Some date else None
  end.

(** [parseAmount], lines 270-286. *)
Definition parseAmount : string -> number := Amount.parseAmount.

(** [s.replace(/\d{4,}/g, '')]: runs of four digits or more are removed. *)
Fixpoint removeLongNumbers (fuel : nat) (s : string) : string :=
  match fuel, s with
  | S fuel', String c t =>
      let run := Str.takeWhile Str.isDigit s in
      if (4 <=? String.length run)%nat
      then removeLongNumbers fuel' (Str.dropWhile Str.isDigit s)
      else if Str.isDigit c
      then run ++ removeLongNumbers fuel' (Str.dropWhile Str.isDigit s)
      else String c (removeLongNumbers fuel' t)
  | _, _ => s
  end.

(** [s.replace(/\s+/g, ' ')]: every run of white space becomes one space. *)
Fixpoint collapseSpaces (s : string) : string :=
  match s with
  | EmptyString => EmptyString
  | String c t =>
      if Str.isSpace c then
        match t with
        | String d _ =>
            if Str.isSpace d then collapseSpaces t
            else String " " (collapseSpaces t)
        | EmptyString => String " " EmptyString
        end
      else String c (collapseSpaces t)
  end.

(** [s.split(/\s+/)] *)
Fixpoint splitSpaces (fuel : nat) (s : string) : list string :=
  match fuel with
  | O => [s]
  | S fuel' =>
      let w := Str.takeWhile (fun c => negb (Str.isSpace c)) s in
      match Str.dropWhile (fun c => negb (Str.isSpace c)) s with
      | EmptyString => [w]
      | u => w :: splitSpaces fuel' (Str.dropWhile Str.isSpace u)
      end
  end.

(** [words.join(' ')] *)
Fixpoint join (ws : list string) : string :=
  match ws with
  | [] => EmptyString
  | [w] => w
  | w :: rest => w ++ " " ++ join rest
  end.

(** [extractMerchantName], lines 288-304. *)
Definition extractMerchantName (description : string) : string :=
  let cleaned :=
    Str.trim
      (collapseSpaces
         (Str.remove (fun c => Ascii.eqb c "#" || Ascii.eqb c "*")
            (removeLongNumbers (String.length description)
               (Str.remove (Ascii.eqb "*") description)))) in
  let words := splitSpaces (String.length cleaned) cleaned in
  if (3 <? List.length words)%nat then join (firstn 3 words) else cleaned.

(** The patterns of [parsePDFLine], in the order of the array. *)
Definition amountPattern : regex :=
  (* ([\d,]+\.?\d{0,2}) *)
  Grp 3 (seq [plus digitOrComma; opt "."; times digit 0 2]).

Definition patterns : list regex :=
  [ (* /(\d{1,2}\/\d{1,2}\/\d{4})\s+(.+?)\s+\$?([\d,]+\.?\d{0,2})$/ *)
    seq [Grp 1 (seq [times digit 1 2; lit "/"; times digit 1 2; lit "/";
                     times digit 4 4]);
         plus space; Grp 2 (plusLazy dot); plus space; opt "$";
         amountPattern; Eol];
    (* /(\d{1,2}\/\d{1,2})\s+(.+?)\s+\$?([\d,]+\.?\d{0,2})$/ *)
    seq [Grp 1 (seq [times digit 1 2; lit "/"; times digit 1 2]);
         plus space; Grp 2 (plusLazy dot); plus space; opt "$";
         amountPattern; Eol];
    (* /(\d{4}-\d{2}-\d{2})\s+(.+?)\s+([\d,]+\.?\d{0,2})$/ *)
    seq [Grp 1 (seq [times digit 4 4; lit "-"; times digit 2 2; lit "-";
                     times digit 2 2]);
         plus space; Grp 2 (plusLazy dot); plus space;
         amountPattern; Eol] ].

(** The body of the loop of [parsePDFLine] for one pattern that matched:
    [None] is [continue]. *)
Definition buildLine (line : string) (m : captures) : option ParsedTransaction :=
  match parseDate (group 1 m) with
  | None => None
  | Some date =>
      let amount := parseAmount (group 3 m) in
      if (isNaN amount || isZero amount)%bool then None
      else
        let cleanDescription := Str.trim (collapseSpaces (group 2 m)) in
        if (Str.isEmpty cleanDescription
            || (String.length cleanDescription <? 2)%nat)%bool then None
        else
          (* Assume expenses are negative (most transactions in statements) *)
          let finalAmount := if gtZero amount then neg amount else amount in
          Some (mkParsed date cleanDescription finalAmount (RawLine line)
                         (extractMerchantName cleanDescription))
  end.

Fixpoint tryPatterns (ps : list regex) (line : string)
    : option ParsedTransaction :=
  match ps with
  | [] => None
  | p :: rest =>
      match matchRe p line with
      | Some m =>
          match buildLine line (groups m) with
          | Some tx => Some tx
          | None => tryPatterns rest line
          end
      | None => tryPatterns rest line
      end
  end.

(** [parsePDFLine], lines 191-230. *)
Definition parsePDFLine (line : string) : option ParsedTransaction :=
  tryPatterns patterns line.

(** A row of the CSV reader: the header names with the values of the line.
    [get row f] is [row[f]], the empty string standing for [undefined] (both
    are falsy, and the code reads a field only after testing it). *)
Definition Row : Type := list (string * string).

Fixpoint get (row : Row) (field : string) : string :=
  match row with
  | [] => EmptyString
  | (k, v) :: rest => if String.eqb k field then v else get rest field
  end.

Definition truthy (s : string) : bool := negb (Str.isEmpty s).

Definition dateFields : list string :=
  ["Date"; "Transaction Date"; "Posted Date"; "date"; "DATE"].
Definition descriptionFields : list string :=
  ["Description"; "Merchant"; "Transaction Description"; "description";
   "DESCRIPTION"; "Payee"].
Definition amountFields : list string :=
  ["Amount"; "Transaction Amount"; "Debit"; "Credit"; "amount"; "AMOUNT"].

(** "Find date": the value of [date] when the loop ends. *)
Fixpoint findDate (fields : list string) (row : Row) : option Date :=
  match fields with
  | [] => None
  | field :: rest =>
      if truthy (get row field) then
        match parseDate (get row field) with
        | Some d => Some d
        | None => findDate rest row
        end
      else findDate rest row
  end.

(** "Find description" *)
Fixpoint findDescription (fields : list string) (row : Row) : string :=
  match fields with
  | [] => EmptyString
  | field :: rest =>
      if (truthy (get row field) && truthy (Str.trim (get row field)))%bool
      then Str.trim (get row field)
      else findDescription rest row
  end.

(** "Find amount": 0 when no field holds a number other than zero. *)
Fixpoint findAmount (fields : list string) (row : Row) : number :=
  match fields with
  | [] => Fin 0
  | field :: rest =>
      if truthy (get row field) then
        let parsedAmount := parseAmount (get row field) in
        if (negb (isNaN parsedAmount) && negb (isZero parsedAmount))%bool
        then parsedAmount
        else findAmount rest row
      else findAmount rest row
  end.

(** [a || b || c] on field values. *)
Definition firstTruthy (a b c : string) : string :=
  if truthy a then a else if truthy b then b else c.

(** "Handle separate debit/credit columns" *)
Definition debitCredit (row : Row) (amount : number) : number :=
  if isZero amount then
    let debit := firstTruthy (get row "Debit") (get row "debit") (get row "DEBIT") in
    let credit :=
      firstTruthy (get row "Credit") (get row "credit") (get row "CREDIT") in
    let amount1 :=
      if truthy debit then
        let debitAmount := parseAmount debit in
        if negb (isNaN debitAmount) then neg (abs debitAmount) else amount
      else amount in
    if truthy credit then
      let creditAmount := parseAmount credit in
      if negb (isNaN creditAmount) then abs creditAmount else amount1
    else amount1
  else amount.

(** [parseCSVRow], lines 80-144. *)
Definition parseCSVRow (row : Row) : option ParsedTransaction :=
  let date := findDate dateFields row in
  let description := findDescription descriptionFields row in
  let amount := debitCredit row (findAmount amountFields row) in
  match date with
  | None => None
  | Some d =>
      if (Str.isEmpty description || isZero amount)%bool then None
      else Some (mkParsed d description amount (RawRow row)
                          (extractMerchantName description))
  end.

End WithClock.

End Parser.

(* ================================================================== *)
(** * The [StatementParser] class (src/src/server/categorizer.ts) *)

Module StatementParser.

Import Regex JSDate.

(** The transactions are those of the stand-alone parser;
    [merchantCategory], which nothing below reads, is left out. *)
Definition ParsedTransaction : Type := Parser.ParsedTransaction.

Section WithClock.

Variable currentYear : Z.

(** [parseDate], lines 307-334: the date of the first format that matches,
    whatever its year; no other way of reading a date. *)
Fixpoint tryFormats (fs : list Parser.format) (cleanDate : string)
    : option Date :=
  match fs with
  | [] => None
  | f :: rest =>
      match matchRe (Parser.formatRegex f) cleanDate with
      | Some m => Some (Parser.formatDate currentYear f (groups m))
      | None => tryFormats rest cleanDate
      end
  end.

Definition parseDate (dateStr : string) : option Date :=
  tryFormats Parser.formats (Str.remove Parser.isDateNoise dateStr).

(** [parseAmount], lines 336-343: [parseFloat] once [$] and [,] are gone. *)
Definition parseAmount (amountStr : string) : number :=
  parseFloat
    (Str.remove (fun c => Ascii.eqb c "$" || Ascii.eqb c ",") amountStr).

(** [extractMerchantName], lines 345-357. *)
Definition extractMerchantName (description : string) : string :=
  let cleaned :=
    Str.trim
      (Str.remove (fun c => Ascii.eqb c "#" || Ascii.eqb c "*")
         (Parser.removeLongNumbers (String.length description)
            (Str.remove (Ascii.eqb "*") description))) in
  let parts := Parser.splitSpaces (String.length cleaned) cleaned in
  if (3 <? List.length parts)%nat then Parser.join (firstn 3 parts)
  else cleaned.

(** /(\d{1,2}\/\d{1,2}\/\d{4}|\d{4}-\d{2}-\d{2}|\d{2}\/\d{2})/ *)
Definition dateRegex : regex :=
  Grp 1
    (Alt (seq [times digit 1 2; lit "/"; times digit 1 2; lit "/";
               times digit 4 4])
       (Alt (seq [times digit 4 4; lit "-"; times digit 2 2; lit "-";
                  times digit 2 2])
            (seq [times digit 2 2; lit "/"; times digit 2 2]))).

(** The group of [amountRegex]: [[\d,]+\.?\d{0,2}] *)
Definition amountBody : regex :=
  seq [plus digitOrComma; opt "."; times digit 0 2].

(** /[\$]?([\d,]+\.?\d{0,2})/g *)
Definition amountRegex : regex := seq [opt "$"; Grp 1 amountBody].

(** The line names a payment or a credit. *)
Definition isCreditLine (line : string) : bool :=
  Str.includes (Str.toLowerCase line) "payment"
  || Str.includes (Str.toLowerCase line) "credit".

(** [parsePDFLine], lines 270-305. *)
Definition parsePDFLine (line : string) : option ParsedTransaction :=
  match matchRe dateRegex line with
  | None => None
  | Some dateMatch =>
      match parseDate (group 1 (groups dateMatch)) with
      | None => None
      | Some date =>
          match List.rev (matchAll amountRegex line) with
          | [] => None
          | lastMatch :: _ =>
              let amountStr := group 1 (groups lastMatch) in
              let amount := parseAmount amountStr in
              if (isNaN amount || isZero amount)%bool then None
              else
                let dateEndIndex :=
                  Str.indexOf line (group 1 (groups dateMatch))
                  + Z.of_nat (String.length (group 1 (groups dateMatch))) in
                let amountStartIndex :=
                  Str.lastIndexOf line (matched lastMatch) in
                let description0 :=
                  Str.trim (Str.substring line dateEndIndex amountStartIndex) in
                let description :=
                  if Str.isEmpty description0
                  then Str.trim
                         (Str.removeFirst
                            (Str.removeFirst line (matched dateMatch))
                            (matched lastMatch))
                  else description0 in
                if (Str.isEmpty description
                    || (String.length description <? 3)%nat)%bool then None
                else
                  Some (Parser.mkParsed date description
                          (if isCreditLine line then amount else neg amount)
                          (Parser.RawLine line)
                          (extractMerchantName description))
          end
      end
  end.

End WithClock.

End StatementParser.

(* ================================================================== *)
(** * The [TransactionCategorizer] class (src/src/server/categorizer.ts) *)

Module Categorizer.

Record rule : Type := mkRule {
  categoryId : string;
  keywords : list string;
  confidence : Q
}.

Definition rules : list rule :=
  [ mkRule "groceries"
      ["grocery"; "supermarket"; "walmart"; "target"; "costco"; "safeway";
       "kroger"; "food"; "market"] (9 # 10);
    mkRule "gas"
      ["gas"; "fuel"; "shell"; "exxon"; "chevron"; "bp"; "76"; "mobil";
       "station"] (9 # 10);
    mkRule "restaurants"
      ["restaurant"; "cafe"; "coffee"; "pizza"; "burger"; "taco"; "subway";
       "mcdonald"; "starbucks"; "kfc"; "dining"] (85 # 100);
    mkRule "shopping"
      ["amazon"; "ebay"; "shop"; "store"; "retail"; "mall"; "outlet";
       "department"] (8 # 10);
    mkRule "utilities"
      ["electric"; "water"; "gas company"; "utility"; "power"; "energy";
       "pge"; "edison"] (9 # 10);
    mkRule "transport"
      ["uber"; "lyft"; "taxi"; "bus"; "metro"; "transit"; "parking"; "toll"]
      (85 # 100);
    mkRule "entertainment"
      ["netflix"; "spotify"; "hulu"; "disney"; "movie"; "theater"; "cinema";
       "concert"; "game"] (85 # 100);
    mkRule "healthcare"
      ["pharmacy"; "cvs"; "walgreens"; "doctor"; "hospital"; "medical";
       "clinic"; "health"] (9 # 10);
    mkRule "travel"
      ["airline"; "hotel"; "booking"; "expedia"; "airbnb"; "flight";
       "airport"] (85 # 100) ].

(** [rule.keywords.filter(keyword => text.includes(keyword)).length] *)
Definition matchCount (text : string) (r : rule) : nat :=
  List.length (List.filter (Str.includes text) (keywords r)).

(** The loop over the rules: a rule decides when one of its keywords occurs
    in the text and its category is among the loaded ones. *)
Fixpoint firstRule (categories : list string) (text : string)
    (rs : list rule) : option rule :=
  match rs with
  | [] => None
  | r :: rest =>
      if ((0 <? matchCount text r)%nat
          && List.existsb (String.eqb (categoryId r)) categories)%bool
      then Some r
      else firstRule categories text rest
  end.

(** [categorizeTransaction], lines 26-99: the category and the confidence;
    [categories] are the ids of [this.categories]. *)
Definition categorizeTransaction (categories : list string)
    (description merchantName : string) : string * Q :=
  let text := Str.toLowerCase (description ++ " " ++ merchantName) in
  match firstRule categories text rules with
  | Some r =>
      (categoryId r,
       Qmult (confidence r)
         (Z.of_nat (matchCount text r) # Pos.of_nat (List.length (keywords r))))
  | None => ("other", 3 # 10)
  end.

End Categorizer.

(* ================================================================== *)
(** * The server (src/src/server/working-server.ts) *)

Module Server.

Import Regex JSDate.

(** ** Categorisation, lines 197-254 *)

Record rule : Type := mkRule {
  categoryId : string;
  keywords : list string
}.

Definition rules : list rule :=
  [ (* Subscription services (check first to catch recurring payments) *)
    mkRule "subscriptions"
      ["netflix"; "spotify"; "apple music"; "youtube premium"; "disney+";
       "hulu"; "amazon prime"; "subscription"; "claude.ai"; "anthropic";
       "openai"; "gpt"; "notion"; "slack"; "zoom"; "adobe"; "microsoft";
       "office 365"; "google one"; "dropbox"; "icloud"];
    (* Fitness & Health *)
    mkRule "fitness"
      ["gym"; "fitness"; "yoga"; "pilates"; "crossfit"; "planet fitness";
       "la fitness"; "equinox"; "24 hour fitness"; "bintang badminton";
       "badminton"; "sports club"; "tennis"; "swimming"; "martial arts"];
    (* Education *)
    mkRule "education"
      ["udemy"; "coursera"; "khan academy"; "skillshare"; "pluralsight";
       "linkedin learning"; "education"; "tuition"; "school"; "university";
       "college"; "textbook"; "course"; "training"; "certification";
       "interviewing.io"; "hellointerview"];
    (* Personal Care & Beauty *)
    mkRule "personal_care"
      ["salon"; "spa"; "barber"; "haircut"; "massage"; "manicure"; "pedicure";
       "facial"; "beauty"; "cosmetics"; "skincare"; "footlax";
       "kashish salon"];
    (* Bills & Insurance *)
    mkRule "bills"
      ["insurance"; "phone bill"; "internet"; "cable"; "wireless"; "verizon";
       "at&t"; "comcast"; "xfinity"; "mortgage"; "rent"; "hoa";
       "property tax"];
    (* Home & Garden *)
    mkRule "home_garden"
      ["home depot"; "lowes"; "ikea"; "furniture"; "appliances"; "garden";
       "hardware"; "home improvement"; "decor"];
    (* Groceries *)
    mkRule "groceries"
      ["grocery"; "supermarket"; "walmart"; "target"; "costco"; "safeway";
       "apni mandi"; "mandi"; "trader joe"; "whole foods"; "kroger";
       "new india bazar"];
    (* Restaurants & Food *)
    mkRule "restaurants"
      ["restaurant"; "cafe"; "coffee"; "pizza"; "burger"; "starbucks";
       "mcdonald"; "biryani"; "indian"; "namaste"; "paradise"; "mylapore";
       "jollibee"; "doordash"; "tst*"; "sq *"; "dd *"; "uber eats"; "grubhub";
       "postmates"; "food delivery"; "kitchen"; "cuisine"; "hungry bear";
       "chick-fil-a"];
    (* Gas & Fuel *)
    mkRule "gas"
      ["gas"; "fuel"; "shell"; "exxon"; "chevron"; "bp"; "valero";
       "electrify america"];
    (* Shopping (general retail) *)
    mkRule "shopping"
      ["amazon"; "ebay"; "shop"; "store"; "retail"; "mktpl"; "marketplace";
       "mall"; "clothing"; "fashion"; "shoes"; "electronics"; "flavcity"];
    (* Utilities *)
    mkRule "utilities"
      ["electric"; "water"; "utility"; "power"; "pge"; "sdge"; "gas company"];
    (* Transportation *)
    mkRule "transport"
      ["uber"; "lyft"; "taxi"; "bus"; "parking"; "metro"; "clipper"; "bart";
       "caltrain"; "bridge toll"; "monterey parking"];
    (* Entertainment *)
    mkRule "entertainment"
      ["movie"; "theater"; "cinema"; "concert"; "show"; "ticket";
       "entertainment"; "mystery spot"; "amusement"; "park"];
    (* Healthcare *)
    mkRule "healthcare"
      ["pharmacy"; "cvs"; "walgreens"; "doctor"; "hospital"; "medical";
       "dentist"; "vision"; "health"];
    (* Travel *)
    mkRule "travel"
      ["hotel"; "flight"; "airline"; "airbnb"; "booking"; "expedia"; "travel";
       "vacation"; "resort"; "lodge"; "ynp"; "curry village"; "degnans";
       "basecamp eatery"] ].

(** [rule.keywords.some(keyword => text.includes(keyword))] *)
Definition ruleMatches (text : string) (r : rule) : bool :=
  List.existsb (Str.includes text) (keywords r).

(** The loop [for (const rule of rules)] with its final [return 'other']. *)
Fixpoint scanRules (text : string) (rs : list rule) : string :=
  match rs with
  | [] => "other"
  | r :: rest =>
      if ruleMatches text r then categoryId r else scanRules text rest
  end.

(** The text the rules are matched against. *)
Definition searchText (description merchantName : string) : string :=
  Str.toLowerCase (description ++ " " ++ merchantName).

(** [categorizeTransaction(description, merchantName)]; a missing
    [merchantName] is the empty string. *)
Definition categorizeTransaction (description merchantName : string) : string :=
  scanRules (searchText description merchantName) rules.

(** ** Field normalisers, lines 257-303 *)

Definition ParsedTransaction : Type := Parser.ParsedTransaction.
Definition Row : Type := Parser.Row.

Section WithClock.

Variable currentYear : Z.
Variable dateParse : string -> Date.

(** The loop of [parseDate]: the first format that matches decides, and its
    date is returned as it is. *)
Fixpoint tryFormats (fs : list Parser.format) (cleanDate : string)
    : option Date :=
  match fs with
  | [] => None
  | f :: rest =>
      match matchRe (Parser.formatRegex f) cleanDate with
      | Some m => Some (Parser.formatDate currentYear f (groups m))
      | None => tryFormats rest cleanDate
      end
  end.

(** [parseDate], lines 257-288. *)
Definition parseDate (dateStr : string) : option Date :=
  match tryFormats Parser.formats (Str.remove Parser.isDateNoise dateStr) with
  | Some date => Some date
  | None =>
      let date := dateParse dateStr in
      if negb (isInvalid date) then Some date else None
  end.

(** [parseAmount], lines 291-303. *)
Definition parseAmount : string -> number := Amount.parseAmount.

(** ** Row builders, lines 350-461 *)

(** [s.split(' ')] *)
Fixpoint splitOnSpace (fuel : nat) (s : string) : list string :=
  match fuel with
  | O => [s]
  | S fuel' =>
      let w := Str.takeWhile (fun c => negb (Ascii.eqb c " ")) s in
      match Str.dropWhile (fun c => negb (Ascii.eqb c " ")) s with
      | EmptyString => [w]
      | String _ u => w :: splitOnSpace fuel' u
      end
  end.

(** [description.split(' ').slice(0, 3).join(' ')] *)
Definition merchantOf (description : string) : string :=
  Parser.join (firstn 3 (splitOnSpace (String.length description) description)).

Definition dateFields : list string :=
  ["Date"; "Transaction Date"; "Posted Date"; "date"].
Definition descriptionFields : list string :=
  ["Description"; "Merchant"; "Transaction Description"; "description"].
Definition amountFields : list string :=
  ["Amount"; "Transaction Amount"; "Debit"; "Credit"; "amount"].
Definition allDateFields : list string :=
  dateFields ++ ["Transaction Date"; "Posted Date"].
Definition allDescriptionFields : list string :=
  "Name" :: descriptionFields ++ ["Transaction"].

(** "Find date - expanded field list" *)
Fixpoint findDate (fields : list string) (row : Row) : option Date :=
  match fields with
  | [] => None
  | field :: rest =>
      if Parser.truthy (Parser.get row field) then
        match parseDate (Parser.get row field) with
        | Some d => Some d
        | None => findDate rest row
        end
      else findDate rest row
  end.

(** "Find amount - handle Debit/Credit columns separately" *)
Definition findAmount (row : Row) : number :=
  if Parser.truthy (Parser.get row "Debit") then
    neg (abs (parseAmount (Parser.get row "Debit")))
  else if Parser.truthy (Parser.get row "Credit") then
    abs (parseAmount (Parser.get row "Credit"))
  else Parser.findAmount amountFields row.

(** The body of the loop of [parseRowsWithHeaders]: the transaction pushed
    for one row, if any.  The fields [transactionType], [memo], [location],
    [referenceId] and [csvCardNumber], which the upload does not store, are
    left out. *)
Definition buildRow (row : Row) : option ParsedTransaction :=
  let date := findDate allDateFields row in
  let description := Parser.findDescription allDescriptionFields row in
  let amount := findAmount row in
  match date with
  | Some d =>
      if (Parser.truthy description && negb (isZero amount))%bool
      then Some (Parser.mkParsed d description amount (Parser.RawRow row)
                                 (merchantOf description))
      else None
  | None => None
  end.

Fixpoint collect {X Y : Type} (f : X -> option Y) (xs : list X) : list Y :=
  match xs with
  | [] => []
  | x :: rest =>
      match f x with
      | Some y => y :: collect f rest
      | None => collect f rest
      end
  end.

(** [parseRowsWithHeaders], lines 350-424: what is pushed onto
    [transactions]. *)
Definition parseRowsWithHeaders (rows : list Row) : list ParsedTransaction :=
  collect buildRow rows.

(** The double quotes (character 34) are removed. *)
Definition unquote (s : string) : string := Str.remove (Ascii.eqb "034") s.

(** The body of the loop of [parseRowsWithoutHeaders]; [Object.values(row)]
    are the values in the order of the columns. *)
Definition buildPositional (row : Row) : option ParsedTransaction :=
  let values := List.map snd row in
  if (5 <=? List.length values)%nat then
    let dateStr := unquote (nth 0 values EmptyString) in
    let amountStr := unquote (nth 1 values EmptyString) in
    let description := unquote (nth 4 values EmptyString) in
    let amount := parseAmount amountStr in
    match parseDate dateStr with
    | Some d =>
        if (Parser.truthy description && negb (isNaN amount)
            && negb (isZero amount))%bool
        then Some (Parser.mkParsed d description amount (Parser.RawRow row)
                                   (merchantOf description))
        else None
    | None => None
    end
  else None.

(** [parseRowsWithoutHeaders], lines 427-461. *)
Definition parseRowsWithoutHeaders (rows : list Row) : list ParsedTransaction :=
  collect buildPositional rows.

(** /date|description|amount|transaction|debit|credit|name|memo/i.test(s) *)
Definition headerTerms : list string :=
  ["date"; "description"; "amount"; "transaction"; "debit"; "credit"; "name";
   "memo"].

Definition looksLikeHeader (s : string) : bool :=
  List.existsb (Str.includes (Str.toLowerCase s)) headerTerms.

(** [parseCSV], lines 306-347, on the rows the CSV reader delivers. *)
Definition parseCSV (rows : list Row) : list ParsedTransaction :=
  match rows with
  | [] => []
  | firstRow :: _ =>
      let hasHeaders :=
        List.existsb (fun kv => looksLikeHeader (fst kv) || looksLikeHeader (snd kv))
                     firstRow in
      if negb hasHeaders then parseRowsWithoutHeaders rows
      else parseRowsWithHeaders rows
  end.

(** [parsePDF], lines 465-486: "parsing not implemented yet". *)
Definition parsePDF : list ParsedTransaction := [].

(** ** The upload handler, lines 589-742 *)

(** A row of the table [transactions]. *)
Record StoredTransaction : Type := mkStored {
  id : string;
  amount : number;
  description : string;
  merchant_name : string;
  date : Date;
  category_id : string;
  source_id : string;
  original_text : Parser.RawRecord
}.

(** A row of the table [uploaded_files]. *)
Record UploadedFile : Type := mkUploaded {
  file_id : string;
  filename : string;
  original_name : string;
  file_source_id : string;
  status : string;
  error_message : string;
  transactions_count : nat;
  processed_count : nat;
  duplicate_count : nat
}.

(** What is at a path of the file system. *)
Inductive FileData : Type :=
| Readable (content : string)
| Unreadable (message : string).

Record World : Type := mkWorld {
  transactions : list StoredTransaction;
  uploaded_files : list UploadedFile;
  disk : list (string * FileData)
}.

(** [req.file] as multer leaves it, and the fields of [req.body] read. *)
Record File : Type := mkFile {
  path : string;
  multerName : string;
  originalname : string
}.

Record Request : Type := mkRequest {
  file : option File;
  sourceId : string;
  source_id_alt : string
}.

Inductive Response : Type :=
| Failure (httpStatus : nat) (error : string)
| Success (transactionCount duplicateCount : nat) (fileId : string)
          (preview : list (string * number * Date * string)).

(** The storage engine refuses the row (a constraint of the table fails):
    [dbRun] throws. *)
Variable insertFails : StoredTransaction -> bool.
(** The CSV reader: the rows of a file's content. *)
Variable csvRows : string -> list Row.

(** [amount = ?] of the duplicate query. *)
Definition sameNumber (x y : number) : bool :=
  match x, y with
  | NaN, NaN => true
  | Inf a, Inf b => Bool.eqb a b
  | Fin p, Fin q => Qeq_bool p q
  | _, _ => false
  end.

(** The [WHERE] clause of the duplicate query:
    [description = ? AND amount = ? AND date = ?], the date being compared
    as its [toISOString()]. *)
Definition sameKey (tx : ParsedTransaction) (r : StoredTransaction) : bool :=
  String.eqb (description r) (Parser.description tx)
  && sameNumber (amount r) (Parser.amount tx)
  && JSDate.eqb (date r) (Parser.date tx).

(** [SELECT COUNT( * ) as count FROM transactions WHERE ...] *)
Definition countMatching (table : list StoredTransaction)
    (tx : ParsedTransaction) : nat :=
  List.length (List.filter (sameKey tx) table).

Definition isDuplicate (table : list StoredTransaction)
    (tx : ParsedTransaction) : bool :=
  (0 <? countMatching table tx)%nat.

(** The stored row as it would be under another source. *)
Definition withSource (src : string) (r : StoredTransaction) : StoredTransaction :=
  mkStored (id r) (amount r) (description r) (merchant_name r) (date r)
           (category_id r) src (original_text r).

(** The state of the storage loop: the table, [storedCount],
    [duplicateCount], and how many ids have been drawn. *)
Record LoopState : Type := mkLoop {
  table : list StoredTransaction;
  storedCount : nat;
  duplicateCount : nat;
  drawn : nat
}.

(** The row [INSERT INTO transactions] writes for [tx]. *)
Definition rowOf (sourceId : string) (newId : string)
    (tx : ParsedTransaction) : StoredTransaction :=
  mkStored newId (Parser.amount tx) (Parser.description tx)
           (Parser.merchantName tx) (Parser.date tx)
           (categorizeTransaction (Parser.description tx) (Parser.merchantName tx))
           sourceId (Parser.originalText tx).

(** The body of the storage loop, lines 646-684. *)
Definition storeOne (sourceId : string) (txId : nat -> string)
    (st : LoopState) (tx : ParsedTransaction) : LoopState :=
  if isDuplicate (table st) tx then
    mkLoop (table st) (storedCount st) (S (duplicateCount st)) (drawn st)
  else
    let row := rowOf sourceId (txId (drawn st)) tx in
    if insertFails row then
      (* the error is caught and logged *)
      mkLoop (table st) (storedCount st) (duplicateCount st) (S (drawn st))
    else
      mkLoop (table st ++ [row]) (S (storedCount st)) (duplicateCount st)
             (S (drawn st)).

Definition storeAll (sourceId : string) (txId : nat -> string)
    (txs : list ParsedTransaction) (table0 : list StoredTransaction)
    : LoopState :=
  fold_left (storeOne sourceId txId) txs (mkLoop table0 0 0 0).

(** The strategy the upload chooses for a file, lines 624-635. *)
Inductive Strategy : Type := Delimited | LineBased | Unsupported.

Definition detectFormat (fileName fileBuffer : string) : Strategy :=
  let isPdf := String.eqb (Str.take 4 fileBuffer) "%PDF" in
  let isLikelyCsv :=
    Str.endsWith fileName ".csv" || Str.includes (Str.take 100 fileBuffer) "," in
  if (isLikelyCsv || Str.endsWith fileName ".csv")%bool then Delimited
  else if (isPdf || Str.endsWith fileName ".pdf")%bool then LineBased
  else Unsupported.

(** [fs.readFileSync(path)]: the content, or the message of the error
    thrown. *)
Fixpoint readFileSync (d : list (string * FileData)) (p : string)
    : string + string :=
  match d with
  | [] => inr "ENOENT: no such file or directory"
  | (q, data) :: rest =>
      if String.eqb q p then
        match data with
        | Readable content => inl content
        | Unreadable message => inr message
        end
      else readFileSync rest p
  end.

(** [fs.unlinkSync(path)] *)
Definition unlinkSync (d : list (string * FileData)) (p : string)
    : list (string * FileData) :=
  List.filter (fun e => negb (String.eqb (fst e) p)) d.

Definition exists_ (d : list (string * FileData)) (p : string) : bool :=
  List.existsb (fun e => String.eqb (fst e) p) d.

(** [UPDATE uploaded_files SET ... WHERE id = ?] *)
Definition updateFile (f : UploadedFile -> UploadedFile) (fileId : string)
    (fs : list UploadedFile) : list UploadedFile :=
  List.map (fun r => if String.eqb (file_id r) fileId then f r else r) fs.

Definition setFailed (message : string) (r : UploadedFile) : UploadedFile :=
  mkUploaded (file_id r) (filename r) (original_name r) (file_source_id r)
             "failed" message (transactions_count r) (processed_count r)
             (duplicate_count r).

Definition setCompleted (total stored dup : nat) (r : UploadedFile)
    : UploadedFile :=
  mkUploaded (file_id r) (filename r) (original_name r) (file_source_id r)
             "completed" (error_message r) total stored dup.

Definition previewOf (txs : list ParsedTransaction)
    : list (string * number * Date * string) :=
  List.map
    (fun t => (Parser.description t, Parser.amount t, Parser.date t,
               categorizeTransaction (Parser.description t) (Parser.merchantName t)))
    (firstn 5 txs).

(** [req.body.sourceId || req.body.source_id || 'default_credit_card'] *)
Definition sourceOf (req : Request) : string :=
  if Parser.truthy (sourceId req) then sourceId req
  else if Parser.truthy (source_id_alt req) then source_id_alt req
  else "default_credit_card".

(** [app.post('/api/upload')], lines 589-742.  [fileId] and [txId] are the
    identifiers the handler draws from the clock and [Math.random]. *)
Definition upload (w : World) (req : Request) (fileId : string)
    (txId : nat -> string) : World * Response :=
  match file req with
  | None => (w, Failure 400 "No file uploaded")
  | Some f =>
      let fileName := Str.toLowerCase (originalname f) in
      let src := sourceOf req in
      let record :=
        mkUploaded fileId (multerName f) (originalname f) src "processing"
                   EmptyString 0 0 0 in
      let w1 := mkWorld (transactions w) (uploaded_files w ++ [record]) (disk w) in
      match readFileSync (disk w1) (path f) with
      | inr message =>
          (* the [catch] of the handler *)
          (mkWorld (transactions w1)
                   (updateFile (setFailed message) fileId (uploaded_files w1))
                   (disk w1),
           Failure 500 ("File processing failed: " ++ message))
      | inl fileBuffer =>
          let extracted :=
            match detectFormat fileName fileBuffer with
            | Delimited => Some (parseCSV (csvRows fileBuffer))
            | LineBased => Some parsePDF
            | Unsupported => None
            end in
          match extracted with
          | None => (w1, Failure 400 "Unsupported file type. Use CSV or PDF files.")
          | Some [] => (w1, Failure 400 "No transactions found in the file")
          | Some txs =>
              let st := storeAll src txId txs (transactions w1) in
              (mkWorld (table st)
                 (updateFile
                    (setCompleted (List.length txs) (storedCount st)
                                  (duplicateCount st))
                    fileId (uploaded_files w1))
                 (unlinkSync (disk w1) (path f)),
               Success (storedCount st) (duplicateCount st) fileId
                       (previewOf txs))
          end
      end
  end.

End WithClock.

End Server.

(* ================================================================== *)
(** * Stand-ins for the environment

    Concrete values for what the handler takes from its environment, used
    where a property is evaluated on an input. *)

Module Env.

Import JSDate.

(** A date parser that rejects every string. *)
Definition noFallback (_ : string) : Date := Invalid.

(** What the tests show of a transaction. *)
Definition view (tx : Parser.ParsedTransaction) :=
  (civil (Parser.date tx), Parser.description tx, Parser.amount tx).

(** A storage engine that accepts every row. *)
Definition accepts (_ : Server.StoredTransaction) : bool := false.

(** A storage engine that refuses a [NaN] amount ([amount REAL NOT NULL],
    [NaN] being bound as [NULL]). *)
Definition refusesNaN (r : Server.StoredTransaction) : bool :=
  isNaN (Server.amount r).

(** [s.split(c)] *)
Fixpoint splitOn (c : ascii) (fuel : nat) (s : string) : list string :=
  match fuel with
  | O => [s]
  | S fuel' =>
      let w := Str.takeWhile (fun d => negb (Ascii.eqb d c)) s in
      match Str.dropWhile (fun d => negb (Ascii.eqb d c)) s with
      | EmptyString => [w]
      | String _ u => w :: splitOn c fuel' u
      end
  end.

(** A reader of plain CSV (no quoting): the first line names the columns,
    every other non-empty line is a row. *)
Definition plainCsv (content : string) : list Parser.Row :=
  let lines :=
    List.filter (fun l => negb (Str.isEmpty l))
                (splitOn "010" (String.length content) content) in
  match lines with
  | [] => []
  | header :: body =>
      let names := splitOn "," (String.length header) header in
      List.map
        (fun l => List.combine names (splitOn "," (String.length l) l))
        body
  end.

(** The identifiers drawn for the rows. *)
Definition txId (n : nat) : string :=
  "tx_" ++ String (ascii_of_nat (48 + n)) EmptyString.

Definition nl : string := String "010" EmptyString.

(** A CSV file with a [Debit] column, one of whose values is not a number. *)
Definition debitCsv : string :=
  "Date,Description,Debit" ++ nl ++
  "07/28/2024,Coffee,n/a" ++ nl ++
  "07/27/2024,Tea,4.50".

(** The CSV file of the specification's end-to-end scenario. *)
Definition sampleCsv : string :=
  "Date,Description,Amount" ++ nl ++
  "07/28/2024,Walmart Supercenter,-89.45" ++ nl ++
  "07/27/2024,Shell Gas Station,-45.67".

(** Where multer leaves the uploaded file. *)
Definition tempPath : string := "uploads/tmp".

(** The request that uploads that file under the name [name] for the source
    [card_A], and a world that holds nothing but the file. *)
Definition requestOf (name : string) : Server.Request :=
  Server.mkRequest (Some (Server.mkFile tempPath "tmp" name)) "card_A" "".

Definition worldWith (data : Server.FileData) : Server.World :=
  Server.mkWorld [] [] [(tempPath, data)].

(** The handler in the year 2026, with the stand-ins above. *)
Definition upload : Server.World -> Server.Request -> string -> (nat -> string)
                    -> Server.World * Server.Response :=
  Server.upload 2026 noFallback accepts plainCsv.

End Env.

(* ================================================================== *)
(** * Vocabulary of the statements below *)

Module Spec.

Import Regex JSDate.

Local Open Scope nat_scope.

(** A run of digits of a length between [lo] and [hi]. *)
Definition isDigits (lo hi : nat) (s : string) : bool :=
  Str.forallb Str.isDigit s && (lo <=? String.length s)
  && (String.length s <=? hi).

(** The strings of a date format, by their three fields (the third is not
    used by [MD]), and the captures a match of them makes. *)
Definition formatWord (f : Parser.format) (a b c : string) : string :=
  match f with
  | Parser.MDY => a ++ "/" ++ b ++ "/" ++ c
  | Parser.YMD => a ++ "-" ++ b ++ "-" ++ c
  | Parser.MD => a ++ "/" ++ b
  end.

Definition formatFields (f : Parser.format) (a b c : string) : bool :=
  match f with
  | Parser.MDY => isDigits 1 2 a && isDigits 1 2 b && isDigits 4 4 c
  | Parser.YMD => isDigits 4 4 a && isDigits 2 2 b && isDigits 2 2 c
  | Parser.MD => isDigits 1 2 a && isDigits 1 2 b && Str.isEmpty c
  end.

Definition formatGroups (f : Parser.format) (a b c : string) : captures :=
  match f with
  | Parser.MD => [(2, b); (1, a)]
  | _ => [(3, c); (2, b); (1, a)]
  end.

(** The first format, in the order of the array, that matches, with its
    captures. *)
Fixpoint firstFormat (fs : list Parser.format) (cleanDate : string)
    : option (Parser.format * captures) :=
  match fs with
  | [] => None
  | f :: rest =>
      match matchRe (Parser.formatRegex f) cleanDate with
      | Some m => Some (f, groups m)
      | None => firstFormat rest cleanDate
      end
  end.

(** The year, month (1 for January) and day a matched format names. *)
Definition yearField (currentYear : Z) (f : Parser.format) (m : captures) : Z :=
  match f with
  | Parser.MD => currentYear
  | Parser.YMD => parseInt (group 1 m)
  | Parser.MDY => parseInt (group 3 m)
  end.

Definition monthField (f : Parser.format) (m : captures) : Z :=
  match f with
  | Parser.YMD => parseInt (group 2 m)
  | _ => parseInt (group 1 m)
  end.

Definition dayField (f : Parser.format) (m : captures) : Z :=
  match f with
  | Parser.YMD => parseInt (group 3 m)
  | _ => parseInt (group 2 m)
  end.


Definition notMinus (c : ascii) : bool := negb (Ascii.eqb c "-").

End Spec.

(* ================================================================== *)
(** * The server's other endpoints (src/src/server/working-server.ts) *)

Module ServerApi.

Import Regex JSDate Server.

(** ** The seeded categories, lines 87-104 *)

(** The ids of the rows [INSERT OR IGNORE INTO categories] writes when the
    database is opened. *)
Definition seededCategories : list string :=
  ["groceries"; "restaurants"; "gas"; "shopping"; "utilities";
   "entertainment"; "healthcare"; "transport"; "travel"; "fitness";
   "education"; "subscriptions"; "bills"; "personal_care"; "home_garden";
   "other"].

(** ** [extractReferenceId], lines 576-586 *)

(** /(\d{20,})/ *)
Definition referenceRegex : regex := Grp 1 (Rep digit 20 None true).

Definition extractReferenceId (memo : string) : option string :=
  if Str.isEmpty memo then None
  else
    match matchRe referenceRegex memo with
    | Some refMatch => Some (group 1 (groups refMatch))
    | None => None
    end.

(** ** The key of the duplicate query on stored rows *)

(** Two stored rows agree on what the duplicate query of the upload
    compares: description, amount and date. *)
Definition sameStoredKey (a b : StoredTransaction) : bool :=
  String.eqb (description a) (description b)
  && sameNumber (amount a) (amount b)
  && JSDate.eqb (date a) (date b).

(** No two rows of the table agree on the key. *)
Fixpoint distinctKeys (t : list StoredTransaction) : bool :=
  match t with
  | [] => true
  | r :: rest =>
      negb (List.existsb (sameStoredKey r) rest) && distinctKeys rest
  end.

(** ** Changing the category of stored rows, lines 772-826 and 891-918 *)

Definition setCategory (categoryId : string) (r : StoredTransaction)
    : StoredTransaction :=
  mkStored (id r) (amount r) (description r) (merchant_name r) (date r)
           categoryId (source_id r) (original_text r).

(** [UPDATE transactions SET category_id = ? WHERE id = ?] *)
Definition updateCategory (categoryId txId : string)
    (t : list StoredTransaction) : list StoredTransaction :=
  List.map (fun r => if String.eqb (id r) txId then setCategory categoryId r
                     else r) t.

(** [this.changes]: the number of rows the statement updated. *)
Definition changes (txId : string) (t : list StoredTransaction) : nat :=
  List.length (List.filter (fun r => String.eqb (id r) txId) t).

(** The state of the loop of the recategorisation: the table,
    [updatedCount] and [unchangedCount]. *)
Record RecatState : Type := mkRecat {
  recatTable : list StoredTransaction;
  updatedCount : nat;
  unchangedCount : nat
}.

(** The body of the loop [for (const transaction of transactions)]; the
    transaction is a row as it was selected before the loop began. *)
Definition recategorizeOne (st : RecatState) (transaction : StoredTransaction)
    : RecatState :=
  let newCategoryId :=
    categorizeTransaction (description transaction)
                          (merchant_name transaction) in
  if negb (String.eqb newCategoryId (category_id transaction)) then
    mkRecat (updateCategory newCategoryId (id transaction) (recatTable st))
            (S (updatedCount st)) (unchangedCount st)
  else
    mkRecat (recatTable st) (updatedCount st) (S (unchangedCount st)).

(** The answer of the endpoint: [updatedCount], [unchangedCount] and
    [totalTransactions]. *)
Record RecatResponse : Type := mkRecatResponse {
  updated : nat;
  unchanged : nat;
  totalTransactions : nat
}.

(** [app.post('/api/recategorize-transactions')], lines 772-826. *)
Definition recategorize (t : list StoredTransaction)
    : list StoredTransaction * RecatResponse :=
  let transactions := t in
  let st := fold_left recategorizeOne transactions (mkRecat t 0 0) in
  (recatTable st,
   mkRecatResponse (updatedCount st) (unchangedCount st)
                   (List.length transactions)).

(** The row with the category the rules give it now, and whether that
    differs from the category it is stored with. *)
Definition recategorized (r : StoredTransaction) : StoredTransaction :=
  setCategory (categorizeTransaction (description r) (merchant_name r)) r.

Definition isStale (r : StoredTransaction) : bool :=
  negb (String.eqb (categorizeTransaction (description r) (merchant_name r))
                   (category_id r)).

(** The ids of the table are pairwise different ([id TEXT PRIMARY KEY]). *)
Fixpoint uniqueIds (t : list StoredTransaction) : bool :=
  match t with
  | [] => true
  | r :: rest =>
      negb (List.existsb (fun x => String.eqb (id x) (id r)) rest)
      && uniqueIds rest
  end.

Inductive PutResponse : Type :=
| PutOk
| PutError (httpStatus : nat) (error : string).

(** [app.put('/api/transactions/:id/category')], lines 891-918. *)
Definition putCategory (t : list StoredTransaction) (txId categoryId : string)
    : list StoredTransaction * PutResponse :=
  if (Str.isEmpty txId || Str.isEmpty categoryId)%bool then
    (t, PutError 400 "Transaction ID and category ID are required")
  else
    let t' := updateCategory categoryId txId t in
    if (changes txId t =? 0)%nat then (t', PutError 404 "Transaction not found")
    else (t', PutOk).

(** ** The filters of [GET /api/transactions], lines 921-1021 *)

(** The fields of [req.query] the handler reads as filters; the empty string
    stands for a parameter that is absent. *)
Record Query : Type := mkQuery {
  search : string;
  dateFrom : string;
  dateTo : string;
  category : string;
  cardNumber : string;
  transactionType : string;
  amountMin : string;
  amountMax : string
}.

(** A value bound to a placeholder. *)
Inductive param : Type :=
| Text (s : string)
| Number (x : number).

(** [if (cond) { whereClause += sql; params.push(...values) }] *)
Definition filterBy (cond : bool) (sql : string) (values : list param)
    (acc : string * list param) : string * list param :=
  if cond then (fst acc ++ sql, (snd acc ++ values)%list) else acc.

(** [whereClause] and [params] when the filters have been read. *)
Definition buildWhere (q : Query) : string * list param :=
  let min :=
    if Parser.truthy (amountMin q) then Some (parseFloat (amountMin q))
    else None in
  let max :=
    if Parser.truthy (amountMax q) then Some (parseFloat (amountMax q))
    else None in
  let like := Text ("%" ++ search q ++ "%") in
  let acc0 := ("1=1", []) in
  let acc1 :=
    filterBy (Parser.truthy (search q))
      " AND (t.description LIKE ? OR t.merchant_name LIKE ? OR c.name LIKE ?)"
      [like; like; like] acc0 in
  let acc2 :=
    filterBy (Parser.truthy (dateFrom q)) " AND t.date >= ?"
      [Text (dateFrom q)] acc1 in
  let acc3 :=
    filterBy (Parser.truthy (dateTo q)) " AND t.date <= ?"
      [Text (dateTo q)] acc2 in
  let acc4 :=
    filterBy (Parser.truthy (category q)) " AND c.name = ?"
      [Text (category q)] acc3 in
  let acc5 :=
    filterBy (Parser.truthy (cardNumber q)) " AND t.card_number = ?"
      [Text (cardNumber q)] acc4 in
  let acc6 :=
    filterBy (Parser.truthy (transactionType q)) " AND t.transaction_type = ?"
      [Text (transactionType q)] acc5 in
  let acc7 :=
    match min with
    | Some x => filterBy true " AND ABS(t.amount) >= ?" [Number x] acc6
    | None => acc6
    end in
  match max with
  | Some x => filterBy true " AND ABS(t.amount) <= ?" [Number x] acc7
  | None => acc7
  end.

(** [mainQuery] and [countQuery] around [whereClause]. *)
Definition mainQuery (whereClause : string) : string :=
  "
    SELECT 
      t.id,
      t.description,
      t.merchant_name,
      t.amount,
      t.date,
      t.original_text,
      t.created_at,
      t.card_number,
      t.transaction_type,
      t.location,
      t.memo,
      t.reference_id,
      t.statement_period,
      c.name as category_name,
      c.icon as category_icon,
      c.color as category_color,
      s.id as source_id,
      s.name as source_name,
      s.type as source_type,
      s.last_four as source_last_four,
      s.bank_name as source_bank_name
    FROM transactions t
    LEFT JOIN categories c ON t.category_id = c.id
    LEFT JOIN sources s ON t.source_id = s.id
    WHERE " ++ whereClause ++ "
    ORDER BY t.date DESC, t.created_at DESC
    LIMIT ? OFFSET ?
  ".

Definition countQuery (whereClause : string) : string :=
  "
    SELECT COUNT(*) as total 
    FROM transactions t
    LEFT JOIN categories c ON t.category_id = c.id
    LEFT JOIN sources s ON t.source_id = s.id
    WHERE " ++ whereClause ++ "
  ".

(** The values [db.all(mainQuery, [...params, limit, offset])] binds. *)
Definition mainParams (params : list param) (limit offset : number)
    : list param :=
  (params ++ [Number limit; Number offset])%list.

(** The placeholders of an SQL text. *)
Fixpoint placeholders (sql : string) : nat :=
  match sql with
  | EmptyString => O
  | String c t => if Ascii.eqb c "?" then S (placeholders t) else placeholders t
  end.

(** Which filters a query has. *)
Definition present (q : Query) : list bool :=
  List.map Parser.truthy
    [search q; dateFrom q; dateTo q; category q; cardNumber q;
     transactionType q; amountMin q; amountMax q].

(** ** The periods of [GET /api/analytics/advanced], lines 1076-1099 *)

(** [currentStart], [currentEnd], [priorStart] and [priorEnd] for the period
    named and the time [t] of the request. *)
Record Ranges : Type := mkRanges {
  currentStart : Date;
  currentEnd : Date;
  priorStart : Date;
  priorEnd : Date
}.

Definition ranges (periodParam : string) (t : Z) : Ranges :=
  let period := if Parser.truthy periodParam then periodParam else "month" in
  let year := getFullYear t in
  let month := getMonth t in
  if String.eqb period "month" then
    mkRanges (newDate year month 1) (newDate year (month + 1) 0)
             (newDate year (month - 1) 1) (newDate year month 0)
  else if String.eqb period "quarter" then
    let currentQuarter := month / 3 in
    mkRanges (newDate year (currentQuarter * 3) 1)
             (newDate year ((currentQuarter + 1) * 3) 0)
             (newDate year ((currentQuarter - 1) * 3) 1)
             (newDate year (currentQuarter * 3) 0)
  else
    mkRanges (newDate year 0 1) (newDate year 11 31)
             (newDate (year - 1) 0 1) (newDate (year - 1) 11 31).

End ServerApi.

(* ================================================================== *)
(** * More of the language: sums of numbers, [split], comparison of dates *)

Module Js.

Import JSDate.

(** [x + y] on numbers. *)
Definition add (x y : number) : number :=
  match x, y with
  | NaN, _ => NaN
  | _, NaN => NaN
  | Inf a, Inf b => if Bool.eqb a b then Inf a else NaN
  | Inf a, Fin _ => Inf a
  | Fin _, Inf b => Inf b
  | Fin p, Fin q => Fin (Qred (p + q))
  end.

(** [s.split(c)] for a separator of one character. *)
Fixpoint splitFuel (c : ascii) (fuel : nat) (s : string) : list string :=
  match fuel with
  | O => [s]
  | S fuel' =>
      let w := Str.takeWhile (fun d => negb (Ascii.eqb d c)) s in
      match Str.dropWhile (fun d => negb (Ascii.eqb d c)) s with
      | EmptyString => [w]
      | String _ u => w :: splitFuel c fuel' u
      end
  end.

Definition split (c : ascii) (s : string) : list string :=
  splitFuel c (String.length s) s.

(** [d1 > d2] on dates: the time values are compared, and an invalid date
    ([NaN]) is greater than nothing and less than nothing. *)
Definition dateGt (d1 d2 : Date) : bool :=
  match d1, d2 with
  | Time t1, Time t2 => t2 <? t1
  | _, _ => false
  end.

End Js.

(* ================================================================== *)
(** * The stand-alone parser on files (src/unnamed/part_001, lines 13-189) *)

Module ParserFile.

Import JSDate.

Record ParseResult : Type := mkResult {
  transactions : list Parser.ParsedTransaction;
  totalAmount : number;
  fileName : string;
  errors : list string
}.

Section WithFiles.

Variable currentYear : Z.
Variable dateParse : string -> Date.
(** [fs.createReadStream(filePath).pipe(csv())]: the rows the stream
    delivers before it ends, or the message of the error it emits. *)
Variable csvStream : string -> list Parser.Row + string.
(** [pdfParse(fs.readFileSync(filePath))]: the text of the document, or the
    message of the error thrown. *)
Variable pdfText : string -> string + string.

(** The result of a failure: nothing extracted and one message. *)
Definition failure (fileName message : string) : ParseResult :=
  mkResult [] (Fin 0) fileName [message].

(** What the loops keep: [transactions] and [totalAmount]. *)
Definition push (acc : list Parser.ParsedTransaction * number)
    (parsed : option Parser.ParsedTransaction)
    : list Parser.ParsedTransaction * number :=
  match parsed with
  | Some tx => ((fst acc ++ [tx])%list, Js.add (snd acc) (abs (Parser.amount tx)))
  | None => acc
  end.

(** [parseCSV], lines 42-78.  The handler of [data] catches what
    [parseCSVRow] throws; it throws nothing, so [errors] stays empty when
    the stream ends. *)
Definition parseCSV (filePath fileName : string) : ParseResult :=
  match csvStream filePath with
  | inl rows =>
      let acc :=
        fold_left
          (fun acc row => push acc (Parser.parseCSVRow currentYear dateParse row))
          rows ([], Fin 0) in
      mkResult (fst acc) (snd acc) fileName []
  | inr message => failure fileName ("CSV parsing error: " ++ message)
  end.

(** [text.split('\n').map(line => line.trim()).filter(line => line.length > 0)] *)
Definition linesOf (text : string) : list string :=
  List.filter (fun line => (0 <? String.length line)%nat)
              (List.map Str.trim (Js.split "010" text)).

(** [parsePDFText], lines 163-189. *)
Definition parsePDFText (text fileName : string) : ParseResult :=
  let acc :=
    fold_left
      (fun acc line => push acc (Parser.parsePDFLine currentYear dateParse line))
      (linesOf text) ([], Fin 0) in
  mkResult (fst acc) (snd acc) fileName [].

(** [parsePDF], lines 146-161. *)
Definition parsePDF (filePath fileName : string) : ParseResult :=
  match pdfText filePath with
  | inl text => parsePDFText text fileName
  | inr message => failure fileName ("PDF parsing error: " ++ message)
  end.

(** [fileName.toLowerCase().split('.').pop()] *)
Definition fileExtension (fileName : string) : string :=
  List.last (Js.split "." (Str.toLowerCase fileName)) EmptyString.

(** [parseStatementFile], lines 20-40. *)
Definition parseStatementFile (filePath fileName : string) : ParseResult :=
  let ext := fileExtension fileName in
  if String.eqb ext "csv" then parseCSV filePath fileName
  else if String.eqb ext "pdf" then parsePDF filePath fileName
  else failure fileName
         ("Failed to parse file: " ++ "Unsupported file type: " ++ ext).

End WithFiles.

(** The sum the loops accumulate for a list of transactions. *)
Definition totalOf (txs : list Parser.ParsedTransaction) : number :=
  fold_left (fun sum tx => Js.add sum (abs (Parser.amount tx))) txs (Fin 0).




End ParserFile.

(* ================================================================== *)
(** * The first server's upload (src/unnamed/part_000, lines 17-144) *)

Module FirstServer.

Import JSDate.

(** [req.file] as multer leaves it. *)
Record File : Type := mkFile {
  path : string;
  originalname : string;
  mimetype : string
}.

Definition allowedTypes : list string :=
  ["application/pdf"; "text/csv"; "application/vnd.ms-excel"].

(** [fileFilter], lines 21-28: the file is accepted. *)
Definition fileFilter (f : File) : bool :=
  List.existsb (String.eqb (mimetype f)) allowedTypes
  || Str.endsWith (originalname f) ".csv".

(** A row of the table [statements]. *)
Record Statement : Type := mkStatement {
  statement_id : string;
  file_name : string;
  transaction_count : nat;
  total_amount : number
}.

(** A row of the table [transactions] as this server writes it. *)
Record StoredTransaction : Type := mkStored {
  id : string;
  amount : number;
  description : string;
  merchant_name : string;
  date : Date;
  category_id : string;
  original_text : Parser.RawRecord
}.

Record World : Type := mkWorld {
  statements : list Statement;
  transactions : list StoredTransaction
}.

(** An entry of [categorizedTransactions]. *)
Record Categorized : Type := mkCategorized {
  categorizedId : string;
  parsed : Parser.ParsedTransaction;
  categoryId : string;
  confidence : Q
}.

Inductive Response : Type :=
| Failure (httpStatus : nat) (error : string) (details : list string)
| Success (filename : string) (transactionCount : nat) (totalAmount : number)
          (preview : list Categorized).

Section WithFiles.

Variable currentYear : Z.
Variable dateParse : string -> Date.
Variable csvStream : string -> list Parser.Row + string.
Variable pdfText : string -> string + string.
(** The ids of [this.categories] when the transaction [n] of the request is
    categorised: the constructor starts loading them and does not wait. *)
Variable categoriesAt : nat -> list string.
(** [db.run] throws on this row: the error the storage engine raises. *)
Variable statementFails : Statement -> option string.
Variable insertFails : StoredTransaction -> bool.

(** The state of the loop over [parseResult.transactions]: the table,
    [categorizedTransactions] and how many ids have been drawn. *)
Record LoopState : Type := mkLoop {
  table : list StoredTransaction;
  categorized : list Categorized;
  drawn : nat
}.

(** The body of the loop, lines 93-126. *)
Definition storeOne (uuid : nat -> string) (st : LoopState)
    (parsedTx : Parser.ParsedTransaction) : LoopState :=
  let categorization :=
    Categorizer.categorizeTransaction (categoriesAt (drawn st))
      (Parser.description parsedTx) (Parser.merchantName parsedTx) in
  let transactionId := uuid (drawn st) in
  let row :=
    mkStored transactionId (Parser.amount parsedTx)
             (Parser.description parsedTx) (Parser.merchantName parsedTx)
             (Parser.date parsedTx) (fst categorization)
             (Parser.originalText parsedTx) in
  if insertFails row then
    (* the error is caught and logged *)
    mkLoop (table st) (categorized st) (S (drawn st))
  else
    mkLoop (table st ++ [row])
           (categorized st
            ++ [mkCategorized transactionId parsedTx (fst categorization)
                              (snd categorization)])
           (S (drawn st)).

(** [app.post('/api/upload')], lines 61-144; [uuid 0] is the id drawn for
    the statement, [uuid (S n)] the id drawn for the transaction [n]. *)
Definition upload (w : World) (file : option File) (uuid : nat -> string)
    : World * Response :=
  match file with
  | None => (w, Failure 400 "No file uploaded" [])
  | Some f =>
      let parseResult :=
        ParserFile.parseStatementFile currentYear dateParse csvStream pdfText
          (path f) (originalname f) in
      match ParserFile.transactions parseResult with
      | [] =>
          (w, Failure 400 "No transactions found in file"
                      (ParserFile.errors parseResult))
      | _ =>
          let statement :=
            mkStatement (uuid O) (originalname f)
              (List.length (ParserFile.transactions parseResult))
              (ParserFile.totalAmount parseResult) in
          match statementFails statement with
          | Some message =>
              (w, Failure 500 ("File processing failed: " ++ message) [])
          | None =>
              let st :=
                fold_left (storeOne (fun n => uuid (S n)))
                          (ParserFile.transactions parseResult)
                          (mkLoop (transactions w) [] 0) in
              (mkWorld (statements w ++ [statement]) (table st),
               Success (originalname f) (List.length (categorized st))
                       (ParserFile.totalAmount parseResult)
                       (firstn 5 (categorized st)))
          end
      end
  end.

(** The route with its middleware: a file the filter refuses never reaches
    the handler, the error goes to the error-handling middleware (lines
    244-247). *)
Definition route (w : World) (file : option File) (uuid : nat -> string)
    : World * Response :=
  match file with
  | Some f =>
      if fileFilter f then upload w file uuid
      else (w, Failure 500 "Something went wrong!" [])
  | None => upload w file uuid
  end.

End WithFiles.

End FirstServer.

(* ================================================================== *)
(** * The [Database] class (src/src/server/categorizer.ts, lines 391-504) *)

Module Database.

(** The ids of the categories the schema inserts, lines 443-453. *)
Definition seededCategories : list string :=
  ["groceries"; "restaurants"; "gas"; "shopping"; "utilities";
   "entertainment"; "healthcare"; "transport"; "travel"; "other"].

End Database.

(* ================================================================== *)
(** * The [StatementParser] class on rows and files
      (src/src/server/categorizer.ts, lines 123-268 and 382-386) *)

Module StatementFile.

Import Regex JSDate.

Record ParseResult : Type := mkResult {
  transactions : list Parser.ParsedTransaction;
  totalAmount : number;
  statementDate : Date;
  errors : list string
}.

Definition possibleDateFields : list string :=
  ["Date"; "Transaction Date"; "Posted Date"; "date"].
Definition possibleDescriptionFields : list string :=
  ["Description"; "Merchant"; "Transaction Description"; "description"].
Definition possibleAmountFields : list string :=
  ["Amount"; "Transaction Amount"; "Debit"; "Credit"; "amount"].

(** The second loop of [parseCSVRow]: the first field that is not empty is
    taken, trimmed, whatever is left of it. *)
Fixpoint findDescription (fields : list string) (row : Parser.Row) : string :=
  match fields with
  | [] => EmptyString
  | field :: rest =>
      if Parser.truthy (Parser.get row field)
      then Str.trim (Parser.get row field)
      else findDescription rest row
  end.

(** The third loop: the first field that is not empty and holds a number is
    taken, zero included. *)
Fixpoint findAmount (fields : list string) (row : Parser.Row) : number :=
  match fields with
  | [] => Fin 0
  | field :: rest =>
      if Parser.truthy (Parser.get row field) then
        let parsedAmount :=
          StatementParser.parseAmount (Parser.get row field) in
        if negb (isNaN parsedAmount) then parsedAmount
        else findAmount rest row
      else findAmount rest row
  end.

Section WithClock.

Variable currentYear : Z.
(** [new Date()] when the parsing begins. *)
Variable now : Date.
(** The time value of [new Date(0)] in local time. *)
Variable epochLocal : Z.
Variable csvStream : string -> list Parser.Row + string.
Variable pdfText : string -> string + string.

(** The first loop: the first field that is not empty and that [parseDate]
    reads. *)
Fixpoint findDate (fields : list string) (row : Parser.Row) : option Date :=
  match fields with
  | [] => None
  | field :: rest =>
      if Parser.truthy (Parser.get row field) then
        match StatementParser.parseDate currentYear (Parser.get row field) with
        | Some d => Some d
        | None => findDate rest row
        end
      else findDate rest row
  end.

(** [parseCSVRow], lines 179-224. *)
Definition parseCSVRow (row : Parser.Row) : option Parser.ParsedTransaction :=
  let date := findDate possibleDateFields row in
  let description := findDescription possibleDescriptionFields row in
  let amount := findAmount possibleAmountFields row in
  match date with
  | None => None
  | Some d =>
      if (Str.isEmpty description || isZero amount)%bool then None
      else Some (Parser.mkParsed d description amount (Parser.RawRow row)
                   (StatementParser.extractMerchantName description))
  end.

(** [getLatestDate], lines 382-386. *)
Definition getLatestDate (txs : list Parser.ParsedTransaction) : Date :=
  fold_left
    (fun latest transaction =>
       if Js.dateGt (Parser.date transaction) latest
       then Parser.date transaction else latest)
    txs (Time epochLocal).

(** What [parseCSV] and [parsePDFText] return when their loop has ended. *)
Definition finish (acc : list Parser.ParsedTransaction * number)
    : ParseResult :=
  mkResult (fst acc) (snd acc)
           (if (0 <? List.length (fst acc))%nat then getLatestDate (fst acc)
            else now)
           [].

(** [parseCSV], lines 142-177: the promise is rejected with the error of the
    stream. *)
Definition parseCSV (filePath : string) : ParseResult + string :=
  match csvStream filePath with
  | inl rows =>
      inl (finish
             (fold_left (fun acc row => ParserFile.push acc (parseCSVRow row))
                        rows ([], Fin 0)))
  | inr message => inr message
  end.

(** [parsePDFText], lines 238-268. *)
Definition parsePDFText (text : string) : ParseResult :=
  finish
    (fold_left
       (fun acc line =>
          ParserFile.push acc (StatementParser.parsePDFLine currentYear line))
       (ParserFile.linesOf text) ([], Fin 0)).

(** [parsePDF], lines 226-236. *)
Definition parsePDF (filePath : string) : ParseResult + string :=
  match pdfText filePath with
  | inl text => inl (parsePDFText text)
  | inr message => inr ("Failed to parse PDF: " ++ message)
  end.

(** [parseFile], lines 131-140: the result, or the message of the error
    thrown. *)
Definition parseFile (filePath fileType : string) : ParseResult + string :=
  let t := Str.toLowerCase fileType in
  if String.eqb t "csv" then parseCSV filePath
  else if String.eqb t "pdf" then parsePDF filePath
  else inr ("Unsupported file type: " ++ fileType).

End WithClock.

End StatementFile.

(* ================================================================== *)
(** * Vocabulary: strings made of words *)

Module Words.

(** Every white-space character of [s] is a space and is followed by a
    character that is not white space; [atEnd] says whether a space may
    stand at the end. *)
Fixpoint spaced (atEnd : bool) (s : string) : bool :=
  match s with
  | EmptyString => true
  | String c t =>
      (if Str.isSpace c then
         Ascii.eqb c " " &&
         match t with
         | String d _ => negb (Str.isSpace d)
         | EmptyString => atEnd
         end
       else true)
      && spaced atEnd t
  end.

(** [s] does not begin, does not end, with white space. *)
Definition startsClean (s : string) : bool :=
  match s with
  | String c _ => negb (Str.isSpace c)
  | EmptyString => true
  end.

Fixpoint endsClean (s : string) : bool :=
  match s with
  | EmptyString => true
  | String c t =>
      match t with
      | EmptyString => negb (Str.isSpace c)
      | _ => endsClean t
      end
  end.

(** The characters of a word of a merchant name: no white space, no [#], no
    [*]. *)
Definition wordChar (c : ascii) : bool :=
  negb (Str.isSpace c) && negb (Ascii.eqb c "#" || Ascii.eqb c "*").

End Words.

(* ================================================================== *)
(** * Properties *)

(** ** Tests of the number reader *)

Example parseFloat_ex1 : parseFloat "12.34abc" = Fin (617 # 50).
Proof. vm_compute. reflexivity. Qed.
Example parseFloat_ex2 : parseFloat "  -5.75" = Fin (-23 # 4).
Proof. vm_compute. reflexivity. Qed.
Example parseFloat_ex3 : parseFloat "1e3x" = Fin (1000 # 1).
Proof. vm_compute. reflexivity. Qed.
Example parseFloat_ex4 : parseFloat ".5e-1" = Fin (1 # 20).
Proof. vm_compute. reflexivity. Qed.
Example parseFloat_ex5 : parseFloat "." = NaN.
Proof. vm_compute. reflexivity. Qed.
Example parseFloat_ex6 : parseFloat "5.e" = Fin (5 # 1).
Proof. vm_compute. reflexivity. Qed.
Example parseFloat_ex7 : parseFloat "-Infinityx" = Inf true.
Proof. vm_compute. reflexivity. Qed.
Example parseFloat_ex8 : parseFloat "abc" = NaN.
Proof. vm_compute. reflexivity. Qed.
Example parseAmount_ex1 : parseAmount "$1,234.50" = Fin (2469 # 2).
Proof. vm_compute. reflexivity. Qed.
Example parseAmount_ex2 : parseAmount "(12.34)" = Fin (-617 # 50).
Proof. vm_compute. reflexivity. Qed.
Example parseAmount_ex3 : parseAmount "n/a" = NaN.
Proof. vm_compute. reflexivity. Qed.
Example parseAmount_ex4 : parseAmount " - 5 . 7 5 " = Fin (-23 # 4).
Proof. vm_compute. reflexivity. Qed.

(** ** Tests of the regular-expression engine *)

Module RegexTests.
Import Regex.
Local Open Scope nat_scope.

Example match_mdy :
  option_map groups (matchRe (Parser.formatRegex Parser.MDY) "7/28/2024")
  = Some [(3, "2024"); (2, "28"); (1, "7")].
Proof. vm_compute. reflexivity. Qed.

Example match_mdy_no : matchRe (Parser.formatRegex Parser.MDY) "7/28/24" = None.
Proof. vm_compute. reflexivity. Qed.

Example matchAll_digits :
  List.map matched (matchAll (plus digit) "a12b345c6") = ["12"; "345"; "6"].
Proof. vm_compute. reflexivity. Qed.

Example match_lazy :
  option_map matched (matchRe (seq [lit "a"; plusLazy dot; lit "b"]) "xxaxxbxxb")
  = Some "axxb".
Proof. vm_compute. reflexivity. Qed.

Example match_greedy :
  option_map matched
    (matchRe (seq [lit "a"; plus dot; lit "b"]) "xxaxxbxxb")
  = Some "axxbxxb".
Proof. vm_compute. reflexivity. Qed.

End RegexTests.

(** ** Tests of the calendar *)

Module JSDateTests.
Import JSDate.

Example epoch : civil (newDate 1970 0 1) = Some (1970, 1, 1).
Proof. vm_compute. reflexivity. Qed.
Example leap_day : civil (newDate 2024 1 29) = Some (2024, 2, 29).
Proof. vm_compute. reflexivity. Qed.
Example feb_30 : civil (newDate 2024 1 30) = Some (2024, 3, 1).
Proof. vm_compute. reflexivity. Qed.
Example month_13 : civil (newDate 2024 12 5) = Some (2025, 1, 5).
Proof. vm_compute. reflexivity. Qed.
Example month_0 : civil (newDate 2024 (-1) 10) = Some (2023, 12, 10).
Proof. vm_compute. reflexivity. Qed.
Example day_0 : civil (newDate 2024 0 0) = Some (2023, 12, 31).
Proof. vm_compute. reflexivity. Qed.
Example two_digit_year : civil (newDate 50 4 5) = Some (1950, 5, 5).
Proof. vm_compute. reflexivity. Qed.
Example y1900 : civil (newDate 1900 0 1) = Some (1900, 1, 1).
Proof. vm_compute. reflexivity. Qed.
Example y2099 : civil (newDate 2099 11 31) = Some (2099, 12, 31).
Proof. vm_compute. reflexivity. Qed.
Example y2100 : civil (newDate 2099 11 32) = Some (2100, 1, 1).
Proof. vm_compute. reflexivity. Qed.
Example y1600 : civil (newDate 1600 1 29) = Some (1600, 2, 29).
Proof. vm_compute. reflexivity. Qed.
Example y1500 : civil (newDate 1500 11 31) = Some (1500, 12, 31).
Proof. vm_compute. reflexivity. Qed.
Example epoch_day : MakeDay 2024 6 28 = 19932.
Proof. vm_compute. reflexivity. Qed.

End JSDateTests.

(** ** Tests of the stand-alone parser *)

Module ParserTests.
Import JSDate Parser.

Example parseDate_mdy :
  option_map civil (parseDate 2026 Env.noFallback "07/28/2024")
  = Some (Some (2024, 7, 28)).
Proof. vm_compute. reflexivity. Qed.
Example parseDate_ymd :
  option_map civil (parseDate 2026 Env.noFallback "2024-07-28")
  = Some (Some (2024, 7, 28)).
Proof. vm_compute. reflexivity. Qed.
Example parseDate_md :
  option_map civil (parseDate 2026 Env.noFallback " 7/4 ")
  = Some (Some (2026, 7, 4)).
Proof. vm_compute. reflexivity. Qed.
Example parseDate_garbage : parseDate 2026 Env.noFallback "hello" = None.
Proof. vm_compute. reflexivity. Qed.

Example merchant1 :
  extractMerchantName "STARBUCKS #4521 COFFEE" = "STARBUCKS COFFEE".
Proof. vm_compute. reflexivity. Qed.
Example merchant2 :
  extractMerchantName "SQ *BLUE BOTTLE 00012345 SAN FRANCISCO CA"
  = "SQ BLUE BOTTLE".
Proof. vm_compute. reflexivity. Qed.

Example pdfLine_starbucks :
  option_map (fun tx => (civil (date tx), description tx, amount tx, merchantName tx))
    (parsePDFLine 2026 Env.noFallback "07/28/2024 STARBUCKS #4521 COFFEE $5.75")
  = Some (Some (2024, 7, 28), "STARBUCKS #4521 COFFEE", Fin (-23 # 4),
          "STARBUCKS COFFEE").
Proof. vm_compute. reflexivity. Qed.

Example csvRow_walmart :
  option_map (fun tx => (civil (date tx), description tx, amount tx))
    (parseCSVRow 2026 Env.noFallback
       [("Date", "07/28/2024"); ("Description", "Walmart Supercenter");
        ("Amount", "-89.45")])
  = Some (Some (2024, 7, 28), "Walmart Supercenter", Fin (-1789 # 20)).
Proof. vm_compute. reflexivity. Qed.

End ParserTests.

(** ** Tests of the [StatementParser] class *)

Module StatementParserTests.
Import JSDate.

Example line_starbucks :
  option_map Env.view
    (StatementParser.parsePDFLine 2026 "07/28/2024 STARBUCKS #4521 COFFEE $5.75")
  = Some (Some (2024, 7, 28), "STARBUCKS #4521 COFFEE", Fin (-23 # 4)).
Proof. vm_compute. reflexivity. Qed.

Example line_payment :
  option_map Env.view
    (StatementParser.parsePDFLine 2026 "07/28/2024 PAYMENT THANK YOU $50.00")
  = Some (Some (2024, 7, 28), "PAYMENT THANK YOU", Fin (50 # 1)).
Proof. vm_compute. reflexivity. Qed.

Example line_no_amount :
  option_map Env.view
    (StatementParser.parsePDFLine 2026 "07/28/2024 STARBUCKS COFFEE")
  = Some (Some (2024, 7, 28), "2024", Fin (-2024 # 1)).
Proof. vm_compute. reflexivity. Qed.

Example line_prose :
  StatementParser.parsePDFLine 2026 "Statement period: July" = None.
Proof. vm_compute. reflexivity. Qed.

End StatementParserTests.

(** ** Tests of the categorisers *)

Module CategorizerTests.

Example cat_walmart :
  Server.categorizeTransaction "Walmart Supercenter" "Walmart Supercenter"
  = "groceries".
Proof. vm_compute. reflexivity. Qed.
Example cat_shell :
  Server.categorizeTransaction "Shell Gas Station" "Shell Gas Station" = "gas".
Proof. vm_compute. reflexivity. Qed.
Example cat_starbucks :
  Server.categorizeTransaction "STARBUCKS #4521 COFFEE" "STARBUCKS COFFEE"
  = "restaurants".
Proof. vm_compute. reflexivity. Qed.
Example cat_other : Server.categorizeTransaction "XYZZY" "" = "other".
Proof. vm_compute. reflexivity. Qed.
(** Two rules match; the earlier one decides although the later one matches
    three keywords. *)
Example cat_priority :
  Server.categorizeTransaction "Netflix pizza burger cafe" "" = "subscriptions".
Proof. vm_compute. reflexivity. Qed.

End CategorizerTests.

(** ** Strings *)

Module StrFacts.

Lemma remove_app p a b :
  Str.remove p (a ++ b) = Str.remove p a ++ Str.remove p b.
Proof.
  induction a as [|c a IH]; simpl; [reflexivity|].
  destruct (p c); simpl; now rewrite IH.
Qed.


Lemma forallb_remove q p s :
  Str.forallb q s = true -> Str.forallb q (Str.remove p s) = true.
Proof.
  induction s as [|c s IH]; simpl; [reflexivity|].
  intros H. apply andb_true_iff in H as [Hc Hs].
  destruct (p c); simpl; [auto|]. now rewrite Hc, IH.
Qed.

Lemma forallb_removed p s :
  Str.forallb (fun c => negb (p c)) (Str.remove p s) = true.
Proof.
  induction s as [|c s IH]; simpl; [reflexivity|].
  destruct (p c) eqn:E; simpl; [assumption|]. now rewrite E.
Qed.

Lemma forallb_impl (p q : ascii -> bool) s :
  (forall c, p c = true -> q c = true) ->
  Str.forallb p s = true -> Str.forallb q s = true.
Proof.
  intros Hpq. induction s as [|c s IH]; simpl; [reflexivity|].
  intros H. apply andb_true_iff in H as [Hc Hs].
  now rewrite (Hpq c Hc), IH.
Qed.


Lemma takeWhile_dropWhile p s :
  Str.takeWhile p s ++ Str.dropWhile p s = s.
Proof.
  induction s as [|c s IH]; simpl; [reflexivity|].
  destruct (p c); simpl; [now rewrite IH | reflexivity].
Qed.

Lemma takeWhile_forallb p s : Str.forallb p (Str.takeWhile p s) = true.
Proof.
  induction s as [|c s IH]; simpl; [reflexivity|].
  destruct (p c) eqn:E; simpl; [now rewrite E | reflexivity].
Qed.

Lemma forallb_app p a b :
  Str.forallb p (a ++ b) = Str.forallb p a && Str.forallb p b.
Proof.
  induction a as [|c a IH]; simpl; [reflexivity|].
  now rewrite IH, andb_assoc.
Qed.

End StrFacts.

(** ** Numbers *)

Module NumFacts.



Lemma isNaN_neg_abs x : isNaN (neg (abs x)) = isNaN x.
Proof. destruct x; reflexivity. Qed.

Lemma gtZero_neg_abs x : gtZero (neg (abs x)) = false.
Proof.
  destruct x as [|b|q]; simpl; try reflexivity.
  apply negb_false_iff, Qle_bool_iff.
  apply (Qopp_le_compat 0 (Qabs q)), Qabs_nonneg.
Qed.

Lemma ltZero_gtZero x : ltZero x = true -> gtZero x = false.
Proof.
  destruct x as [|b|q]; simpl; try discriminate.
  - now intros ->.
  - intros H. apply negb_true_iff in H. apply negb_false_iff, Qle_bool_iff.
    destruct (Qlt_le_dec q 0) as [L|L]; [now apply Qlt_le_weak|].
    apply Qle_bool_iff in L. congruence.
Qed.

End NumFacts.

(** ** [parseAmount] *)

Module AmountFacts.

Import StrFacts NumFacts.



(** [parseAmount] in terms of [numericResidue]. *)
Lemma parseAmount_unfold s :
  parseAmount s =
  let x := parseFloat (numericResidue s) in
  if parenthesized s then (if isNaN x then NaN else neg (abs x)) else x.
Proof.
  unfold parseAmount, numericResidue, parenthesized.
  destruct (_ && _)%bool; cbv zeta; [reflexivity|].
  now destruct (parseFloat _).
Qed.








End AmountFacts.

(** ** The regular-expression engine is sound and complete *)

Module RegexFacts.

Import Regex StrFacts.
Local Open Scope nat_scope.

Lemma length_app_str (a b : string) :
  String.length (a ++ b) = String.length a + String.length b.
Proof. induction a as [|c a IH]; simpl; [reflexivity | now rewrite IH]. Qed.

Lemma app_assoc_str (a b c : string) : (a ++ b) ++ c = a ++ b ++ c.
Proof. induction a as [|x a IH]; simpl; [reflexivity | now rewrite IH]. Qed.

Lemma app_nil_r_str (a : string) : a ++ "" = a.
Proof. induction a as [|x a IH]; simpl; [reflexivity | now rewrite IH]. Qed.

Lemma take_app_exact (w s : string) : Str.take (String.length w) (w ++ s) = w.
Proof. induction w as [|c w IH]; simpl; [now destruct s | now rewrite IH]. Qed.

Lemma orElse_Some {A} (x y : option A) v :
  orElse x y = Some v -> x = Some v \/ y = Some v.
Proof. destruct x; simpl; auto. Qed.

Lemma orElse_not_None {A} (x y : option A) :
  x <> None \/ y <> None -> orElse x y <> None.
Proof. destruct x; simpl; [intros _; discriminate | intros [H|H]; auto]. Qed.

Section Engine.

Context {A : Type}.

(** A repetition that succeeds has read a word of the class, of a length
    within the bounds, and the continuation succeeds after it. *)
Lemma rep_sound cls g s :
  forall lo hi pos (k : nat -> string -> option A) x,
    rep cls g lo hi pos s k = Some x ->
    exists w s', s = w ++ s' /\ Str.forallb cls w = true /\
                 lo <= String.length w /\ within hi (String.length w) /\
                 k (pos + String.length w) s' = Some x.
Proof.
  induction s as [|c t IH]; intros lo hi pos k x H.
  - assert (S : match lo with 0 => k pos "" | S _ => None end = Some x).
    { simpl in H. destruct g; simpl in H;
        destruct (match lo with 0 => _ | S _ => _ end); simpl in H; congruence. }
    destruct lo; [|discriminate].
    exists "", "". rewrite Nat.add_0_r. repeat split; auto.
    destruct hi; simpl; lia.
  - assert (S : match lo with 0 => k pos (String c t) | S _ => None end = Some x
                \/ (if (cls c && canTake hi)%bool
                    then rep cls g (pred lo) (decr hi) (S pos) t k
                    else None) = Some x).
    { simpl in H. destruct g; apply orElse_Some in H; tauto. }
    destruct S as [S|S].
    + destruct lo; [|discriminate].
      exists "", (String c t). rewrite Nat.add_0_r. repeat split; auto.
      destruct hi; simpl; lia.
    + destruct (cls c) eqn:Hc; [|discriminate].
      destruct (canTake hi) eqn:Ht; [|discriminate]. simpl in S.
      destruct (IH _ _ _ _ _ S) as (w & s' & -> & Hw & Hlo & Hhi & Hk).
      exists (String c w), s'. simpl. rewrite Hc, Hw.
      repeat split; auto; try lia.
      * destruct hi as [[|h]|]; simpl in *; try discriminate; lia.
      * now rewrite <- Nat.add_succ_comm.
Qed.

(** A repetition succeeds on a word of the class of a length within the
    bounds whenever the continuation does after it. *)
Lemma rep_complete cls g w :
  forall lo hi pos s' (k : nat -> string -> option A),
    Str.forallb cls w = true ->
    lo <= String.length w -> within hi (String.length w) ->
    k (pos + String.length w) s' <> None ->
    rep cls g lo hi pos (w ++ s') k <> None.
Proof.
  induction w as [|c w IH]; intros lo hi pos s' k Hw Hlo Hhi Hk.
  - simpl in Hlo. assert (lo = 0) by lia. subst lo.
    rewrite Nat.add_0_r in Hk. simpl app.
    destruct s' as [|c' t']; simpl; destruct g;
      first [exact Hk | apply orElse_not_None; auto].
  - simpl in Hw. apply andb_true_iff in Hw as [Hc Hw]. simpl in Hlo, Hhi.
    assert (M : rep cls g (pred lo) (decr hi) (S pos) (w ++ s') k <> None).
    { apply IH; auto; try lia.
      - destruct hi; simpl in *; lia.
      - simpl in Hk. now rewrite <- Nat.add_succ_comm in Hk. }
    assert (T : canTake hi = true).
    { destruct hi as [[|h]|]; simpl in *; auto; lia. }
    simpl. rewrite Hc, T. simpl.
    destruct g; apply orElse_not_None; auto.
Qed.

(** Soundness: a successful execution has matched a word, in the sense of
    [matches], and the continuation succeeds after it. *)
Lemma exec_sound r :
  forall pos s caps (k : nat -> string -> captures -> option A) x,
    exec r pos s caps k = Some x ->
    exists w rest caps',
      s = w ++ rest /\ matches r pos w rest caps caps' /\
      k (pos + String.length w) rest caps' = Some x.
Proof.
  induction r as [cls|cls lo hi g|r1 IH1 r2 IH2|r1 IH1 r2 IH2|i r1 IH1| | |];
    intros pos s caps k x H; simpl in H.
  - destruct s as [|c t]; [discriminate|].
    destruct (cls c) eqn:Hc; [|discriminate].
    exists (String c ""), t, caps. simpl. rewrite Nat.add_1_r.
    repeat split; eauto.
  - apply rep_sound in H as (w & s' & -> & Hw & Hlo & Hhi & Hk).
    exists w, s', caps. simpl. repeat split; auto.
  - apply IH1 in H as (w1 & rest1 & mid & -> & M1 & H).
    apply IH2 in H as (w2 & rest & caps' & -> & M2 & H).
    exists (w1 ++ w2), rest, caps'. split; [now rewrite app_assoc_str|].
    split; [|now rewrite length_app_str, Nat.add_assoc].
    simpl. exists w1, w2, mid. auto.
  - apply orElse_Some in H as [H|H].
    + apply IH1 in H as (w & rest & caps' & -> & M & H).
      exists w, rest, caps'. simpl. auto.
    + apply IH2 in H as (w & rest & caps' & -> & M & H).
      exists w, rest, caps'. simpl. auto.
  - apply IH1 in H as (w & rest & inner & -> & M & H).
    exists w, rest, ((i, w) :: inner). split; [reflexivity|].
    split; [simpl; eauto|].
    replace (pos + String.length w - pos) with (String.length w) in H by lia.
    now rewrite take_app_exact in H.
  - exists "", s, caps. simpl. rewrite Nat.add_0_r. auto.
  - destruct (Nat.eqb_spec pos 0) as [E|E]; [|discriminate].
    exists "", s, caps. simpl. rewrite Nat.add_0_r. auto.
  - destruct s; [|discriminate].
    exists "", "", caps. simpl. rewrite Nat.add_0_r. auto.
Qed.

(** Whether a word matches does not depend on the captures made before. *)
Lemma matches_any_captures r :
  forall pos w rest caps caps' caps2,
    matches r pos w rest caps caps' ->
    exists caps2', matches r pos w rest caps2 caps2'.
Proof.
  induction r as [cls|cls lo hi g|r1 IH1 r2 IH2|r1 IH1 r2 IH2|i r1 IH1| | |];
    intros pos w rest caps caps' caps2 M; simpl in *.
  - destruct M as (c & -> & Hc & _). eauto.
  - destruct M as (Hw & Hlo & Hhi & _). eauto.
  - destruct M as (w1 & w2 & mid & -> & M1 & M2).
    destruct (IH1 _ _ _ _ _ caps2 M1) as [mid2 M1'].
    destruct (IH2 _ _ _ _ _ mid2 M2) as [c2' M2'].
    exists c2', w1, w2, mid2. auto.
  - destruct M as [M|M].
    + destruct (IH1 _ _ _ _ _ caps2 M) as [c2' M']. eauto.
    + destruct (IH2 _ _ _ _ _ caps2 M) as [c2' M']. eauto.
  - destruct M as (inner & M & _).
    destruct (IH1 _ _ _ _ _ caps2 M) as [inner2 M']. eauto.
  - destruct M as [-> _]. eauto.
  - destruct M as (-> & -> & _). eauto.
  - destruct M as (-> & -> & _). eauto.
Qed.

(** Completeness: when a word matches and the continuation succeeds after
    it whatever the captures, the execution succeeds. *)
Lemma exec_complete r :
  forall pos w rest caps caps' caps0
         (k : nat -> string -> captures -> option A),
    matches r pos w rest caps caps' ->
    (forall c, k (pos + String.length w) rest c <> None) ->
    exec r pos (w ++ rest) caps0 k <> None.
Proof.
  induction r as [cls|cls lo hi g|r1 IH1 r2 IH2|r1 IH1 r2 IH2|i r1 IH1| | |];
    intros pos w rest caps caps' caps0 k M Hk; simpl in M.
  - destruct M as (c & -> & Hc & _). simpl. rewrite Hc.
    specialize (Hk caps0). simpl in Hk. now rewrite Nat.add_1_r in Hk.
  - destruct M as (Hw & Hlo & Hhi & _). simpl.
    apply rep_complete; auto.
  - destruct M as (w1 & w2 & mid & -> & M1 & M2). simpl.
    rewrite app_assoc_str.
    apply (IH1 _ _ _ _ _ _ _ M1). intros c.
    apply (IH2 _ _ _ _ _ _ _ M2). intros c'.
    specialize (Hk c'). now rewrite length_app_str, Nat.add_assoc in Hk.
  - simpl. apply orElse_not_None. destruct M as [M|M].
    + left. now apply (IH1 _ _ _ _ _ _ _ M).
    + right. now apply (IH2 _ _ _ _ _ _ _ M).
  - destruct M as (inner & M & _). simpl.
    apply (IH1 _ _ _ _ _ _ _ M). intros c. apply Hk.
  - destruct M as [-> _]. simpl. specialize (Hk caps0).
    now rewrite Nat.add_0_r in Hk.
  - destruct M as (-> & -> & _). simpl. specialize (Hk caps0).
    now rewrite Nat.add_0_r in Hk.
  - destruct M as (-> & -> & _). simpl. specialize (Hk caps0).
    now rewrite Nat.add_0_r in Hk.
Qed.

End Engine.

(** A match found at a position is a match in the sense of [matches]. *)
Lemma matchAt_sound r pos s m :
  matchAt r pos s = Some m ->
  exists w caps',
    s = w ++ rest m /\ matches r pos w (rest m) [] caps' /\
    index m = pos /\ matched m = w /\ groups m = caps'.
Proof.
  unfold matchAt. intros H.
  apply exec_sound in H as (w & rest & caps' & -> & M & H).
  injection H as <-. simpl.
  exists w, caps'. repeat split; auto.
  replace (pos + String.length w - pos) with (String.length w) by lia.
  apply take_app_exact.
Qed.

Lemma matchAt_complete r pos w rest caps caps' :
  matches r pos w rest caps caps' -> matchAt r pos (w ++ rest) <> None.
Proof.
  intros M. unfold matchAt.
  apply (exec_complete r _ _ _ _ _ _ _ M). intros c. discriminate.
Qed.

(** A search finds a match at the position it starts from, or further on. *)
Lemma searchFrom_sound r s :
  forall pos m,
    searchFrom r pos s = Some m ->
    exists pre s', s = pre ++ s' /\
                   matchAt r (pos + String.length pre) s' = Some m.
Proof.
  induction s as [|c t IH]; intros pos m H; simpl in H.
  - destruct (matchAt r pos "") eqn:E; [|discriminate].
    exists "", "". simpl. rewrite Nat.add_0_r. split; congruence.
  - destruct (matchAt r pos (String c t)) eqn:E.
    + exists "", (String c t). simpl. rewrite Nat.add_0_r. split; congruence.
    + apply IH in H as (pre & s' & -> & H).
      exists (String c pre), s'. simpl. split; [reflexivity|].
      now rewrite <- Nat.add_succ_comm.
Qed.


Lemma searchFrom_lengths r s :
  forall pos m,
    searchFrom r pos s = Some m ->
    String.length (matched m) + String.length (rest m) <= String.length s.
Proof.
  intros pos m H. apply searchFrom_sound in H as (pre & s' & -> & H).
  apply matchAt_sound in H as (w & caps' & -> & _ & _ & -> & _).
  rewrite !length_app_str. lia.
Qed.

(** The fuel [matchAll] gives the search, one more than the length of the
    input, is enough: more fuel finds the same matches. *)
Lemma matchAllFrom_enough r :
  forall fuel fuel' pos s,
    String.length s < fuel -> String.length s < fuel' ->
    matchAllFrom fuel r pos s = matchAllFrom fuel' r pos s.
Proof.
  induction fuel as [|fuel IH]; intros fuel' pos s H H'; [lia|].
  destruct fuel' as [|fuel']; [lia|]. simpl.
  destruct (searchFrom r pos s) as [m|] eqn:E; [|reflexivity].
  apply searchFrom_lengths in E. f_equal.
  destruct (matched m) as [|c w] eqn:Em, (rest m) as [|c' t] eqn:Er;
    simpl in E; try reflexivity; apply IH; simpl; lia.
Qed.

End RegexFacts.

(** ** The categoriser *)

Module CategorizerFacts.

Import Server.



Lemma find_pointwise {X} (p q : X -> bool) l :
  (forall x, p x = q x) -> List.find p l = List.find q l.
Proof.
  intros H. induction l as [|x l IH]; simpl; [reflexivity|].
  now rewrite H, IH.
Qed.



(** The same for the class of categorizer.ts, whose loop also asks that the
    rule's category be one of the loaded ones. *)
Lemma firstRule_loaded categories text rs :
  (forall r, In r rs ->
     List.existsb (String.eqb (Categorizer.categoryId r)) categories = true) ->
  Categorizer.firstRule categories text rs
  = List.find (fun r => (0 <? Categorizer.matchCount text r)%nat) rs.
Proof.
  induction rs as [|r rs IH]; simpl; [reflexivity|].
  intros H. rewrite (H r (or_introl eq_refl)), andb_true_r.
  destruct (0 <? Categorizer.matchCount text r)%nat; [reflexivity|].
  apply IH. intros r' Hr'. apply H. now right.
Qed.

Lemma matchCount_existsb text r :
  (0 <? Categorizer.matchCount text r)%nat
  = List.existsb (Str.includes text) (Categorizer.keywords r).
Proof.
  unfold Categorizer.matchCount.
  induction (Categorizer.keywords r) as [|k ks IH]; simpl; [reflexivity|].
  destruct (Str.includes text k); simpl; [reflexivity | exact IH].
Qed.



End CategorizerFacts.

(** ** The upload handler: duplicates and re-ingestion *)

Module UploadFacts.

Import JSDate Server.

Lemma sameNumber_refl x : sameNumber x x = true.
Proof.
  destruct x as [|b|q]; simpl; [reflexivity | apply Bool.eqb_reflx |].
  apply Qeq_bool_iff. reflexivity.
Qed.

Lemma date_eqb_refl d : JSDate.eqb d d = true.
Proof. destruct d; simpl; [reflexivity | apply Z.eqb_refl]. Qed.

Lemma date_eqb_eq d1 d2 : JSDate.eqb d1 d2 = true <-> d1 = d2.
Proof.
  destruct d1, d2; simpl; split; try congruence; try discriminate.
  - intros H. apply Z.eqb_eq in H. now subst.
  - intros [= ->]. apply Z.eqb_refl.
Qed.

Lemma sameKey_rowOf src newId tx : sameKey tx (rowOf src newId tx) = true.
Proof.
  unfold sameKey, rowOf. simpl.
  now rewrite String.eqb_refl, sameNumber_refl, date_eqb_refl.
Qed.

(** [COUNT( * ) > 0] says that some row satisfies the [WHERE] clause. *)
Lemma isDuplicate_existsb table tx :
  isDuplicate table tx = List.existsb (sameKey tx) table.
Proof.
  unfold isDuplicate, countMatching.
  induction table as [|r table IH]; simpl; [reflexivity|].
  destruct (sameKey tx r); simpl; [reflexivity | exact IH].
Qed.


(** The source of the stored rows plays no part in the duplicate query. *)
Lemma isDuplicate_any_source src table tx :
  isDuplicate (List.map (withSource src) table) tx = isDuplicate table tx.
Proof.
  rewrite !isDuplicate_existsb.
  induction table as [|r table IH]; simpl; [reflexivity|].
  now rewrite IH.
Qed.

Section Store.

Variable insertFails : StoredTransaction -> bool.
Variables (sourceId : string).

Abbreviation storeOne := (Server.storeOne insertFails sourceId).




(** The counters after one step, in every case. *)
Lemma storeOne_counts txId st tx :
  let st' := storeOne txId st tx in
  if isDuplicate (table st) tx then
    table st' = table st /\ storedCount st' = storedCount st /\
    duplicateCount st' = S (duplicateCount st)
  else if insertFails (rowOf sourceId (txId (drawn st)) tx) then
    table st' = table st /\ storedCount st' = storedCount st /\
    duplicateCount st' = duplicateCount st
  else
    table st' = (table st ++ [rowOf sourceId (txId (drawn st)) tx])%list /\
    storedCount st' = S (storedCount st) /\
    duplicateCount st' = duplicateCount st.
Proof.
  unfold Server.storeOne.
  destruct (isDuplicate (table st) tx); [simpl; auto|].
  destruct (insertFails _); simpl; auto.
Qed.

Hypothesis accepts_all : forall r, insertFails r = false.




End Store.


End UploadFacts.

Module UploadTheorems.

Import JSDate Server UploadFacts.




(** Where the engine refuses a row the second run does not count it: with an
    engine that refuses a [NaN] amount, the file with a [Debit] that is not
    a number has two transactions extracted, and its second upload counts
    one duplicate. *)
Lemma reingest_with_refused_row :
  let upload := Server.upload 2026 Env.noFallback Env.refusesNaN Env.plainCsv in
  let first := upload (Env.worldWith (Readable Env.debitCsv))
                      (Env.requestOf "debit.csv") "file_1" Env.txId in
  let second :=
    upload (mkWorld (transactions (fst first)) []
                    [(Env.tempPath, Readable Env.debitCsv)])
           (Env.requestOf "debit.csv") "file_2" Env.txId in
  List.length (parseCSV 2026 Env.noFallback (Env.plainCsv Env.debitCsv)) = 2%nat /\
  (exists pv, snd first = Success 1 0 "file_1" pv) /\
  (exists pv, snd second = Success 0 1 "file_2" pv).
Proof. vm_compute. repeat split; eexists; reflexivity. Qed.

End UploadTheorems.

Module DuplicateTheorems.

Import JSDate Server UploadFacts.

(** C2 (as the code has it).  Before a built transaction is inserted the
    whole table is searched for a row with the same description, the same
    amount and the same instant as date (the dates' [toISOString()] are
    compared, not their days), whatever source the rows belong to; when
    there is one, nothing is inserted and the duplicate counter grows by
    one; when there is none the row is inserted and the stored counter
    grows, unless the engine refuses the row, which is caught and changes no
    counter. *)
Theorem duplicate_filter :
  forall insertFails sourceId txId st tx,
    (isDuplicate (table st) tx = true <->
     exists r, In r (table st) /\
               description r = Parser.description tx /\
               sameNumber (amount r) (Parser.amount tx) = true /\
               date r = Parser.date tx) /\
    (forall src,
       isDuplicate (List.map (withSource src) (table st)) tx
       = isDuplicate (table st) tx) /\
    let st' := storeOne insertFails sourceId txId st tx in
    if isDuplicate (table st) tx then
      table st' = table st /\ storedCount st' = storedCount st /\
      duplicateCount st' = S (duplicateCount st)
    else if insertFails (rowOf sourceId (txId (drawn st)) tx) then
      table st' = table st /\ storedCount st' = storedCount st /\
      duplicateCount st' = duplicateCount st
    else
      table st' = (table st ++ [rowOf sourceId (txId (drawn st)) tx])%list /\
      storedCount st' = S (storedCount st) /\
      duplicateCount st' = duplicateCount st.
Proof.
  intros insertFails sourceId txId st tx. split; [|split].
  - rewrite isDuplicate_existsb, existsb_exists. split.
    + intros (r & Hin & Hk). exists r. unfold sameKey in Hk.
      apply andb_true_iff in Hk as [Hk Hd].
      apply andb_true_iff in Hk as [Hs Ha].
      apply String.eqb_eq in Hs. apply date_eqb_eq in Hd. auto.
    + intros (r & Hin & Hs & Ha & Hd). exists r. split; [exact Hin|].
      unfold sameKey. rewrite Hs, Ha, Hd, String.eqb_refl, date_eqb_refl.
      reflexivity.
  - intros src. apply isDuplicate_any_source.
  - apply storeOne_counts.
Qed.

(** C2 as the specification words it fails on two counts.  A charge stored
    for source [card_A] makes the same charge a duplicate when it is uploaded
    for [card_B]: the query has no source.  And a charge of the same day at
    another time of day is not a duplicate: the query compares instants. *)
Lemma duplicate_filter_ignores_source_and_day :
  let noon := Time (19932 * msPerDay + 43200000) in
  let midnight := Time (19932 * msPerDay) in
  let tx := Parser.mkParsed midnight "Coffee" (Fin (-5 # 1))
                            (Parser.RawLine "Coffee") "Coffee" in
  let later := Parser.mkParsed noon "Coffee" (Fin (-5 # 1))
                               (Parser.RawLine "Coffee") "Coffee" in
  let stored := rowOf "card_A" "tx_0" tx in
  source_id stored = "card_A" /\
  storeOne Env.accepts "card_B" Env.txId (mkLoop [stored] 0 0 0) tx
  = mkLoop [stored] 0 1 0 /\
  Day 1722124800000 = Day (1722124800000 + 43200000) /\
  isDuplicate [stored] later = false /\
  storeOne Env.accepts "card_A" Env.txId (mkLoop [stored] 0 0 0) later
  = mkLoop [stored; rowOf "card_A" "tx_0" later] 1 0 1.
Proof. vm_compute. repeat split; reflexivity. Qed.

End DuplicateTheorems.

(** ** The upload handler: format detection and failures *)

Module DetectionTheorems.

Import Server.

(** C8 (as the code has it).  A file is read as delimited rows when its
    lowercased name ends in [.csv] or its first 100 bytes hold a comma,
    whether or not it begins with the PDF magic [%PDF]; failing that, it is
    read line by line when it begins with [%PDF] or its name ends in [.pdf];
    any other file is refused as an unsupported type. *)
Theorem detectFormat_spec :
  forall fileName fileBuffer,
    let csvLike :=
      Str.endsWith fileName ".csv"
      || Str.includes (Str.take 100 fileBuffer) "," in
    let pdfLike :=
      String.eqb (Str.take 4 fileBuffer) "%PDF" || Str.endsWith fileName ".pdf" in
    detectFormat fileName fileBuffer
    = (if csvLike then Delimited else if pdfLike then LineBased else Unsupported)
    /\ (forall currentYear dateParse insertFails csvRows w f src alt fileId txId,
          readFileSync (disk w) (path f) = inl fileBuffer ->
          fileName = Str.toLowerCase (originalname f) ->
          csvLike = false -> pdfLike = false ->
          snd (Server.upload currentYear dateParse insertFails csvRows w
                 (mkRequest (Some f) src alt) fileId txId)
          = Failure 400 "Unsupported file type. Use CSV or PDF files.").
Proof.
  intros fileName fileBuffer csvLike pdfLike. split.
  - unfold detectFormat. fold csvLike. fold pdfLike.
    destruct csvLike eqn:C.
    + now rewrite orb_true_l.
    + assert (E : Str.endsWith fileName ".csv" = false).
      { unfold csvLike in C. now apply orb_false_iff in C as [C _]. }
      now rewrite E.
  - intros currentYear dateParse insertFails csvRows w f src alt fileId txId
           Hread Hname Hc Hp.
    unfold Server.upload. cbn [file disk]. rewrite Hread, <- Hname.
    unfold detectFormat. fold csvLike. fold pdfLike. rewrite Hc, Hp.
    assert (E : Str.endsWith fileName ".csv" = false).
    { unfold csvLike in Hc. now apply orb_false_iff in Hc as [C _]. }
    rewrite E. reflexivity.
Qed.

(** A witness of C8 for the refusal: a text file with no comma. *)
Lemma detectFormat_spec_witness :
  snd (Env.upload (Env.worldWith (Readable "hello world"))
         (Env.requestOf "notes.txt") "file_1" Env.txId)
  = Failure 400 "Unsupported file type. Use CSV or PDF files.".
Proof.
  apply (proj2 (detectFormat_spec "notes.txt" "hello world")
           2026 Env.noFallback Env.accepts Env.plainCsv
           (Env.worldWith (Readable "hello world"))
           (mkFile Env.tempPath "tmp" "notes.txt") "card_A" "" "file_1" Env.txId);
    reflexivity.
Defined.

(** C8 as the specification words it fails: a file that begins with the PDF
    magic and has a comma among its first bytes is read as delimited rows,
    and a file named [.pdf] is read line by line without the magic. *)
Lemma pdf_magic_routed_to_csv :
  detectFormat "statement.pdf" "%PDF-1.4, produced by a bank" = Delimited /\
  detectFormat "statement.csv" "%PDF-1.4" = Delimited /\
  detectFormat "statement.pdf" "plain text" = LineBased.
Proof. vm_compute. repeat split; reflexivity. Qed.

(** C9 on the code.  An upload refused as unsupported, or in which no
    transaction is found, answers 400 and neither marks the file record
    failed (it stays [processing], with no message) nor removes the
    temporary file; an unreadable file is marked [failed] with the message
    but stays on disk; only the successful upload removes its file. *)
Theorem upload_failure_paths :
  (let r := Env.upload (Env.worldWith (Readable "hello world"))
              (Env.requestOf "notes.txt") "file_1" Env.txId in
   snd r = Failure 400 "Unsupported file type. Use CSV or PDF files." /\
   List.map (fun u => (status u, error_message u)) (uploaded_files (fst r))
   = [("processing", "")] /\
   exists_ (disk (fst r)) Env.tempPath = true) /\
  (let r := Env.upload (Env.worldWith (Readable "Date,Description,Amount"))
              (Env.requestOf "empty.csv") "file_1" Env.txId in
   snd r = Failure 400 "No transactions found in the file" /\
   List.map (fun u => (status u, error_message u)) (uploaded_files (fst r))
   = [("processing", "")] /\
   exists_ (disk (fst r)) Env.tempPath = true) /\
  (let r := Env.upload (Env.worldWith (Unreadable "EACCES: permission denied"))
              (Env.requestOf "statement.csv") "file_1" Env.txId in
   snd r = Failure 500 "File processing failed: EACCES: permission denied" /\
   List.map (fun u => (status u, error_message u)) (uploaded_files (fst r))
   = [("failed", "EACCES: permission denied")] /\
   exists_ (disk (fst r)) Env.tempPath = true) /\
  (let r := Env.upload (Env.worldWith (Readable Env.sampleCsv))
              (Env.requestOf "statement.csv") "file_1" Env.txId in
   List.map (fun u => (status u, error_message u)) (uploaded_files (fst r))
   = [("completed", "")] /\
   exists_ (disk (fst r)) Env.tempPath = false).
Proof.
  vm_compute. repeat split; reflexivity.
Qed.

End DetectionTheorems.

(** ** The transaction builders *)

Module BuilderFacts.

Import JSDate.

Section WithClock.

Variable currentYear : Z.
Variable dateParse : string -> Date.

Abbreviation parseDate := (Parser.parseDate currentYear dateParse).

Lemma tryFormats_valid fs s d :
  Parser.tryFormats currentYear fs s = Some d -> Parser.isValidDate d = true.
Proof.
  induction fs as [|f fs IH]; simpl; [discriminate|].
  destruct (Regex.matchRe _ s) as [m|]; [|exact IH].
  destruct (Parser.isValidDate (Parser.formatDate currentYear f (Regex.groups m)))
    eqn:V; [|exact IH].
  now intros [= <-].
Qed.

(** [parseDate] only ever returns a date that [isValidDate] accepts. *)
Lemma parseDate_valid s d :
  parseDate s = Some d -> Parser.isValidDate d = true.
Proof.
  unfold Parser.parseDate.
  destruct (Parser.tryFormats _ _ _) as [d'|] eqn:T.
  - intros [= <-]. exact (tryFormats_valid _ _ _ T).
  - destruct (Parser.isValidDate (dateParse s)) eqn:V; [|discriminate].
    now intros [= <-].
Qed.

Lemma findDate_valid fields row d :
  Parser.findDate currentYear dateParse fields row = Some d ->
  Parser.isValidDate d = true /\
  exists field, In field fields /\ parseDate (Parser.get row field) = Some d.
Proof.
  induction fields as [|f fields IH]; simpl; [discriminate|].
  assert (K : Parser.findDate currentYear dateParse fields row = Some d ->
              Parser.isValidDate d = true /\
              exists field, (f = field \/ In field fields) /\
                            parseDate (Parser.get row field) = Some d).
  { intros H. destruct (IH H) as [V (g & Hin & Hg)]. eauto. }
  destruct (Parser.truthy _); [|exact K].
  destruct (Parser.parseDate _ _ _) as [d'|] eqn:P; [|exact K].
  intros [= <-]. split; [exact (parseDate_valid _ _ P)|]. eauto.
Qed.

End WithClock.

Lemma findDescription_trimmed fields row :
  Parser.findDescription fields row = EmptyString \/
  exists field, In field fields /\
    Parser.findDescription fields row = Str.trim (Parser.get row field).
Proof.
  induction fields as [|f fields IH]; simpl; [now left|].
  destruct (_ && _)%bool.
  - right. eauto.
  - destruct IH as [E|(g & Hin & Hg)]; [now left|]. right. eauto.
Qed.

Lemma findAmount_number fields row :
  isNaN (Parser.findAmount fields row) = false.
Proof.
  induction fields as [|f fields IH]; simpl; [reflexivity|].
  destruct (Parser.truthy _); [|exact IH].
  destruct (isNaN (Parser.parseAmount _)) eqn:N; simpl; [exact IH|].
  destruct (isZero _); simpl; [exact IH | exact N].
Qed.

Lemma isNaN_abs x : isNaN (abs x) = isNaN x.
Proof. now destruct x. Qed.

Lemma guarded_number (g : number -> number) field (y : number) :
  (forall z, isNaN (g z) = isNaN z) ->
  isNaN y = false ->
  isNaN (if Parser.truthy field
         then if negb (isNaN (Parser.parseAmount field))
              then g (Parser.parseAmount field) else y
         else y) = false.
Proof.
  intros Hg Hy. destruct (Parser.truthy field); [|exact Hy].
  destruct (isNaN (Parser.parseAmount field)) eqn:N; simpl; [exact Hy|].
  now rewrite Hg.
Qed.

Lemma debitCredit_number row x :
  isNaN x = false -> isNaN (Parser.debitCredit row x) = false.
Proof.
  intros Hx. unfold Parser.debitCredit.
  destruct (isZero x); [|exact Hx]. cbv zeta.
  apply (guarded_number abs); [exact isNaN_abs|].
  apply (guarded_number (fun z => neg (abs z)));
    [exact NumFacts.isNaN_neg_abs | exact Hx].
Qed.

(** The stand-alone parser's row builder returns a transaction only with a
    date that [isValidDate] accepts and that one of the date fields parses
    to, a description that is a field of the row trimmed and is not empty,
    and an amount that is a number other than zero. *)
Theorem parseCSVRow_valid :
  forall currentYear dateParse row tx,
    Parser.parseCSVRow currentYear dateParse row = Some tx ->
    Parser.isValidDate (Parser.date tx) = true /\
    (exists field, In field Parser.dateFields /\
       Parser.parseDate currentYear dateParse (Parser.get row field)
       = Some (Parser.date tx)) /\
    Str.isEmpty (Parser.description tx) = false /\
    (exists field, In field Parser.descriptionFields /\
       Parser.description tx = Str.trim (Parser.get row field)) /\
    isNaN (Parser.amount tx) = false /\
    isZero (Parser.amount tx) = false.
Proof.
  intros currentYear dateParse row tx. unfold Parser.parseCSVRow.
  destruct (Parser.findDate _ _ _ _) as [d|] eqn:D; [|discriminate].
  destruct (Str.isEmpty (Parser.findDescription _ _)) eqn:E; [discriminate|].
  destruct (isZero _) eqn:Hz; [discriminate|]. cbn [orb].
  intros [= <-]. cbn [Parser.date Parser.description Parser.amount].
  destruct (findDate_valid _ _ _ _ _ D) as [V Hf].
  pose proof (debitCredit_number row _
                (findAmount_number Parser.amountFields row)) as HN.
  repeat split; try assumption.
  destruct (findDescription_trimmed Parser.descriptionFields row)
    as [H|H]; [|exact H].
  rewrite H in E. discriminate.
Qed.

(** A witness: the first row of the end-to-end scenario. *)
Lemma parseCSVRow_valid_witness :
  let row := [("Date", "07/28/2024"); ("Description", "Walmart Supercenter");
              ("Amount", "-89.45")] in
  let tx := Parser.mkParsed (Time 1722124800000) "Walmart Supercenter"
              (Fin (-1789 # 20)) (Parser.RawRow row) "Walmart Supercenter" in
  Parser.isValidDate (Parser.date tx) = true /\
  (exists field, In field Parser.dateFields /\
     Parser.parseDate 2026 Env.noFallback (Parser.get row field)
     = Some (Parser.date tx)) /\
  Str.isEmpty (Parser.description tx) = false /\
  (exists field, In field Parser.descriptionFields /\
     Parser.description tx = Str.trim (Parser.get row field)) /\
  isNaN (Parser.amount tx) = false /\
  isZero (Parser.amount tx) = false.
Proof.
  intros row tx.
  apply (parseCSVRow_valid 2026 Env.noFallback row tx).
  vm_compute. reflexivity.
Defined.

(** C7 on the code.  The server's header-driven builder takes a [Debit] (or
    [Credit]) column that is not a number as the amount: the row is built and
    pushed with the amount [NaN], where the stand-alone parser's builder,
    which tests [isNaN] on that path, rejects the same row.  The fallback
    loop of the same function and the positional builder test [isNaN]
    too. *)
Theorem buildRow_keeps_NaN_amount :
  let row := [("Date", "07/28/2024"); ("Description", "Coffee");
              ("Debit", "n/a")] in
  option_map (fun tx => (Parser.description tx, Parser.amount tx))
    (Server.buildRow 2026 Env.noFallback row) = Some ("Coffee", NaN) /\
  List.length (Server.parseCSV 2026 Env.noFallback [row]) = 1%nat /\
  Parser.parseCSVRow 2026 Env.noFallback row = None /\
  Server.buildRow 2026 Env.noFallback
    [("Date", "07/28/2024"); ("Description", "Coffee"); ("Amount", "n/a")]
  = None /\
  Server.buildPositional 2026 Env.noFallback
    [("a", "07/28/2024"); ("b", "n/a"); ("c", ""); ("d", ""); ("e", "Coffee")]
  = None.
Proof. vm_compute. repeat split; reflexivity. Qed.

End BuilderFacts.

(** ** Line-based rows: the sign of the amount *)

Module LineFacts.

Import Regex JSDate StrFacts NumFacts RegexFacts.

Import Spec.

Lemma digitsValue_nonneg s : forall acc, 0 <= acc -> 0 <= digitsValue acc s.
Proof.
  induction s as [|c s IH]; intros acc H; cbn [digitsValue]; [exact H|].
  apply IH. lia.
Qed.

Lemma readSign_notMinus s :
  Str.forallb notMinus s = true -> fst (readSign s) = false.
Proof.
  destruct s as [|c t]; simpl; [reflexivity|].
  intros H. apply andb_true_iff in H as [Hc _].
  unfold notMinus in Hc. apply negb_true_iff in Hc. rewrite Hc.
  now destruct (Ascii.eqb c "+").
Qed.

(** A literal without a minus sign is not read as a negative number. *)
Lemma scanFloat_nonneg s x r :
  fst (readSign s) = false -> scanFloat s = Some (x, r) -> ltZero x = false.
Proof.
  unfold scanFloat. destruct (readSign s) as [n u]. cbn [fst]. intros ->.
  destruct (String.prefix "Infinity" u); [intros [= <- _]; reflexivity|].
  destruct (match Str.dropWhile Str.isDigit u with
            | EmptyString => _ | String c t => _ end) as [fp u2].
  destruct (Str.isEmpty (Str.takeWhile Str.isDigit u) && Str.isEmpty fp)%bool;
    [discriminate|].
  destruct (readExponent u2) as [e u3].
  match goal with |- context [Qred ?X] => remember (Qred X) as q eqn:Hq end.
  intros [= <- _]. cbn [ltZero]. subst q.
  apply negb_false_iff, Qle_bool_iff.
  match goal with
  | |- (0 <= Qred ?X)%Q =>
      apply (Qle_trans 0 X (Qred X));
        [|apply Qle_lteq; right; symmetry; apply Qred_correct]
  end.
  apply Qmult_le_0_compat.
  - change 0%Q with (inject_Z 0). rewrite <- Zle_Qle.
    now apply digitsValue_nonneg.
  - apply Qpower_0_le. discriminate.
Qed.

Lemma parseFloat_nonneg s :
  Str.forallb notMinus s = true -> ltZero (parseFloat s) = false.
Proof.
  intros H. unfold parseFloat.
  destruct (scanFloat (Str.trimStart s)) as [[x r]|] eqn:E; [|reflexivity].
  apply (scanFloat_nonneg _ _ _) in E; [exact E|].
  apply readSign_notMinus. unfold Str.trimStart.
  clear E. induction s as [|c s IH]; simpl in *; [reflexivity|].
  apply andb_true_iff in H as [Hc Hs].
  destruct (Str.isSpace c); [now apply IH | simpl; now rewrite Hc, Hs].
Qed.

(** A number that is not [NaN], not zero and not negative is positive. *)
Lemma positive_of_nonneg x :
  isNaN x = false -> isZero x = false -> ltZero x = false -> gtZero x = true.
Proof.
  destruct x as [|b|q]; simpl; try discriminate.
  - intros _ _ ->. reflexivity.
  - intros _ Hz Hl. apply negb_false_iff, Qle_bool_iff in Hl.
    apply negb_true_iff. destruct (Qle_bool q 0) eqn:L; [|reflexivity].
    apply Qle_bool_iff in L.
    assert (E : Qeq_bool q 0 = true) by (apply Qeq_bool_iff, Qle_antisym; auto).
    congruence.
Qed.



(** *** The [StatementParser] class *)






(** *** The stand-alone parser *)





End LineFacts.

(** ** The calendar *)

Module CalendarFacts.

Import JSDate.

Ltac Zify.zify_post_hook ::= Z.to_euclidean_division_equations.

Lemma DayFromYear_step y : DayFromYear (y + 1) = DayFromYear y + DaysInYear y.
Proof.
  unfold DayFromYear, DaysInYear, InLeapYear.
  destruct (Z.eqb_spec (y mod 4) 0) as [E4|E4];
  destruct (Z.eqb_spec (y mod 100) 0) as [E100|E100];
  destruct (Z.eqb_spec (y mod 400) 0) as [E400|E400]; cbn [andb orb negb]; lia.
Qed.

Lemma DayFromYear_mono a b : a <= b -> DayFromYear a <= DayFromYear b.
Proof. unfold DayFromYear. lia. Qed.

(** [YearFromDay d] is the year whose days include [d]. *)
Lemma YearFromDay_spec d :
  DayFromYear (YearFromDay d) <= d < DayFromYear (YearFromDay d + 1).
Proof.
  unfold YearFromDay. cbv zeta.
  destruct (d <? DayFromYear (1970 + d * 400 / 146097)) eqn:E1.
  - unfold DayFromYear in *. lia.
  - destruct (DayFromYear (1970 + d * 400 / 146097 + 1) <=? d) eqn:E2;
      unfold DayFromYear in *; lia.
Qed.

Lemma YearFromDay_unique y d :
  DayFromYear y <= d < DayFromYear (y + 1) -> YearFromDay d = y.
Proof.
  intros H. pose proof (YearFromDay_spec d) as S.
  destruct (Z.lt_trichotomy (YearFromDay d) y) as [L|[E|L]]; [|exact E|].
  - pose proof (DayFromYear_mono (YearFromDay d + 1) y ltac:(lia)). lia.
  - pose proof (DayFromYear_mono (y + 1) (YearFromDay d) ltac:(lia)). lia.
Qed.

Lemma DayWithinYear_range d :
  0 <= DayWithinYear d < DaysInYear (YearFromDay d).
Proof.
  unfold DayWithinYear. pose proof (YearFromDay_spec d) as S.
  rewrite DayFromYear_step in S. lia.
Qed.

(** The months tile the year. *)
Lemma monthStart_next leap m :
  0 <= m < 11 -> monthStart leap (m + 1) = monthStart leap m + DaysInMonth leap m.
Proof.
  intros H.
  assert (C : m = 0 \/ m = 1 \/ m = 2 \/ m = 3 \/ m = 4 \/ m = 5 \/ m = 6 \/
              m = 7 \/ m = 8 \/ m = 9 \/ m = 10) by lia.
  destruct leap; repeat (destruct C as [->|C]; [reflexivity|]); subst; reflexivity.
Qed.

Lemma monthStart_last leap :
  monthStart leap 11 + DaysInMonth leap 11 = if leap then 366 else 365.
Proof. destruct leap; reflexivity. Qed.

(** Days beyond the end of a month are days of the following month. *)
Lemma MakeDay_day_carry y m d :
  0 <= m < 12 ->
  MakeDay y m d = MakeDay y (m + 1) (d - DaysInMonth (InLeapYear y) m).
Proof.
  intros H. unfold MakeDay. cbv zeta.
  destruct (Z.eq_dec m 11) as [->|N].
  - change ((11 + 1) / 12) with 1. change ((11 + 1) mod 12) with 0.
    change (11 / 12) with 0. change (11 mod 12) with 11.
    rewrite Z.add_0_r, DayFromYear_step. unfold DaysInYear.
    pose proof (monthStart_last (InLeapYear y)) as L.
    change (monthStart (InLeapYear (y + 1)) 0) with 0.
    destruct (InLeapYear y); lia.
  - replace (m / 12) with 0 by lia. replace ((m + 1) / 12) with 0 by lia.
    replace (m mod 12) with m by lia. replace ((m + 1) mod 12) with (m + 1) by lia.
    rewrite Z.add_0_r, monthStart_next by lia. lia.
Qed.

(** Months beyond December are months of the following years. *)
Lemma MakeDay_month_carry y m d :
  MakeDay y m d = MakeDay (y + m / 12) (m mod 12) d.
Proof.
  unfold MakeDay. cbv zeta.
  replace (m mod 12 / 12) with 0 by lia.
  replace (m mod 12 mod 12) with (m mod 12) by lia.
  now rewrite Z.add_0_r.
Qed.

Lemma MakeDay_day_shift y m d k : MakeDay y m (d + k) = MakeDay y m d + k.
Proof. unfold MakeDay. lia. Qed.

Lemma DaysInMonth_range leap m : 28 <= DaysInMonth leap m <= 31.
Proof.
  unfold DaysInMonth.
  repeat match goal with
         | |- context [match ?x with _ => _ end] => destruct x
         end; lia.
Qed.

Lemma MakeDay_in_range y m d :
  0 <= m < 12 ->
  MakeDay y m d = DayFromYear y + monthStart (InLeapYear y) m + d - 1.
Proof.
  intros H. unfold MakeDay. cbv zeta.
  replace (m / 12) with 0 by lia. replace (m mod 12) with m by lia.
  now rewrite Z.add_0_r.
Qed.

Lemma MonthFromDay_spec day :
  let leap := InLeapYear (YearFromDay day) in
  let m := MonthFromDay day in
  0 <= m < 12 /\
  monthStart leap m <= DayWithinYear day < monthStart leap m + DaysInMonth leap m.
Proof.
  cbv zeta. pose proof (DayWithinYear_range day) as R.
  unfold MonthFromDay, DaysInYear in *.
  set (w := DayWithinYear day) in *.
  destruct (InLeapYear (YearFromDay day)); cbn [monthStart] in *;
  repeat match goal with
         | |- context [if ?a <? ?b then _ else _] =>
             destruct (Z.ltb_spec a b)
         end;
  cbn [monthStart DaysInMonth]; lia.
Qed.

(** The civil fields of a day number form a date of the calendar, and that
    date is the day. *)
Lemma civil_normal day :
  let y := YearFromDay day in
  let m := MonthFromDay day in
  let d := DateFromDay day in
  0 <= m < 12 /\ 1 <= d <= DaysInMonth (InLeapYear y) m /\ MakeDay y m d = day.
Proof.
  cbv zeta. destruct (MonthFromDay_spec day) as [Hm Hw]. cbv zeta in Hw.
  split; [exact Hm|]. unfold DateFromDay. split; [lia|].
  rewrite MakeDay_in_range by exact Hm. unfold DayWithinYear in *. lia.
Qed.

(** A date of the calendar is read back as it was written. *)
Lemma civil_MakeDay y m d :
  0 <= m < 12 -> 1 <= d <= DaysInMonth (InLeapYear y) m ->
  YearFromDay (MakeDay y m d) = y /\
  MonthFromDay (MakeDay y m d) = m /\
  DateFromDay (MakeDay y m d) = d.
Proof.
  intros Hm Hd. rewrite MakeDay_in_range by exact Hm.
  set (day := DayFromYear y + monthStart (InLeapYear y) m + d - 1).
  assert (B : 0 <= monthStart (InLeapYear y) m /\
              monthStart (InLeapYear y) m + DaysInMonth (InLeapYear y) m
              <= DaysInYear y).
  { unfold DaysInYear.
    assert (C : m = 0 \/ m = 1 \/ m = 2 \/ m = 3 \/ m = 4 \/ m = 5 \/ m = 6 \/
                m = 7 \/ m = 8 \/ m = 9 \/ m = 10 \/ m = 11) by lia.
    destruct (InLeapYear y);
      repeat (destruct C as [->|C]; [cbn; lia|]); subst; cbn; lia. }
  assert (Y : YearFromDay day = y).
  { apply YearFromDay_unique. rewrite DayFromYear_step. unfold day. lia. }
  destruct (MonthFromDay_spec day) as [Hm' Hw]. cbv zeta in Hw.
  unfold DateFromDay. unfold DayWithinYear in *. rewrite Y in *.
  assert (W : day - DayFromYear y = monthStart (InLeapYear y) m + d - 1)
    by (unfold day; lia).
  rewrite W in *.
  assert (M : MonthFromDay day = m).
  { set (m' := MonthFromDay day) in *. clearbody m'. clear W Y.
    assert (C : m = 0 \/ m = 1 \/ m = 2 \/ m = 3 \/ m = 4 \/ m = 5 \/ m = 6 \/
                m = 7 \/ m = 8 \/ m = 9 \/ m = 10 \/ m = 11) by lia.
    assert (C' : m' = 0 \/ m' = 1 \/ m' = 2 \/ m' = 3 \/ m' = 4 \/ m' = 5 \/
                 m' = 6 \/ m' = 7 \/ m' = 8 \/ m' = 9 \/ m' = 10 \/ m' = 11) by lia.
    destruct (InLeapYear y);
      repeat (destruct C as [->|C]);
      repeat (destruct C' as [->|C']); subst;
      cbn [monthStart DaysInMonth] in *; lia. }
  rewrite M. repeat split; try reflexivity. lia.
Qed.

End CalendarFacts.

(** ** The date formats *)

Module FormatFacts.

Import Regex JSDate StrFacts RegexFacts Spec.
Local Open Scope nat_scope.

Lemma isDigits_spec lo hi s :
  isDigits lo hi s = true <->
  Str.forallb Str.isDigit s = true /\ lo <= String.length s /\
  String.length s <= hi.
Proof.
  unfold isDigits. rewrite !andb_true_iff, !Nat.leb_le. tauto.
Qed.

Lemma length_zero (s : string) : String.length s = 0 -> s = "".
Proof. destruct s; simpl; [reflexivity | discriminate]. Qed.

(** A run of digits ends at the first character that is not a digit. *)
Lemma digits_split a : forall a' x x' r r',
  Str.forallb Str.isDigit a = true -> Str.forallb Str.isDigit a' = true ->
  Str.isDigit x = false -> Str.isDigit x' = false ->
  a ++ String x r = a' ++ String x' r' ->
  a = a' /\ x = x' /\ r = r'.
Proof.
  induction a as [|c a IH]; intros a' x x' r r' Ha Ha' Hx Hx' E.
  - destruct a' as [|c' a']; simpl in *.
    + injection E as -> ->. auto.
    + injection E as -> _. apply andb_true_iff in Ha' as [Hc _]. congruence.
  - destruct a' as [|c' a']; simpl in *.
    + injection E as -> _. apply andb_true_iff in Ha as [Hc _]. congruence.
    + injection E as -> E.
      apply andb_true_iff in Ha as [_ Ha]. apply andb_true_iff in Ha' as [_ Ha'].
      destruct (IH _ _ _ _ _ Ha Ha' Hx Hx' E) as (-> & -> & ->). auto.
Qed.

Lemma digits_no_separator a x r :
  Str.isDigit x = false -> Str.forallb Str.isDigit (a ++ String x r) = false.
Proof.
  intros Hx. rewrite forallb_app. simpl. rewrite Hx.
  now rewrite andb_false_r.
Qed.

Lemma app_inv_head_str (a b c : string) : a ++ b = a ++ c -> b = c.
Proof. induction a as [|x a IH]; simpl; [auto | intros [= E]; auto]. Qed.

Ltac split_digits E Ha Ha' :=
  apply digits_split in E; [|exact Ha|exact Ha'|reflexivity|reflexivity].

(** The fields of a word of a format are determined by the word. *)
Lemma formatWord_inj f a b c a' b' c' :
  formatFields f a b c = true -> formatFields f a' b' c' = true ->
  formatWord f a b c = formatWord f a' b' c' ->
  a = a' /\ b = b' /\ c = c'.
Proof.
  destruct f; simpl; rewrite !andb_true_iff, ?isDigits_spec;
    intros [[(Ha & _) (Hb & _)] Hc] [[(Ha' & _) (Hb' & _)] Hc'] E;
    split_digits E Ha Ha'; destruct E as (-> & _ & E).
  - split_digits E Hb Hb'. destruct E as (-> & _ & ->). auto.
  - split_digits E Hb Hb'. destruct E as (-> & _ & ->). auto.
  - subst. destruct c, c'; try discriminate. auto.
Qed.

(** No string is a word of two formats. *)
Lemma formatWord_exclusive f g a b c a' b' c' :
  formatFields f a b c = true -> formatFields g a' b' c' = true ->
  formatWord f a b c = formatWord g a' b' c' -> f = g.
Proof.
  destruct f, g; try reflexivity; simpl;
    rewrite !andb_true_iff, ?isDigits_spec;
    intros [[(Ha & _) (Hb & _)] Hc] [[(Ha' & _) (Hb' & _)] Hc'] E;
    split_digits E Ha Ha'; destruct E as (-> & X & E);
    try discriminate X.
  - rewrite <- E in Hb'. now rewrite digits_no_separator in Hb'.
  - rewrite E in Hb. now rewrite digits_no_separator in Hb.
Qed.

Ltac break_match_hyp :=
  repeat match goal with
         | H : exists _, _ |- _ => destruct H
         | H : _ /\ _ |- _ => destruct H
         end.

Lemma lit_char c x : Ascii.eqb c x = true -> x = c.
Proof. intros H. apply Ascii.eqb_eq in H. now subst. Qed.

(** A match of a date format is the whole string, a word of the format, and
    captures its fields. *)
Lemma format_sound f s m :
  matchRe (Parser.formatRegex f) s = Some m ->
  exists a b c,
    s = formatWord f a b c /\ formatFields f a b c = true /\
    groups m = formatGroups f a b c.
Proof.
  unfold matchRe. intros H.
  apply searchFrom_sound in H as (pre & s' & -> & H).
  apply matchAt_sound in H as (w & caps' & -> & M & _ & _ & ->).
  destruct f; cbn [Parser.formatRegex seq matches times lit] in M;
    break_match_hyp; subst;
    repeat match goal with
           | H : Ascii.eqb _ _ = true |- _ => apply lit_char in H; subst
           | H : String.length ?p = 0 |- _ => apply length_zero in H; subst
           | H : 0 + String.length ?p = 0 |- _ => apply length_zero in H; subst
           end;
    match goal with H : rest m = "" |- _ => rewrite H in * end;
    cbn [append]; rewrite ?app_nil_r_str.
  - match goal with
    | |- context [?a ++ String "/" (?b ++ String "/" ?c)] =>
        exists a, b, c
    end.
    split; [reflexivity|]. split; [|reflexivity].
    cbn [formatFields]. rewrite !andb_true_iff, !isDigits_spec.
    cbn [within] in *. repeat split; assumption.
  - match goal with
    | |- context [?a ++ String "-" (?b ++ String "-" ?c)] =>
        exists a, b, c
    end.
    split; [reflexivity|]. split; [|reflexivity].
    cbn [formatFields]. rewrite !andb_true_iff, !isDigits_spec.
    cbn [within] in *. repeat split; assumption.
  - match goal with
    | |- context [?a ++ String "/" ?b] => exists a, b, ""
    end.
    split; [reflexivity|]. split; [|reflexivity].
    cbn [formatFields]. rewrite !andb_true_iff, !isDigits_spec.
    cbn [within] in *. repeat split; assumption.
Qed.

Lemma searchFrom_first r pos s m :
  matchAt r pos s = Some m -> searchFrom r pos s = Some m.
Proof. intros H. destruct s; simpl; now rewrite H. Qed.

Lemma matches_cat r1 r2 pos w1 w2 rest caps mid caps' :
  matches r1 pos w1 (w2 ++ rest) caps mid ->
  matches r2 (pos + String.length w1) w2 rest mid caps' ->
  matches (Cat r1 r2) pos (w1 ++ w2) rest caps caps'.
Proof. intros H1 H2. cbn [matches]. exists w1, w2, mid. auto. Qed.

Lemma matches_field i lo hi pos w rest caps :
  isDigits lo hi w = true ->
  matches (Grp i (times digit lo hi)) pos w rest caps ((i, w) :: caps).
Proof.
  intros H. apply isDigits_spec in H as (Hw & Hlo & Hhi).
  cbn [matches times]. exists caps. cbn [within]. auto.
Qed.

Lemma matches_lit c pos rest caps :
  matches (lit c) pos (String c "") rest caps caps.
Proof.
  cbn [matches lit]. exists c. rewrite Ascii.eqb_refl. auto.
Qed.

Lemma format_matches f a b c :
  formatFields f a b c = true ->
  exists caps',
    matches (Parser.formatRegex f) 0 (formatWord f a b c) "" [] caps'.
Proof.
  destruct f; cbn [formatFields formatWord Parser.formatRegex seq];
    rewrite !andb_true_iff; intros [[Ha Hb] Hc]; eexists.
  - apply (matches_cat Bol _ 0 "" (a ++ "/" ++ b ++ "/" ++ c) "" [] []);
      [cbn [matches]; auto|].
    eapply matches_cat; [apply matches_field, Ha|].
    eapply (matches_cat _ _ _ "/"); [apply matches_lit|].
    eapply matches_cat; [apply matches_field, Hb|].
    eapply (matches_cat _ _ _ "/"); [apply matches_lit|].
    rewrite <- (app_nil_r_str c) at 1.
    eapply matches_cat; [apply matches_field, Hc|].
    cbn [matches]. auto.
  - apply (matches_cat Bol _ 0 "" (a ++ "-" ++ b ++ "-" ++ c) "" [] []);
      [cbn [matches]; auto|].
    eapply matches_cat; [apply matches_field, Ha|].
    eapply (matches_cat _ _ _ "-"); [apply matches_lit|].
    eapply matches_cat; [apply matches_field, Hb|].
    eapply (matches_cat _ _ _ "-"); [apply matches_lit|].
    rewrite <- (app_nil_r_str c) at 1.
    eapply matches_cat; [apply matches_field, Hc|].
    cbn [matches]. auto.
  - apply (matches_cat Bol _ 0 "" (a ++ "/" ++ b) "" [] []);
      [cbn [matches]; auto|].
    eapply matches_cat; [apply matches_field, Ha|].
    eapply (matches_cat _ _ _ "/"); [apply matches_lit|].
    rewrite <- (app_nil_r_str b) at 1.
    eapply matches_cat; [apply matches_field, Hb|].
    cbn [matches]. auto.
Qed.

(** Every word of a date format is matched, and its fields are captured. *)
Lemma format_complete f a b c :
  formatFields f a b c = true ->
  exists m,
    matchRe (Parser.formatRegex f) (formatWord f a b c) = Some m /\
    groups m = formatGroups f a b c.
Proof.
  intros F. destruct (format_matches f a b c F) as [caps' M].
  apply matchAt_complete in M. rewrite app_nil_r_str in M.
  destruct (matchAt (Parser.formatRegex f) 0 (formatWord f a b c))
    as [m|] eqn:E; [|congruence].
  exists m. apply searchFrom_first in E. fold (matchRe (Parser.formatRegex f)
    (formatWord f a b c)) in E. split; [exact E|].
  destruct (format_sound _ _ _ E) as (a' & b' & c' & W & F' & G).
  destruct (formatWord_inj _ _ _ _ _ _ _ F F' W) as (-> & -> & ->).
  exact G.
Qed.

(** At most one format matches a string. *)
Lemma format_exclusive f g s m n :
  matchRe (Parser.formatRegex f) s = Some m ->
  matchRe (Parser.formatRegex g) s = Some n -> f = g.
Proof.
  intros Hf Hg.
  destruct (format_sound _ _ _ Hf) as (a & b & c & -> & F & _).
  destruct (format_sound _ _ _ Hg) as (a' & b' & c' & W & G & _).
  exact (formatWord_exclusive _ _ _ _ _ _ _ _ F G W).
Qed.

End FormatFacts.

(** ** [parseDate] *)

Module DateFacts.

Import Regex JSDate StrFacts RegexFacts Spec FormatFacts CalendarFacts.

Lemma isValidDate_range d :
  Parser.isValidDate d =
  match d with
  | Time t => (1901 <=? getFullYear t) && (getFullYear t <=? 2099)
  | Invalid => false
  end.
Proof.
  destruct d as [|t]; simpl; [reflexivity|].
  destruct (Z.ltb_spec 1900 (getFullYear t)), (Z.leb_spec 1901 (getFullYear t)),
           (Z.ltb_spec (getFullYear t) 2100), (Z.leb_spec (getFullYear t) 2099);
    simpl; try reflexivity; lia.
Qed.

(** What [parseDate] keeps of its argument. *)
Lemma cleanDate_chars s :
  Str.forallb (fun c => Str.isDigit c || Ascii.eqb c "/" || Ascii.eqb c "-")
              (Str.remove Parser.isDateNoise s) = true.
Proof.
  apply (forallb_impl (fun c => negb (Parser.isDateNoise c))).
  - intros c H. unfold Parser.isDateNoise in H. now rewrite negb_involutive in H.
  - apply forallb_removed.
Qed.

(** The format that matches is the first that does. *)
Lemma firstFormat_of_match f s m :
  matchRe (Parser.formatRegex f) s = Some m ->
  firstFormat Parser.formats s = Some (f, groups m).
Proof.
  intros H. unfold Parser.formats. cbn [firstFormat].
  destruct (matchRe (Parser.formatRegex Parser.MDY) s) as [m1|] eqn:E1.
  { pose proof (format_exclusive _ _ _ _ _ H E1); subst f. congruence. }
  destruct (matchRe (Parser.formatRegex Parser.YMD) s) as [m2|] eqn:E2.
  { pose proof (format_exclusive _ _ _ _ _ H E2); subst f. congruence. }
  destruct (matchRe (Parser.formatRegex Parser.MD) s) as [m3|] eqn:E3.
  { pose proof (format_exclusive _ _ _ _ _ H E3); subst f. congruence. }
  destruct f; congruence.
Qed.

Lemma firstFormat_sound fs s f caps :
  firstFormat fs s = Some (f, caps) ->
  exists m, matchRe (Parser.formatRegex f) s = Some m /\ groups m = caps.
Proof.
  induction fs as [|g fs IH]; simpl; [discriminate|].
  destruct (matchRe (Parser.formatRegex g) s) as [m|] eqn:E; [|exact IH].
  intros [= <- <-]. eauto.
Qed.

Lemma firstFormat_none fs s :
  firstFormat fs s = None ->
  forall f, In f fs -> matchRe (Parser.formatRegex f) s = None.
Proof.
  induction fs as [|g fs IH]; simpl; [contradiction|].
  destruct (matchRe (Parser.formatRegex g) s) as [m|] eqn:E; [discriminate|].
  intros H f [<-|Hin]; auto.
Qed.

(** The loop over the formats, in terms of the one format that matches. *)
Lemma tryFormats_single currentYear fs s :
  NoDup fs ->
  Parser.tryFormats currentYear fs s =
  match firstFormat fs s with
  | Some (f, caps) =>
      if Parser.isValidDate (Parser.formatDate currentYear f caps)
      then Some (Parser.formatDate currentYear f caps) else None
  | None => None
  end.
Proof.
  induction fs as [|g fs IH]; intros ND; simpl; [reflexivity|].
  inversion ND as [|? ? Hnot ND']; subst.
  destruct (matchRe (Parser.formatRegex g) s) as [m|] eqn:E; [|now apply IH].
  destruct (Parser.isValidDate _); [reflexivity|].
  assert (N : forall f, In f fs -> matchRe (Parser.formatRegex f) s = None).
  { intros f Hin.
    destruct (matchRe (Parser.formatRegex f) s) as [n|] eqn:F; [|reflexivity].
    pose proof (format_exclusive _ _ _ _ _ E F). subst f. contradiction. }
  clear IH ND ND' Hnot. induction fs as [|h fs IH]; simpl; [reflexivity|].
  rewrite (N h (or_introl eq_refl)). apply IH.
  intros f Hin. apply N. now right.
Qed.

Lemma formats_NoDup : NoDup Parser.formats.
Proof.
  unfold Parser.formats.
  repeat (constructor; [simpl; intuition discriminate|]). constructor.
Qed.

Lemma parseDate_by_format currentYear dateParse dateStr :
  let cleanDate := Str.remove Parser.isDateNoise dateStr in
  let candidate :=
    match firstFormat Parser.formats cleanDate with
    | Some (f, caps) => Parser.formatDate currentYear f caps
    | None => Invalid
    end in
  Parser.parseDate currentYear dateParse dateStr
  = if Parser.isValidDate candidate then Some candidate
    else if Parser.isValidDate (dateParse dateStr) then Some (dateParse dateStr)
    else None.
Proof.
  cbv zeta. unfold Parser.parseDate.
  rewrite (tryFormats_single _ _ _ formats_NoDup).
  destruct (firstFormat Parser.formats _) as [[f caps]|]; [|reflexivity].
  now destruct (Parser.isValidDate (Parser.formatDate currentYear f caps)).
Qed.

(** The server's copy of [parseDate] returns the date of the format that
    matches whatever its year. *)
Lemma server_tryFormats currentYear fs s :
  Server.tryFormats currentYear fs s
  = option_map (fun fc => Parser.formatDate currentYear (fst fc) (snd fc))
               (firstFormat fs s).
Proof.
  induction fs as [|f fs IH]; simpl; [reflexivity|].
  now destruct (matchRe (Parser.formatRegex f) s).
Qed.

(** C5 (as the code has it).  [parseDate] removes every character that is
    not a digit, [/] or [-] and matches what is left against the formats
    MM/DD/YYYY, YYYY-MM-DD and MM/DD (the current year) in that order, of
    which at most one can match; the date of the format that matches is
    returned when its year is from 1901 to 2099, otherwise the engine's own
    reading of the original string is returned when it is a date with a year
    from 1901 to 2099; [parseDate] fails exactly when neither is.  The
    server's copy of [parseDate] checks no year: it returns the date of the
    format that matches, and otherwise the engine's reading when that is a
    date. *)
Theorem parseDate_spec :
  forall currentYear dateParse dateStr,
    let cleanDate := Str.remove Parser.isDateNoise dateStr in
    let candidate :=
      match firstFormat [Parser.MDY; Parser.YMD; Parser.MD] cleanDate with
      | Some (f, caps) => Parser.formatDate currentYear f caps
      | None => Invalid
      end in
    let plausible (d : Date) :=
      match d with
      | Time t => (1901 <=? getFullYear t) && (getFullYear t <=? 2099)
      | Invalid => false
      end in
    Str.forallb (fun c => Str.isDigit c || Ascii.eqb c "/" || Ascii.eqb c "-")
                cleanDate = true /\
    Parser.parseDate currentYear dateParse dateStr
    = (if plausible candidate then Some candidate
       else if plausible (dateParse dateStr) then Some (dateParse dateStr)
       else None) /\
    (forall f g m n,
       matchRe (Parser.formatRegex f) cleanDate = Some m ->
       matchRe (Parser.formatRegex g) cleanDate = Some n -> f = g) /\
    (forall f a b c,
       formatFields f a b c = true ->
       firstFormat [Parser.MDY; Parser.YMD; Parser.MD] (formatWord f a b c)
       = Some (f, formatGroups f a b c)) /\
    Server.parseDate currentYear dateParse dateStr
    = match firstFormat [Parser.MDY; Parser.YMD; Parser.MD] cleanDate with
      | Some (f, caps) => Some (Parser.formatDate currentYear f caps)
      | None =>
          if isInvalid (dateParse dateStr) then None
          else Some (dateParse dateStr)
      end.
Proof.
  intros currentYear dateParse dateStr cleanDate candidate plausible.
  split; [apply cleanDate_chars|]. split; [|split; [|split]].
  - unfold plausible. rewrite <- !isValidDate_range.
    apply parseDate_by_format.
  - intros f g m n. apply format_exclusive.
  - intros f a b c F. destruct (format_complete f a b c F) as (m & M & G).
    rewrite <- G. exact (firstFormat_of_match _ _ _ M).
  - unfold Server.parseDate. rewrite server_tryFormats. fold cleanDate.
    change Parser.formats with [Parser.MDY; Parser.YMD; Parser.MD].
    destruct (firstFormat _ cleanDate) as [[f caps]|]; simpl; [reflexivity|].
    now destruct (isInvalid (dateParse dateStr)).
Qed.

(** A witness of C5: the first date of the end-to-end scenario. *)
Lemma parseDate_spec_witness :
  firstFormat [Parser.MDY; Parser.YMD; Parser.MD]
              (formatWord Parser.MDY "07" "28" "2024")
  = Some (Parser.MDY, formatGroups Parser.MDY "07" "28" "2024").
Proof.
  apply (proj1 (proj2 (proj2 (proj2
           (parseDate_spec 2026 Env.noFallback "07/28/2024"))))
           Parser.MDY "07" "28" "2024").
  reflexivity.
Defined.

(** C5 as the specification words it fails at the year 1900, which
    [isValidDate] excludes: [01/01/1900] matches the first format and names
    the first of January 1900, and [parseDate] fails on it, whether the
    engine's own parser rejects the string or reads the same date.  The
    server's copy of [parseDate] returns a date of the year 2500. *)
Lemma parseDate_rejects_1900 :
  firstFormat [Parser.MDY; Parser.YMD; Parser.MD] "01/01/1900"
  = Some (Parser.MDY, [(3%nat, "1900"); (2%nat, "01"); (1%nat, "01")]) /\
  civil (newDate 1900 0 1) = Some (1900, 1, 1) /\
  Parser.parseDate 2026 Env.noFallback "01/01/1900" = None /\
  Parser.parseDate 2026 (fun _ => newDate 1900 0 1) "01/01/1900" = None /\
  option_map civil (Parser.parseDate 2026 Env.noFallback "01/01/1901")
  = Some (Some (1901, 1, 1)) /\
  option_map civil (Server.parseDate 2026 Env.noFallback "01/01/2500")
  = Some (Some (2500, 1, 1)).
Proof. vm_compute. repeat split; reflexivity. Qed.

End DateFacts.

Module RolloverFacts.

Import Regex JSDate StrFacts RegexFacts Spec FormatFacts CalendarFacts DateFacts.




Lemma formatDate_fields currentYear f caps :
  Parser.formatDate currentYear f caps
  = newDate (yearField currentYear f caps) (monthField f caps - 1)
            (dayField f caps).
Proof. destruct f; reflexivity. Qed.


Lemma Day_of_days x : Day (x * msPerDay) = x.
Proof. unfold Day, msPerDay. now rewrite Z.div_mul. Qed.



End RolloverFacts.

(** ** [parseDate] reads back the dates of the calendar *)

Module DateRoundTrip.

Import Regex JSDate StrFacts RegexFacts Spec FormatFacts CalendarFacts DateFacts
       RolloverFacts.

Lemma remove_none p s :
  Str.forallb (fun c => negb (p c)) s = true -> Str.remove p s = s.
Proof.
  induction s as [|c s IH]; simpl; [reflexivity|].
  intros H. apply andb_true_iff in H as [Hc Hs].
  apply negb_true_iff in Hc. now rewrite Hc, IH.
Qed.

Lemma digits_not_noise s :
  Str.forallb Str.isDigit s = true ->
  Str.forallb (fun c => negb (Parser.isDateNoise c)) s = true.
Proof.
  apply forallb_impl. intros c Hc. unfold Parser.isDateNoise.
  now rewrite Hc.
Qed.

(** The words of the formats have nothing for [parseDate] to strip. *)
Lemma formatWord_clean f a b c :
  formatFields f a b c = true ->
  Str.remove Parser.isDateNoise (formatWord f a b c) = formatWord f a b c.
Proof.
  intros F. apply remove_none.
  destruct f; cbn [formatFields formatWord] in *;
    rewrite !andb_true_iff, ?isDigits_spec in F;
    destruct F as [[(Ha & _) (Hb & _)] Hc];
    rewrite ?forallb_app; cbn [Str.forallb];
    rewrite ?forallb_app; cbn [Str.forallb];
    rewrite (digits_not_noise a Ha), (digits_not_noise b Hb);
    try (destruct Hc as (Hc & _); rewrite (digits_not_noise c Hc));
    reflexivity.
Qed.

Lemma monthStart_range leap m : 0 <= m < 12 -> 0 <= monthStart leap m <= 335.
Proof.
  intros H.
  assert (C : m = 0 \/ m = 1 \/ m = 2 \/ m = 3 \/ m = 4 \/ m = 5 \/ m = 6 \/
              m = 7 \/ m = 8 \/ m = 9 \/ m = 10 \/ m = 11) by lia.
  destruct leap; repeat (destruct C as [->|C]; [cbn; lia|]); subst; cbn; lia.
Qed.

(** A date of the calendar in the years 1901 to 2099 is a valid time value
    that [isValidDate] accepts and that reads back as it was written. *)
Lemma newDate_calendar y m d :
  1901 <= y <= 2099 -> 1 <= m <= 12 ->
  1 <= d <= DaysInMonth (InLeapYear y) (m - 1) ->
  exists t, newDate y (m - 1) d = Time t /\
            Parser.isValidDate (Time t) = true /\
            civil (Time t) = Some (y, m, d).
Proof.
  intros Hy Hm Hd.
  destruct (civil_MakeDay y (m - 1) d ltac:(lia) Hd) as (Y & M & D).
  assert (B : -30000 <= MakeDay y (m - 1) d <= 50000).
  { rewrite MakeDay_in_range by lia.
    pose proof (monthStart_range (InLeapYear y) (m - 1) ltac:(lia)).
    pose proof (DaysInMonth_range (InLeapYear y) (m - 1)).
    pose proof (DayFromYear_mono 1901 y ltac:(lia)).
    pose proof (DayFromYear_mono y 2099 ltac:(lia)).
    change (DayFromYear 1901) with (-25202) in *.
    change (DayFromYear 2099) with 47117 in *. lia. }
  exists (MakeDay y (m - 1) d * msPerDay).
  assert (E : newDate y (m - 1) d = Time (MakeDay y (m - 1) d * msPerDay)).
  { unfold newDate.
    replace ((0 <=? y) && (y <=? 99)) with false
      by (symmetry; apply andb_false_iff; right; apply Z.leb_gt; lia).
    unfold TimeClip, msPerDay.
    replace (Z.abs (MakeDay y (m - 1) d * 86400000) <=? 8640000000000000)
      with true by (symmetry; apply Z.leb_le; lia).
    reflexivity. }
  split; [exact E|].
  unfold Parser.isValidDate, civil, getFullYear, getMonth, getDate.
  rewrite Day_of_days, Y, M, D. split.
  - apply andb_true_iff. split; apply Z.ltb_lt; lia.
  - repeat f_equal. lia.
Qed.

(** Every string of one of the three formats whose fields name a date of the
    calendar in the years 1901 to 2099 is parsed to that date, whatever the
    engine's own parser would make of the string. *)
Theorem parseDate_reads_calendar_dates :
  forall currentYear dateParse f a b c,
    formatFields f a b c = true ->
    let y := yearField currentYear f (formatGroups f a b c) in
    let m := monthField f (formatGroups f a b c) in
    let d := dayField f (formatGroups f a b c) in
    1901 <= y <= 2099 -> 1 <= m <= 12 ->
    1 <= d <= DaysInMonth (InLeapYear y) (m - 1) ->
    exists t,
      Parser.parseDate currentYear dateParse (formatWord f a b c) = Some (Time t)
      /\ civil (Time t) = Some (y, m, d).
Proof.
  intros currentYear dateParse f a b c F y m d Hy Hm Hd.
  destruct (newDate_calendar y m d Hy Hm Hd) as (t & E & V & C).
  exists t. split; [|exact C].
  rewrite parseDate_by_format, (formatWord_clean _ _ _ _ F).
  destruct (format_complete f a b c F) as (r & R & G).
  rewrite (firstFormat_of_match _ _ _ R), G, formatDate_fields.
  fold y m d. now rewrite E, V.
Qed.

(** A witness: the first date of the end-to-end scenario, in both
    spellings. *)
Lemma parseDate_reads_calendar_dates_witness :
  (exists t,
     Parser.parseDate 2026 Env.noFallback "07/28/2024" = Some (Time t) /\
     civil (Time t) = Some (2024, 7, 28)) /\
  (exists t,
     Parser.parseDate 2026 Env.noFallback "2024-07-28" = Some (Time t) /\
     civil (Time t) = Some (2024, 7, 28)).
Proof.
  split.
  - apply (parseDate_reads_calendar_dates 2026 Env.noFallback Parser.MDY
             "07" "28" "2024" eq_refl); vm_compute; split; discriminate.
  - apply (parseDate_reads_calendar_dates 2026 Env.noFallback Parser.YMD
             "2024" "07" "28" eq_refl); vm_compute; split; discriminate.
Defined.

End DateRoundTrip.

(** ** The storage loop: what it adds to the table *)

Module StorageFacts.

Import JSDate Server ServerApi UploadFacts.

Lemma sameNumber_sym x y : sameNumber x y = sameNumber y x.
Proof.
  destruct x as [|a|p], y as [|b|q]; simpl; try reflexivity.
  - now destruct a, b.
  - destruct (Qeq_bool p q) eqn:E, (Qeq_bool q p) eqn:E'; try reflexivity.
    + apply Qeq_bool_iff in E. symmetry in E. apply Qeq_bool_iff in E.
      congruence.
    + apply Qeq_bool_iff in E'. symmetry in E'. apply Qeq_bool_iff in E'.
      congruence.
Qed.

Lemma date_eqb_sym d1 d2 : JSDate.eqb d1 d2 = JSDate.eqb d2 d1.
Proof. destruct d1, d2; simpl; try reflexivity. apply Z.eqb_sym. Qed.

Lemma sameStoredKey_sym a b : sameStoredKey a b = sameStoredKey b a.
Proof.
  unfold sameStoredKey.
  now rewrite String.eqb_sym, sameNumber_sym, date_eqb_sym.
Qed.

(** The duplicate query compares a transaction with a stored row as two
    stored rows are compared. *)
Lemma sameKey_stored tx src newId r :
  sameKey tx r = sameStoredKey r (rowOf src newId tx).
Proof. reflexivity. Qed.

Lemma distinctKeys_snoc t r :
  distinctKeys (t ++ [r])
  = distinctKeys t && negb (List.existsb (fun a => sameStoredKey a r) t).
Proof.
  induction t as [|a t IH]; simpl; [reflexivity|].
  rewrite IH, existsb_app. simpl. rewrite orb_false_r.
  destruct (List.existsb (sameStoredKey a) t); simpl; [reflexivity|].
  destruct (sameStoredKey a r); simpl; [now rewrite andb_false_r|].
  reflexivity.
Qed.

Section Store.

Variable insertFails : StoredTransaction -> bool.
Variable sourceId : string.
Variable txId : nat -> string.

Abbreviation step := (Server.storeOne insertFails sourceId txId).

Lemma storeOne_distinct st tx :
  distinctKeys (table st) = true ->
  distinctKeys (table (step st tx)) = true.
Proof.
  intros H. unfold Server.storeOne.
  destruct (isDuplicate (table st) tx) eqn:D; [exact H|].
  destruct (insertFails _); [exact H|]. cbn [table].
  rewrite distinctKeys_snoc, H. cbn [andb].
  rewrite isDuplicate_existsb in D.
  apply negb_true_iff. rewrite <- D. clear.
  induction (table st) as [|a t IH]; simpl; [reflexivity|].
  now rewrite IH.
Qed.

Lemma fold_distinct txs st :
  distinctKeys (table st) = true ->
  distinctKeys (table (fold_left step txs st)) = true.
Proof.
  revert st. induction txs as [|tx txs IH]; intros st H; simpl; [exact H|].
  apply IH, storeOne_distinct, H.
Qed.

Lemma storeOne_added st tx :
  table (step st tx) = table st \/
  table (step st tx) = (table st ++ [rowOf sourceId (txId (drawn st)) tx])%list.
Proof.
  unfold Server.storeOne.
  destruct (isDuplicate (table st) tx); [now left|].
  destruct (insertFails _); [now left | now right].
Qed.

Lemma fold_added txs st :
  exists added,
    table (fold_left step txs st) = (table st ++ added)%list /\
    Forall (fun r => exists tx newId, In tx txs /\ r = rowOf sourceId newId tx)
           added.
Proof.
  revert st. induction txs as [|tx txs IH]; intros st; simpl.
  - exists []. split; [now rewrite app_nil_r | constructor].
  - destruct (IH (step st tx)) as (added & E & F).
    assert (F' : Forall (fun r => exists tx0 newId,
                           (tx = tx0 \/ In tx0 txs) /\
                           r = rowOf sourceId newId tx0) added).
    { eapply Forall_impl; [|exact F]. intros r (tx0 & i & Hin & ->). eauto. }
    destruct (storeOne_added st tx) as [S|S]; rewrite S in E.
    + exists added. auto.
    + exists (rowOf sourceId (txId (drawn st)) tx :: added). split.
      * rewrite E, <- app_assoc. reflexivity.
      * constructor; [eauto | exact F'].
Qed.

(** The counters of the loop, whatever the storage engine refuses: the rows
    added are those counted as stored, and no transaction is counted
    twice. *)
Lemma fold_counts txs st :
  let st' := fold_left step txs st in
  (List.length (table st') + storedCount st
   = List.length (table st) + storedCount st')%nat /\
  (storedCount st <= storedCount st')%nat /\
  (duplicateCount st <= duplicateCount st')%nat /\
  (storedCount st' + duplicateCount st'
   <= storedCount st + duplicateCount st + List.length txs)%nat.
Proof.
  revert st. induction txs as [|a txs IH]; intros st; simpl; [lia|].
  specialize (IH (step st a)). simpl in IH.
  pose proof (storeOne_counts insertFails sourceId txId st a) as C.
  simpl in C.
  destruct (isDuplicate (table st) a).
  - destruct C as (Ht & Hs & Hd). rewrite Ht, Hs, Hd in IH. lia.
  - destruct (insertFails _).
    + destruct C as (Ht & Hs & Hd). rewrite Ht, Hs, Hd in IH. lia.
    + destruct C as (Ht & Hs & Hd). rewrite Ht, Hs, Hd in IH.
      rewrite length_app in IH. simpl in IH. lia.
Qed.

End Store.

(** The storage loop of the upload keeps the table free of repeated keys:
    when no two rows of the table agree on description, amount and date
    before a batch is stored, none do afterwards, whatever the batch holds
    and whatever the storage engine refuses; the rows of the table stay as
    they were, in their order, and every row added is the row of a
    transaction of the batch under the source of the upload. *)
Theorem storeAll_keeps_keys_distinct :
  forall insertFails sourceId txId txs table0,
    distinctKeys table0 = true ->
    let st := storeAll insertFails sourceId txId txs table0 in
    distinctKeys (table st) = true /\
    exists added,
      table st = (table0 ++ added)%list /\
      List.length added = storedCount st /\
      Forall (fun r => source_id r = sourceId /\
                       exists tx, In tx txs /\ sameKey tx r = true /\
                         category_id r
                         = categorizeTransaction (Parser.description tx)
                                                 (Parser.merchantName tx))
             added.
Proof.
  intros insertFails sourceId txId txs table0 H st. split.
  - apply (fold_distinct insertFails sourceId txId txs (mkLoop table0 0 0 0)), H.
  - destruct (fold_added insertFails sourceId txId txs (mkLoop table0 0 0 0))
      as (added & E & F).
    exists added. fold (storeAll insertFails sourceId txId txs table0) in E.
    fold st in E. cbn [table] in E. split; [exact E|]. split.
    + pose proof (fold_counts insertFails sourceId txId txs
                    (mkLoop table0 0 0 0)) as (L & _).
      fold (storeAll insertFails sourceId txId txs table0) in L. fold st in L.
      cbn [table storedCount] in L. rewrite E, length_app in L. lia.
    + eapply Forall_impl; [|exact F].
      intros r (tx & i & Hin & ->). split; [reflexivity|].
      exists tx. split; [exact Hin|]. split; [apply sameKey_rowOf | reflexivity].
Qed.

(** A witness: the two rows of the scenario stored twice over into an empty
    table. *)
Lemma storeAll_keeps_keys_distinct_witness :
  let txs := Server.parseCSV 2026 Env.noFallback (Env.plainCsv Env.sampleCsv) in
  let st := storeAll Env.accepts "card_A" Env.txId (txs ++ txs) [] in
  distinctKeys (table st) = true /\
  exists added,
    table st = ([] ++ added)%list /\
    List.length added = storedCount st /\
    Forall (fun r => source_id r = "card_A" /\
                     exists tx, In tx (txs ++ txs) /\ sameKey tx r = true /\
                       category_id r
                       = categorizeTransaction (Parser.description tx)
                                               (Parser.merchantName tx))
           added.
Proof.
  intros txs.
  apply (storeAll_keeps_keys_distinct Env.accepts "card_A" Env.txId
           (txs ++ txs) []).
  reflexivity.
Defined.


End StorageFacts.

(** ** The categorisers: what they can answer *)

Module CategoryFacts.

Import Server ServerApi CategorizerFacts.

Lemma scanRules_in text rs :
  scanRules text rs = "other" \/ In (scanRules text rs) (List.map categoryId rs).
Proof.
  induction rs as [|r rs IH]; simpl; [now left|].
  destruct (ruleMatches text r); [right; now left|].
  destruct IH as [E|H]; [now left | right; now right].
Qed.

Lemma rules_seeded :
  forall c, In c (List.map categoryId rules) -> In c seededCategories.
Proof.
  intros c H.
  assert (F : List.forallb
                (fun k => List.existsb (String.eqb k) seededCategories)
                (List.map categoryId rules) = true) by (vm_compute; reflexivity).
  rewrite forallb_forall in F. specialize (F c H).
  apply existsb_exists in F as (k & Hk & E). apply String.eqb_eq in E.
  now subst k.
Qed.

(** The category the server gives a transaction is always one of the sixteen
    categories seeded when the database is opened, so the row stored for it
    refers to a category that exists; every seeded category but one can be
    the answer of the rules, and [other] is the answer when the text is
    empty. *)
Theorem categorizeTransaction_seeded :
  (forall description merchantName,
     In (categorizeTransaction description merchantName) seededCategories) /\
  (forall c, In c seededCategories ->
     c = "other" \/ In c (List.map categoryId rules)) /\
  categorizeTransaction "" "" = "other" /\
  NoDup seededCategories.
Proof.
  split; [|split; [|split]].
  - intros description merchantName. unfold categorizeTransaction.
    destruct (scanRules_in (searchText description merchantName) rules)
      as [E|H].
    + rewrite E. vm_compute. tauto.
    + exact (rules_seeded _ H).
  - intros c H. vm_compute in H.
    repeat (destruct H as [<-|H]; [vm_compute; tauto|]). contradiction.
  - reflexivity.
  - repeat (constructor; [vm_compute; intuition discriminate|]). constructor.
Qed.

(** *** The class [TransactionCategorizer] *)

Lemma firstRule_some categories text rs r :
  Categorizer.firstRule categories text rs = Some r ->
  In r rs /\ (0 < Categorizer.matchCount text r)%nat /\
  In (Categorizer.categoryId r) categories.
Proof.
  induction rs as [|a rs IH]; simpl; [discriminate|].
  destruct ((0 <? Categorizer.matchCount text a)%nat) eqn:M; cbn [andb].
  - destruct (List.existsb (String.eqb (Categorizer.categoryId a)) categories)
      eqn:L.
    + intros [= <-]. split; [now left|]. split; [now apply Nat.ltb_lt|].
      apply existsb_exists in L as (k & Hk & E). apply String.eqb_eq in E.
      now subst k.
    + intros H. destruct (IH H) as (I & P). split; [now right | exact P].
  - intros H. destruct (IH H) as (I & P). split; [now right | exact P].
Qed.

Lemma matchCount_le text r :
  (Categorizer.matchCount text r <= List.length (Categorizer.keywords r))%nat.
Proof. unfold Categorizer.matchCount. apply filter_length_le. Qed.

Lemma rules_confidence r :
  In r Categorizer.rules ->
  (0 < Categorizer.confidence r)%Q /\ (Categorizer.confidence r <= 9 # 10)%Q.
Proof.
  intros H. vm_compute in H.
  repeat (destruct H as [<-|H]; [split; reflexivity || (vm_compute; discriminate)|]).
  contradiction.
Qed.

Lemma ratio_range k n :
  (0 < k)%nat -> (k <= n)%nat ->
  (0 < Z.of_nat k # Pos.of_nat n)%Q /\ (Z.of_nat k # Pos.of_nat n <= 1)%Q.
Proof.
  intros Hk Hn. unfold Qlt, Qle. cbn [Qnum Qden].
  rewrite !Z.mul_1_r, Z.mul_1_l.
  assert (E : Z.pos (Pos.of_nat n) = Z.of_nat n).
  { destruct n as [|n]; [lia|]. rewrite <- Pos.of_nat_succ.
    now rewrite Zpos_P_of_succ_nat, Nat2Z.inj_succ. }
  rewrite E. lia.
Qed.

(** The answer of the class is [other] with confidence 0.3, or the category
    of one of the nine rules, which is then one of the loaded categories,
    with a confidence above 0 and at most that of the rule, hence at most
    0.9.  While no category is loaded (the constructor loads them without
    being awaited, and a failure to load is only logged) every transaction is
    [other]. *)
Theorem categorizer_answer :
  forall categories description merchantName,
    let answer :=
      Categorizer.categorizeTransaction categories description merchantName in
    (answer = ("other", 3 # 10) \/
     exists r,
       In r Categorizer.rules /\ fst answer = Categorizer.categoryId r /\
       In (fst answer) categories /\
       (0 < snd answer)%Q /\ (snd answer <= Categorizer.confidence r)%Q /\
       (snd answer <= 9 # 10)%Q) /\
    Categorizer.categorizeTransaction [] description merchantName
    = ("other", 3 # 10).
Proof.
  intros categories description merchantName answer. split.
  - unfold answer, Categorizer.categorizeTransaction. cbv zeta.
    set (text := Str.toLowerCase (description ++ " " ++ merchantName)).
    destruct (Categorizer.firstRule categories text Categorizer.rules)
      as [r|] eqn:E; [|now left].
    right. exists r. apply firstRule_some in E as (I & M & L).
    destruct (rules_confidence r I) as (C0 & C9).
    destruct (ratio_range _ _ M (matchCount_le text r)) as (R0 & R1).
    cbn [fst snd].
    set (c := Categorizer.confidence r) in *.
    set (q := (Z.of_nat (Categorizer.matchCount text r)
               # Pos.of_nat (List.length (Categorizer.keywords r)))) in *.
    assert (U : (c * q <= c)%Q).
    { rewrite <- (Qmult_1_r c) at 2.
      apply Qmult_le_l; [exact C0 | exact R1]. }
    repeat split; try assumption.
    + apply Qmult_lt_0_compat; assumption.
    + eapply Qle_trans; [exact U | exact C9].
  - unfold Categorizer.categorizeTransaction. cbv zeta.
    set (text := Str.toLowerCase (description ++ " " ++ merchantName)).
    assert (N : forall rs, Categorizer.firstRule [] text rs = None).
    { induction rs as [|a rs IH]; simpl; [reflexivity|].
      now rewrite andb_false_r. }
    now rewrite N.
Qed.

Lemma class_rules_seeded :
  forall r, In r Categorizer.rules ->
    List.existsb (String.eqb (Categorizer.categoryId r))
                 Database.seededCategories = true.
Proof.
  intros r H. vm_compute in H.
  repeat (destruct H as [<-|H]; [reflexivity|]). contradiction.
Qed.

(** The categories the [Database] class seeds include the category of every
    rule of the class.  So once they are loaded no rule is passed over for
    want of its category: the class answers with the category of the first
    rule, in the order of its table, one of whose keywords occurs in the
    text, and with [other] when there is none; and its answer is always a
    category the database holds. *)
Theorem categorizer_with_seeded_categories :
  forall description merchantName,
    let text := Str.toLowerCase (description ++ " " ++ merchantName) in
    let answer :=
      Categorizer.categorizeTransaction Database.seededCategories description
                                        merchantName in
    fst answer
    = match List.find
              (fun r => List.existsb (Str.includes text)
                                     (Categorizer.keywords r))
              Categorizer.rules with
      | Some r => Categorizer.categoryId r
      | None => "other"
      end /\
    In (fst answer) Database.seededCategories /\
    (forall r, In r Categorizer.rules ->
       In (Categorizer.categoryId r) Database.seededCategories) /\
    (forall c, In c Database.seededCategories -> In c seededCategories).
Proof.
  intros description merchantName text answer.
  assert (R : forall r, In r Categorizer.rules ->
                In (Categorizer.categoryId r) Database.seededCategories).
  { intros r H. apply class_rules_seeded in H.
    apply existsb_exists in H as (k & Hk & E). apply String.eqb_eq in E.
    now subst k. }
  split; [|split; [|split]].
  - unfold answer, Categorizer.categorizeTransaction. fold text. cbv zeta.
    rewrite (firstRule_loaded _ _ _ class_rules_seeded).
    rewrite (find_pointwise _ _ _ (matchCount_existsb text)).
    destruct (List.find _ Categorizer.rules); reflexivity.
  - unfold answer, Categorizer.categorizeTransaction. fold text. cbv zeta.
    destruct (Categorizer.firstRule _ text Categorizer.rules) as [r|] eqn:E;
      cbn [fst]; [|vm_compute; tauto].
    apply firstRule_some in E as (_ & _ & I). exact I.
  - exact R.
  - intros c H. vm_compute in H.
    repeat (destruct H as [<-|H]; [vm_compute; tauto|]). contradiction.
Qed.

End CategoryFacts.

(** ** Changing categories: the recategorisation and the manual update *)

Module RecategorizeFacts.

Import Server ServerApi.

Lemma uniqueIds_NoDup t : uniqueIds t = true <-> NoDup (List.map id t).
Proof.
  induction t as [|r t IH]; simpl; [split; [constructor | reflexivity]|].
  rewrite andb_true_iff, negb_true_iff, IH. split.
  - intros [E N]. constructor; [|exact N].
    intros H. apply in_map_iff in H as (x & Hx & Hin).
    assert (K : List.existsb (fun x => String.eqb (id x) (id r)) t = true).
    { apply existsb_exists. exists x. split; [exact Hin|].
      now apply String.eqb_eq. }
    congruence.
  - intros H. inversion H as [|? ? Hn N]; subst. split; [|exact N].
    destruct (List.existsb _ t) eqn:E; [|reflexivity].
    apply existsb_exists in E as (x & Hin & Hx). apply String.eqb_eq in Hx.
    exfalso. apply Hn. rewrite <- Hx. now apply in_map.
Qed.

Lemma setCategory_same r : setCategory (category_id r) r = r.
Proof. now destruct r. Qed.

Lemma recategorized_fresh r : isStale r = false -> recategorized r = r.
Proof.
  unfold isStale, recategorized. intros H.
  apply negb_false_iff, String.eqb_eq in H. rewrite H.
  apply setCategory_same.
Qed.

Lemma updateCategory_other c i t :
  ~ In i (List.map id t) -> updateCategory c i t = t.
Proof.
  induction t as [|r t IH]; simpl; [reflexivity|].
  intros H. destruct (String.eqb_spec (id r) i) as [E|E]; [tauto|].
  f_equal. apply IH. tauto.
Qed.

Lemma ids_recategorized t : List.map id (List.map recategorized t) = List.map id t.
Proof. rewrite map_map. reflexivity. Qed.

Lemma ids_updateCategory c i t : List.map id (updateCategory c i t) = List.map id t.
Proof.
  unfold updateCategory. rewrite map_map. apply map_ext.
  intros r. now destruct (String.eqb (id r) i).
Qed.

Lemma recategorized_updateCategory c i t :
  List.map recategorized (updateCategory c i t) = List.map recategorized t.
Proof.
  unfold updateCategory. rewrite map_map. apply map_ext.
  intros r. now destruct (String.eqb (id r) i).
Qed.

Lemma recategorized_idem r : recategorized (recategorized r) = recategorized r.
Proof. reflexivity. Qed.

Lemma isStale_recategorized r : isStale (recategorized r) = false.
Proof.
  unfold isStale, recategorized. simpl.
  now rewrite String.eqb_refl.
Qed.

(** The loop, from any point of its run: the rows it has passed carry their
    new category, the rows to come are as they were selected. *)
Lemma fold_recategorize post :
  forall pre st,
    NoDup (List.map id (pre ++ post)) ->
    recatTable st = (List.map recategorized pre ++ post)%list ->
    let st' := fold_left recategorizeOne post st in
    recatTable st' = List.map recategorized (pre ++ post) /\
    updatedCount st'
    = (updatedCount st + List.length (List.filter isStale post))%nat /\
    unchangedCount st'
    = (unchangedCount st
       + List.length (List.filter (fun r => negb (isStale r)) post))%nat.
Proof.
  induction post as [|r post IH]; intros pre st ND E; cbn [fold_left].
  - cbv zeta. rewrite app_nil_r in *. simpl. repeat split; auto.
  - assert (A : (pre ++ r :: post = (pre ++ [r]) ++ post)%list)
      by (rewrite <- app_assoc; reflexivity).
    rewrite A in *.
    assert (Hn : ~ In (id r) (List.map id (List.map recategorized pre ++ post))).
    { rewrite map_app, ids_recategorized.
      rewrite <- A, map_app in ND. simpl in ND.
      apply NoDup_remove_2 in ND. exact ND. }
    assert (K : recatTable (recategorizeOne st r)
                = (List.map recategorized (pre ++ [r]) ++ post)%list).
    { unfold recategorizeOne. fold (isStale r).
      destruct (isStale r) eqn:S; cbn [recatTable]; rewrite E.
      - rewrite map_app in Hn.
        unfold updateCategory at 1. rewrite map_app. cbn [List.map].
        rewrite String.eqb_refl.
        fold (updateCategory
                (categorizeTransaction (description r) (merchant_name r))
                (id r) (List.map recategorized pre)).
        fold (updateCategory
                (categorizeTransaction (description r) (merchant_name r))
                (id r) post).
        rewrite !updateCategory_other
          by (intros H; apply Hn, in_or_app; auto).
        rewrite map_app, <- app_assoc. reflexivity.
      - rewrite map_app, <- app_assoc. cbn [List.map app].
        now rewrite (recategorized_fresh r S). }
    destruct (IH (pre ++ [r])%list (recategorizeOne st r) ND K)
      as (T & U & V). cbv zeta.
    split; [exact T|]. rewrite U, V. unfold recategorizeOne. fold (isStale r).
    cbn [List.filter]. destruct (isStale r); simpl; lia.
Qed.

Lemma filter_none {X} (p : X -> bool) l :
  (forall x, In x l -> p x = false) -> List.filter p l = [].
Proof.
  induction l as [|a l IH]; simpl; [reflexivity|].
  intros H. rewrite (H a (or_introl eq_refl)). apply IH. auto.
Qed.

Lemma filter_all {X} (p : X -> bool) l :
  (forall x, In x l -> p x = true) -> List.filter p l = l.
Proof.
  induction l as [|a l IH]; simpl; [reflexivity|].
  intros H. rewrite (H a (or_introl eq_refl)). f_equal. apply IH. auto.
Qed.

Lemma recategorize_map t :
  NoDup (List.map id t) ->
  recategorize t
  = (List.map recategorized t,
     mkRecatResponse
       (List.length (List.filter isStale t))
       (List.length (List.filter (fun r => negb (isStale r)) t))
       (List.length t)).
Proof.
  intros ND. unfold recategorize. cbv zeta.
  destruct (fold_recategorize t [] (mkRecat t 0 0) ND eq_refl) as (T & U & V).
  cbv zeta in T, U, V. cbn [app] in T. rewrite T, U, V. reflexivity.
Qed.

(** When the ids of the table are pairwise different, the recategorisation
    leaves every row with the category the rules give its description and
    merchant name, changes nothing else, and counts as updated exactly the
    rows whose category was another, the two counts adding up to the size of
    the table.  A second run updates nothing.  A category set by hand
    through the update endpoint does not survive it: after the update the
    recategorisation leaves the table as it would have without. *)
Theorem recategorize_resets_categories :
  forall t,
    uniqueIds t = true ->
    let t' := fst (recategorize t) in
    let counts := snd (recategorize t) in
    t' = List.map recategorized t /\
    updated counts = List.length (List.filter isStale t) /\
    (updated counts + unchanged counts)%nat = List.length t /\
    totalTransactions counts = List.length t /\
    recategorize t'
    = (t', mkRecatResponse 0 (List.length t) (List.length t)) /\
    forall txId categoryId,
      fst (recategorize (fst (putCategory t txId categoryId))) = t'.
Proof.
  intros t U t' counts. apply uniqueIds_NoDup in U.
  unfold t', counts. rewrite (recategorize_map t U). cbn [fst snd].
  cbn [updated unchanged totalTransactions].
  split; [reflexivity|]. split; [reflexivity|]. split.
  { apply filter_length. }
  split; [reflexivity|]. split.
  - rewrite recategorize_map by (now rewrite ids_recategorized).
    rewrite map_map. f_equal. rewrite length_map.
    rewrite filter_none, filter_all.
    + now rewrite length_map.
    + intros x H. apply in_map_iff in H as (r & <- & _).
      now rewrite isStale_recategorized.
    + intros x H. apply in_map_iff in H as (r & <- & _).
      apply isStale_recategorized.
  - intros txId categoryId. unfold putCategory.
    assert (K : fst (recategorize (updateCategory categoryId txId t))
                = List.map recategorized t).
    { rewrite recategorize_map by (now rewrite ids_updateCategory).
      cbn [fst]. apply recategorized_updateCategory. }
    destruct (Str.isEmpty txId || Str.isEmpty categoryId)%bool;
      [cbn [fst]; now rewrite (recategorize_map t U)|].
    destruct (changes txId t =? 0)%nat; cbn [fst]; exact K.
Qed.

(** A witness: a table of two rows, one stored under a category that is not
    the one the rules give it. *)
Lemma recategorize_resets_categories_witness :
  let t := [mkStored "tx_1" (Fin (-15 # 1)) "NETFLIX.COM" "NETFLIX.COM"
                     (JSDate.Time 0) "other" "card_A"
                     (Parser.RawLine "NETFLIX.COM");
            mkStored "tx_2" (Fin (-5 # 1)) "STARBUCKS" "STARBUCKS"
                     (JSDate.Time 0) "restaurants" "card_A"
                     (Parser.RawLine "STARBUCKS")] in
  let t' := fst (recategorize t) in
  let counts := snd (recategorize t) in
  t' = List.map recategorized t /\
  updated counts = List.length (List.filter isStale t) /\
  (updated counts + unchanged counts)%nat = List.length t /\
  totalTransactions counts = List.length t /\
  recategorize t'
  = (t', mkRecatResponse 0 (List.length t) (List.length t)) /\
  forall txId categoryId,
    fst (recategorize (fst (putCategory t txId categoryId))) = t'.
Proof.
  intros t. apply (recategorize_resets_categories t). reflexivity.
Defined.

(** The update endpoint changes the category of the rows with the id it is
    given and nothing else: it answers 404, and the table is as it was,
    exactly when no row has that id; otherwise every row with the id has the
    category of the request, whatever that category is (it is not looked up
    in the categories), and the other rows, the order and the number of rows
    are as before. *)
Theorem putCategory_outcomes :
  forall t txId categoryId,
    let t' := fst (putCategory t txId categoryId) in
    List.map id t' = List.map id t /\
    (forall r, In r t' ->
       In r t \/
       (id r = txId /\ category_id r = categoryId /\
        exists r0, In r0 t /\ r = setCategory categoryId r0)) /\
    match snd (putCategory t txId categoryId) with
    | PutOk =>
        In txId (List.map id t) /\
        forall r, In r t' -> id r = txId -> category_id r = categoryId
    | PutError httpStatus _ =>
        t' = t /\
        ((httpStatus = 400%nat /\
          (txId = EmptyString \/ categoryId = EmptyString)) \/
         (httpStatus = 404%nat /\ ~ In txId (List.map id t)))
    end.
Proof.
  intros t txId categoryId t'. unfold t', putCategory.
  assert (C : (changes txId t =? 0)%nat = true <-> ~ In txId (List.map id t)).
  { unfold changes. rewrite Nat.eqb_eq. induction t as [|r t IH]; simpl.
    - tauto.
    - destruct (String.eqb_spec (id r) txId) as [E|E]; simpl.
      + split; [discriminate | tauto].
      + rewrite IH. tauto. }
  assert (M : forall r, In r (updateCategory categoryId txId t) ->
                In r t \/
                (id r = txId /\ category_id r = categoryId /\
                 exists r0, In r0 t /\ r = setCategory categoryId r0)).
  { intros r H. unfold updateCategory in H.
    apply in_map_iff in H as (r0 & E & Hin).
    destruct (String.eqb_spec (id r0) txId) as [I|I]; subst r; [|now left].
    right. repeat split; eauto. }
  destruct (Str.isEmpty txId || Str.isEmpty categoryId)%bool eqn:B;
    cbn [fst snd].
  - split; [reflexivity|]. split; [now left|]. split; [reflexivity|].
    left. split; [reflexivity|]. apply orb_true_iff in B.
    destruct B as [B|B]; [left; now destruct txId | right; now destruct categoryId].
  - destruct (changes txId t =? 0)%nat eqn:Z; cbn [fst snd].
    + pose proof (proj1 C eq_refl) as N.
      split; [apply ids_updateCategory|]. split; [exact M|].
      split; [now apply updateCategory_other|]. right. now split.
    + split; [apply ids_updateCategory|]. split; [exact M|]. split.
      * destruct (in_dec string_dec txId (List.map id t)) as [I|I]; [exact I|].
        apply C in I. discriminate.
      * intros r H I. unfold updateCategory in H.
        apply in_map_iff in H as (r0 & E & _).
        destruct (String.eqb_spec (id r0) txId) as [J|J]; subst r;
          [reflexivity | contradiction].
Qed.

End RecategorizeFacts.

(** ** The filters of the transaction list *)

Module QueryFacts.

Import Server ServerApi.

Lemma placeholders_app a b :
  placeholders (a ++ b) = (placeholders a + placeholders b)%nat.
Proof.
  induction a as [|c a IH]; simpl; [reflexivity|].
  destruct (Ascii.eqb c "?"); simpl; now rewrite IH.
Qed.

(** A filter keeps the text and the values in step when its own text has as
    many placeholders as it pushes values. *)
Lemma filterBy_balanced cond sql values acc :
  placeholders sql = List.length values ->
  placeholders (fst acc) = List.length (snd acc) ->
  placeholders (fst (filterBy cond sql values acc))
  = List.length (snd (filterBy cond sql values acc)).
Proof.
  intros Hs Ha. unfold filterBy. destruct cond; [|exact Ha]. cbn [fst snd].
  rewrite placeholders_app, length_app. lia.
Qed.

Lemma buildWhere_balanced q :
  placeholders (fst (buildWhere q)) = List.length (snd (buildWhere q)).
Proof.
  unfold buildWhere. cbv zeta.
  destruct (Parser.truthy (amountMax q)), (Parser.truthy (amountMin q));
    repeat (apply filterBy_balanced; [reflexivity|]); reflexivity.
Qed.

(** The text of the filters is made of the fixed fragments of the filters
    that are present. *)
Lemma buildWhere_text q :
  fst (buildWhere q)
  = fold_left
      (fun (acc : string) (f : bool * string) =>
         if fst f then acc ++ snd f else acc)
      (List.combine (present q)
         [" AND (t.description LIKE ? OR t.merchant_name LIKE ? OR c.name LIKE ?)";
          " AND t.date >= ?"; " AND t.date <= ?"; " AND c.name = ?";
          " AND t.card_number = ?"; " AND t.transaction_type = ?";
          " AND ABS(t.amount) >= ?"; " AND ABS(t.amount) <= ?"])
      "1=1".
Proof.
  unfold buildWhere, present, filterBy. cbv zeta. cbn [List.map List.combine fold_left fst snd].
  destruct (Parser.truthy (search q)), (Parser.truthy (dateFrom q)),
    (Parser.truthy (dateTo q)), (Parser.truthy (category q)),
    (Parser.truthy (cardNumber q)), (Parser.truthy (transactionType q)),
    (Parser.truthy (amountMin q)), (Parser.truthy (amountMax q));
    reflexivity.
Qed.

(** Every value a filter takes from the request reaches the database as a
    bound value and never as part of the SQL text: the text of the [WHERE]
    clause depends only on which filters are present, and the clause, the
    main query and the count query each have exactly as many placeholders as
    values are bound to them.  Without filters the clause is [1=1] with no
    value. *)
Theorem buildWhere_binds_values :
  forall q limit offset,
    let whereClause := fst (buildWhere q) in
    let params := snd (buildWhere q) in
    placeholders whereClause = List.length params /\
    placeholders (mainQuery whereClause)
    = List.length (mainParams params limit offset) /\
    placeholders (countQuery whereClause) = List.length params /\
    (forall q', present q' = present q -> fst (buildWhere q') = whereClause) /\
    (present q = List.repeat false 8 -> buildWhere q = ("1=1", [])).
Proof.
  intros q limit offset whereClause params.
  pose proof (buildWhere_balanced q) as B. fold whereClause params in B.
  split; [exact B|]. split; [|split; [|split]].
  - unfold mainQuery, mainParams.
    rewrite !placeholders_app, length_app, B. cbn [List.length].
    match goal with
    | |- (placeholders ?a + (_ + placeholders ?b))%nat = _ =>
        change (placeholders a) with 0%nat; change (placeholders b) with 2%nat
    end. lia.
  - unfold countQuery. rewrite !placeholders_app, B.
    match goal with
    | |- (placeholders ?a + (_ + placeholders ?b))%nat = _ =>
        change (placeholders a) with 0%nat; change (placeholders b) with 0%nat
    end. lia.
  - intros q' H. unfold whereClause. rewrite !buildWhere_text. now rewrite H.
  - unfold present. cbn [List.map List.repeat]. intros [= S F T C N Y A X].
    unfold buildWhere. cbv zeta. now rewrite S, F, T, C, N, Y, A, X.
Qed.

End QueryFacts.

(** ** [extractReferenceId] *)

Module ReferenceFacts.

Import Regex StrFacts RegexFacts ServerApi.
Local Open Scope nat_scope.

(** A greedy repetition without an upper bound, when nothing has to match
    after it, reads the whole run of the class. *)
Lemma rep_greedy_run {A} cls s :
  forall lo pos (k : nat -> string -> option A),
    (forall p u, k p u <> None) ->
    rep cls true lo None pos s k
    = if lo <=? String.length (Str.takeWhile cls s)
      then k (pos + String.length (Str.takeWhile cls s)) (Str.dropWhile cls s)
      else None.
Proof.
  induction s as [|c t IH]; intros lo pos k Hk.
  - simpl. destruct lo; simpl; [now rewrite Nat.add_0_r | reflexivity].
  - cbn [rep Str.takeWhile Str.dropWhile]. destruct (cls c) eqn:Hc.
    + cbn [andb canTake decr]. rewrite (IH _ _ _ Hk). cbn [String.length].
      destruct lo as [|lo]; cbn [pred Nat.leb].
      * cbn [Nat.leb]. rewrite Nat.add_succ_comm.
        destruct (k (pos + S (String.length (Str.takeWhile cls t)))
                    (Str.dropWhile cls t)) eqn:E; [reflexivity|].
        exfalso. exact (Hk _ _ E).
      * rewrite Nat.add_succ_comm.
        destruct (lo <=? String.length (Str.takeWhile cls t)); [|reflexivity].
        now destruct (k _ _).
    + cbn [andb orElse String.length]. destruct lo; cbn [Nat.leb];
        [now rewrite Nat.add_0_r | reflexivity].
Qed.

Lemma matchAt_reference pos s :
  matchAt referenceRegex pos s
  = if 20 <=? String.length (Str.takeWhile digit s)
    then Some (mkResult pos (Str.takeWhile digit s)
                        [(1, Str.takeWhile digit s)] (Str.dropWhile digit s))
    else None.
Proof.
  unfold matchAt, referenceRegex. cbn [exec].
  rewrite rep_greedy_run by (intros; discriminate).
  destruct (20 <=? String.length (Str.takeWhile digit s)); [|reflexivity].
  replace (pos + String.length (Str.takeWhile digit s) - pos)
    with (String.length (Str.takeWhile digit s)) by lia.
  rewrite <- (takeWhile_dropWhile digit s) at 2 4.
  now rewrite take_app_exact.
Qed.

Lemma takeWhile_window cls w post :
  Str.forallb cls w = true ->
  String.length w <= String.length (Str.takeWhile cls (w ++ post)).
Proof.
  induction w as [|c w IH]; simpl; [lia|].
  intros H. apply andb_true_iff in H as [Hc Hw]. rewrite Hc. simpl.
  specialize (IH Hw). lia.
Qed.

Lemma takeWhile_stops cls s :
  Str.takeWhile cls (Str.dropWhile cls s) = EmptyString.
Proof.
  induction s as [|c t IH]; simpl; [reflexivity|].
  destruct (cls c) eqn:E; [exact IH|]. simpl. now rewrite E.
Qed.

(** The search returns the first run of twenty digits or more, whole. *)
Lemma search_reference s :
  forall pos,
    match searchFrom referenceRegex pos s with
    | Some m =>
        exists pre,
          s = pre ++ matched m ++ rest m /\
          group 1 (groups m) = matched m /\
          Str.forallb digit (matched m) = true /\
          20 <= String.length (matched m) /\
          Str.takeWhile digit (rest m) = EmptyString /\
          forall pre' u, s = pre' ++ u ->
            20 <= String.length (Str.takeWhile digit u) ->
            String.length pre <= String.length pre'
    | None =>
        forall pre' u, s = pre' ++ u ->
          String.length (Str.takeWhile digit u) < 20
    end.
Proof.
  induction s as [|c t IH]; intros pos.
  - cbn [searchFrom]. rewrite matchAt_reference. cbn.
    intros pre' u E. destruct pre'; [|discriminate]. simpl in E. subst u.
    simpl. lia.
  - cbn [searchFrom]. rewrite matchAt_reference.
    destruct (20 <=? String.length (Str.takeWhile digit (String c t))) eqn:L.
    + exists EmptyString. cbn [matched rest groups group Nat.eqb app].
      rewrite takeWhile_dropWhile, takeWhile_forallb, takeWhile_stops.
      apply Nat.leb_le in L. repeat split; auto. intros; simpl; lia.
    + apply Nat.leb_gt in L. specialize (IH (S pos)).
      destruct (searchFrom referenceRegex (S pos) t) as [m|].
      * destruct IH as (pre & E & G & D & N & T & F).
        exists (String c pre). rewrite E at 1. repeat split; auto.
        intros pre' u E' Lu. destruct pre' as [|c' pre'].
        -- simpl in E'. subst u. lia.
        -- simpl in E'. injection E' as _ E'. simpl.
           apply le_n_S. exact (F pre' u E' Lu).
      * intros pre' u E'. destruct pre' as [|c' pre'].
        -- simpl in E'. now subst u.
        -- simpl in E'. injection E' as _ E'. exact (IH pre' u E').
Qed.

(** [extractReferenceId] returns the first run of at least twenty digits of
    the memo, the whole run (what follows it is not a digit, and no run of
    twenty digits begins before it), and returns nothing exactly when the
    memo has no twenty digits in a row. *)
Theorem extractReferenceId_first_run :
  forall memo,
    match extractReferenceId memo with
    | Some ref =>
        Str.forallb Str.isDigit ref = true /\
        20 <= String.length ref /\
        exists pre post,
          memo = pre ++ ref ++ post /\
          Str.takeWhile Str.isDigit post = EmptyString /\
          forall pre' w post',
            memo = pre' ++ w ++ post' ->
            Str.forallb Str.isDigit w = true -> 20 <= String.length w ->
            String.length pre <= String.length pre'
    | None =>
        forall pre w post,
          memo = pre ++ w ++ post -> Str.forallb Str.isDigit w = true ->
          String.length w < 20
    end.
Proof.
  intros memo. unfold extractReferenceId, matchRe.
  pose proof (search_reference memo 0) as S.
  destruct memo as [|c t] eqn:Em.
  - cbn [Str.isEmpty]. intros pre w post E _.
    destruct pre; [|discriminate]. destruct w; [simpl; lia | discriminate].
  - cbn [Str.isEmpty]. rewrite <- Em in *. clear Em.
    destruct (searchFrom referenceRegex 0 memo) as [m|].
    + destruct S as (pre & E & G & D & N & T & F). rewrite G.
      split; [exact D|]. split; [exact N|].
      exists pre, (rest m). split; [exact E|]. split; [exact T|].
      intros pre' w post' E' Dw Lw. apply (F pre' (w ++ post') E').
      pose proof (takeWhile_window digit w post' Dw). lia.
    + intros pre w post E Dw.
      pose proof (S pre (w ++ post) E).
      pose proof (takeWhile_window digit w post Dw). lia.
Qed.

End ReferenceFacts.

(** ** The periods of the analytics *)

Module PeriodFacts.

Import JSDate CalendarFacts ServerApi.

Ltac Zify.zify_post_hook ::= Z.to_euclidean_division_equations.

(** The first of a month and the day before the first of the next are a
    month apart. *)
Lemma day_zero y m : MakeDay y m 0 = MakeDay y m 1 - 1.
Proof. unfold MakeDay. lia. Qed.

Lemma day_from_first y m d : MakeDay y m d = MakeDay y m 1 + (d - 1).
Proof. unfold MakeDay. lia. Qed.

Lemma month_length y m :
  exists n, 28 <= n <= 31 /\ MakeDay y (m + 1) 0 = MakeDay y m 1 + n - 1.
Proof.
  set (Y := y + m / 12). set (M := m mod 12).
  exists (DaysInMonth (InLeapYear Y) M).
  split; [apply DaysInMonth_range|].
  assert (HM : 0 <= M < 12) by (unfold M; lia).
  pose proof (MakeDay_month_carry y m 1) as A. fold Y M in A.
  pose proof (MakeDay_day_carry Y M (DaysInMonth (InLeapYear Y) M) HM) as B.
  rewrite Z.sub_diag in B.
  pose proof (day_from_first Y M (DaysInMonth (InLeapYear Y) M)) as C.
  pose proof (MakeDay_month_carry Y (M + 1) 0) as D.
  pose proof (MakeDay_month_carry y (m + 1) 0) as F.
  replace (Y + (M + 1) / 12) with (y + (m + 1) / 12) in D
    by (unfold Y, M; lia).
  replace ((M + 1) mod 12) with ((m + 1) mod 12) in D by (unfold M; lia).
  lia.
Qed.

Lemma first_next y m : MakeDay y m 1 + 28 <= MakeDay y (m + 1) 1.
Proof.
  destruct (month_length y m) as (n & Hn & E).
  replace (MakeDay y (m + 1) 1) with (MakeDay y (m + 1) 0 + 1)
    by (rewrite <- MakeDay_day_shift; reflexivity).
  lia.
Qed.

(** The firsts of the months are in the order of the months. *)
Lemma first_span y m (k : nat) :
  MakeDay y m 1 + 28 * Z.of_nat k <= MakeDay y (m + Z.of_nat k) 1.
Proof.
  induction k as [|k IH].
  - change (Z.of_nat 0) with 0. rewrite Z.mul_0_r, !Z.add_0_r. lia.
  - rewrite Nat2Z.inj_succ.
    replace (m + Z.succ (Z.of_nat k)) with (m + Z.of_nat k + 1) by lia.
    pose proof (first_next y (m + Z.of_nat k)). lia.
Qed.

Lemma first_mono y a b :
  a <= b -> MakeDay y a 1 + 28 * (b - a) <= MakeDay y b 1.
Proof.
  intros H. pose proof (first_span y a (Z.to_nat (b - a))) as S.
  rewrite Z2Nat.id in S by lia. now replace (a + (b - a)) with b in S by lia.
Qed.

Lemma december y : MakeDay y 11 31 = MakeDay (y + 1) 0 0.
Proof.
  rewrite (MakeDay_day_carry y 11 31) by lia.
  replace (31 - DaysInMonth (InLeapYear y) 11) with 0
    by (destruct (InLeapYear y); reflexivity).
  rewrite (MakeDay_month_carry y (11 + 1) 0). reflexivity.
Qed.

(** A first of a month reads back as a first. *)
Lemma first_is_first y m : DateFromDay (MakeDay y m 1) = 1.
Proof.
  rewrite (MakeDay_month_carry y m 1).
  apply civil_MakeDay; [lia|].
  pose proof (DaysInMonth_range (InLeapYear (y + m / 12)) (m mod 12)). lia.
Qed.

(** In the years 1969 to 10000 the dates of the periods are valid dates, at
    midnight of the day [MakeDay] names. *)
Lemma newDate_midnight y m d :
  1969 <= y <= 10000 -> -12 <= m <= 24 -> 0 <= d <= 31 ->
  newDate y m d = Time (MakeDay y m d * msPerDay).
Proof.
  intros Hy Hm Hd. unfold newDate.
  replace ((0 <=? y) && (y <=? 99)) with false
    by (symmetry; apply andb_false_iff; right; apply Z.leb_gt; lia).
  unfold TimeClip.
  replace (Z.abs (MakeDay y m d * msPerDay) <=? 8640000000000000) with true;
    [reflexivity|].
  symmetry. apply Z.leb_le.
  assert (B : -1000 <= MakeDay y m d <= 3700000).
  { rewrite (MakeDay_month_carry y m d), MakeDay_in_range by lia.
    pose proof (DateRoundTrip.monthStart_range
                  (InLeapYear (y + m / 12)) (m mod 12) ltac:(lia)).
    pose proof (DayFromYear_mono 1968 (y + m / 12) ltac:(lia)).
    pose proof (DayFromYear_mono (y + m / 12) 10002 ltac:(lia)).
    change (DayFromYear 1968) with (-731) in *.
    change (DayFromYear 10002) with 2933628 in *. lia. }
  unfold msPerDay. lia.
Qed.

(** For a request made in a year from 1970 to 9999, whatever the period
    asked for: the four dates of the ranges are valid dates at midnight; the
    current period begins on the first day of a month, no later than the day
    of the request, and ends no earlier than that day; the prior period ends
    on the day before the current one begins and begins, on the first day of
    a month, before it ends. *)
Theorem ranges_adjacent :
  forall period t,
    1970 <= getFullYear t <= 9999 ->
    let r := ranges period t in
    exists cs ce ps pe,
      currentStart r = Time (cs * msPerDay) /\
      currentEnd r = Time (ce * msPerDay) /\
      priorStart r = Time (ps * msPerDay) /\
      priorEnd r = Time (pe * msPerDay) /\
      cs <= Day t <= ce /\
      pe + 1 = cs /\
      ps + 27 <= pe /\
      DateFromDay cs = 1 /\ DateFromDay ps = 1.
Proof.
  intros period t Hy r.
  destruct (civil_normal (Day t)) as (Hm & Hd & E). cbv zeta in Hm, Hd, E.
  fold (getFullYear t) in Hd, E.
  set (y := getFullYear t) in *. set (m := MonthFromDay (Day t)) in *.
  set (d := DateFromDay (Day t)) in *.
  pose proof (DaysInMonth_range (InLeapYear y) m) as Hn.
  assert (Today : MakeDay y m 1 <= Day t <= MakeDay y (m + 1) 0).
  { pose proof (MakeDay_day_carry y m (DaysInMonth (InLeapYear y) m)
                  ltac:(lia)) as C.
    rewrite Z.sub_diag in C.
    pose proof (day_from_first y m (DaysInMonth (InLeapYear y) m)).
    pose proof (day_from_first y m d). lia. }
  unfold r, ranges. cbv zeta. fold y. unfold getMonth. fold m.
  destruct (String.eqb (if Parser.truthy period then period else "month")
                       "month").
  { exists (MakeDay y m 1), (MakeDay y (m + 1) 0), (MakeDay y (m - 1) 1),
      (MakeDay y m 0).
    cbn [currentStart currentEnd priorStart priorEnd].
    rewrite !newDate_midnight by lia.
    repeat split; try reflexivity; try apply first_is_first; try lia.
    - rewrite day_zero. lia.
    - destruct (month_length y (m - 1)) as (n & Hn' & L).
      replace (m - 1 + 1) with m in L by lia. lia. }
  destruct (String.eqb (if Parser.truthy period then period else "month")
                       "quarter").
  { set (q := m / 3).
    exists (MakeDay y (q * 3) 1), (MakeDay y ((q + 1) * 3) 0),
      (MakeDay y ((q - 1) * 3) 1), (MakeDay y (q * 3) 0).
    cbn [currentStart currentEnd priorStart priorEnd].
    assert (Hq : 0 <= q <= 3 /\ q * 3 <= m <= q * 3 + 2) by (unfold q; lia).
    rewrite !newDate_midnight by lia.
    pose proof (first_mono y (q * 3) m ltac:(lia)).
    pose proof (first_mono y (m + 1) ((q + 1) * 3) ltac:(lia)).
    pose proof (first_mono y ((q - 1) * 3) (q * 3) ltac:(lia)).
    rewrite !day_zero in *.
    repeat split; try reflexivity; try apply first_is_first; lia. }
  exists (MakeDay y 0 1), (MakeDay y 11 31), (MakeDay (y - 1) 0 1),
    (MakeDay (y - 1) 11 31).
  cbn [currentStart currentEnd priorStart priorEnd].
  rewrite !newDate_midnight by lia.
  pose proof (first_mono y 0 m ltac:(lia)).
  pose proof (first_mono y (m + 1) 12 ltac:(lia)).
  pose proof (first_mono (y - 1) 0 12 ltac:(lia)).
  pose proof (december y) as D1. pose proof (december (y - 1)) as D0.
  replace (y - 1 + 1) with y in D0 by lia.
  rewrite (MakeDay_month_carry y 12 1) in *.
  change (12 / 12) with 1 in *. change (12 mod 12) with 0 in *.
  rewrite (MakeDay_month_carry (y - 1) 12 1) in *.
  change (12 / 12) with 1 in *. change (12 mod 12) with 0 in *.
  replace (y - 1 + 1) with y in * by lia.
  rewrite D1, D0, !day_zero in *.
  repeat split; try reflexivity; try apply first_is_first; lia.
Qed.

(** A witness: a request of 28 July 2024 for the quarter. *)
Lemma ranges_adjacent_witness :
  let r := ranges "quarter" 1722124800000 in
  exists cs ce ps pe,
    currentStart r = Time (cs * msPerDay) /\
    currentEnd r = Time (ce * msPerDay) /\
    priorStart r = Time (ps * msPerDay) /\
    priorEnd r = Time (pe * msPerDay) /\
    cs <= Day 1722124800000 <= ce /\
    pe + 1 = cs /\
    ps + 27 <= pe /\
    DateFromDay cs = 1 /\ DateFromDay ps = 1.
Proof.
  apply (ranges_adjacent "quarter" 1722124800000).
  vm_compute. split; discriminate.
Defined.

End PeriodFacts.

(** ** Sums of amounts *)

Module SumFacts.





End SumFacts.

(** ** The stand-alone parser on files *)

Module ParserFileFacts.

Import JSDate StrFacts NumFacts BuilderFacts LineFacts SumFacts ParserFile.

Section WithFiles.

Variable currentYear : Z.
Variable dateParse : string -> Date.




End WithFiles.








End ParserFileFacts.

(** ** The stand-alone parser: the choice of the reader *)

Module ExtensionFacts.

Import StrFacts RegexFacts ParserFile.

Abbreviation notChar c := (fun d : ascii => negb (Ascii.eqb d c)).

Lemma dropWhile_app p a b :
  Str.dropWhile p (a ++ b)
  = match Str.dropWhile p a with
    | EmptyString => Str.dropWhile p b
    | String d u => String d u ++ b
    end.
Proof.
  induction a as [|c a IH]; simpl; [now destruct (Str.dropWhile p b)|].
  destruct (p c); [exact IH | reflexivity].
Qed.

Lemma dropWhile_length p s :
  (String.length (Str.dropWhile p s) <= String.length s)%nat.
Proof.
  induction s as [|c s IH]; simpl; [lia|].
  destruct (p c); simpl; lia.
Qed.

Lemma dropWhile_head p s d u : Str.dropWhile p s = String d u -> p d = false.
Proof.
  induction s as [|c s IH]; simpl; [discriminate|].
  destruct (p c) eqn:E; [exact IH|]. now intros [= <- _].
Qed.

Lemma takeWhile_whole p s :
  Str.forallb p s = true -> Str.takeWhile p s = s.
Proof.
  induction s as [|c s IH]; simpl; [reflexivity|].
  intros H. apply andb_true_iff in H as [Hc Hs]. now rewrite Hc, IH.
Qed.

Lemma dropWhile_all p s :
  Str.forallb p s = true -> Str.dropWhile p s = EmptyString.
Proof.
  induction s as [|c s IH]; simpl; [reflexivity|].
  intros H. apply andb_true_iff in H as [Hc Hs]. now rewrite Hc, IH.
Qed.

(** A string without the separator is one piece. *)
Lemma splitFuel_whole c fuel e :
  Str.forallb (notChar c) e = true -> Js.splitFuel c fuel e = [e].
Proof.
  intros H. destruct fuel; simpl; [reflexivity|].
  now rewrite (dropWhile_all _ _ H), (takeWhile_whole _ _ H).
Qed.

Lemma splitFuel_nonempty c fuel s : Js.splitFuel c fuel s <> [].
Proof.
  destruct fuel; simpl; [discriminate|].
  destruct (Str.dropWhile _ s); discriminate.
Qed.

(** The last piece is what follows the last separator. *)
Lemma splitFuel_last c e :
  Str.forallb (notChar c) e = true ->
  forall fuel s,
    (String.length (s ++ String c e) <= fuel)%nat ->
    List.last (Js.splitFuel c fuel (s ++ String c e)) EmptyString = e.
Proof.
  intros He. induction fuel as [|fuel IH]; intros s L.
  - rewrite length_app_str in L. simpl in L. lia.
  - cbn [Js.splitFuel]. rewrite dropWhile_app.
    destruct (Str.dropWhile (notChar c) s) as [|d u] eqn:D.
    + cbn [Str.dropWhile]. rewrite Ascii.eqb_refl. cbn [negb].
      rewrite (splitFuel_whole c fuel e He). reflexivity.
    + pose proof (dropWhile_head _ _ _ _ D) as Hd.
      apply negb_false_iff, Ascii.eqb_eq in Hd. subst d.
      cbn [append].
      assert (K : (String.length (u ++ String c e) <= fuel)%nat).
      { pose proof (dropWhile_length (notChar c) s) as M. rewrite D in M.
        rewrite length_app_str in *. simpl in *. lia. }
      specialize (IH u K).
      destruct (Js.splitFuel c fuel (u ++ String c e)) as [|x l] eqn:S;
        [now apply splitFuel_nonempty in S|].
      exact IH.
Qed.

Lemma toLowerCase_app a b :
  Str.toLowerCase (a ++ b) = Str.toLowerCase a ++ Str.toLowerCase b.
Proof.
  unfold Str.toLowerCase. induction a as [|c a IH]; simpl; [reflexivity|].
  now rewrite IH.
Qed.

Lemma lower_not_dot c :
  negb (Ascii.eqb c ".") = true -> negb (Ascii.eqb (Str.lower c) ".") = true.
Proof.
  destruct c as [[] [] [] [] [] [] [] []]; vm_compute; auto.
Qed.

Lemma toLowerCase_no_dot e :
  Str.forallb (notChar ".") e = true ->
  Str.forallb (notChar ".") (Str.toLowerCase e) = true.
Proof.
  unfold Str.toLowerCase. induction e as [|c e IH]; simpl; [reflexivity|].
  intros H. apply andb_true_iff in H as [Hc He].
  now rewrite (lower_not_dot c Hc), IH.
Qed.

Lemma fileExtension_after_dot base e :
  Str.forallb (notChar ".") e = true ->
  fileExtension (base ++ "." ++ e) = Str.toLowerCase e.
Proof.
  intros H. unfold fileExtension, Js.split.
  rewrite toLowerCase_app. cbn [append].
  change (Str.toLowerCase (String "." e))
    with (String "." (Str.toLowerCase e)).
  apply splitFuel_last; [now apply toLowerCase_no_dot | lia].
Qed.

Lemma fileExtension_no_dot e :
  Str.forallb (notChar ".") e = true -> fileExtension e = Str.toLowerCase e.
Proof.
  intros H. unfold fileExtension, Js.split.
  now rewrite (splitFuel_whole "." _ _ (toLowerCase_no_dot e H)).
Qed.

(** The reader is chosen by what follows the last point of the name, read
    without regard to case, and by the whole name when it has no point: [csv]
    goes to the CSV reader, [pdf] to the PDF reader, and anything else gives
    the result of a failure whose one message names the extension in lower
    case. *)
Theorem parseStatementFile_by_extension :
  forall currentYear dateParse csvStream pdfText filePath name base e,
    name = base ++ "." ++ e \/ name = e ->
    Str.forallb (fun c => negb (Ascii.eqb c ".")) e = true ->
    parseStatementFile currentYear dateParse csvStream pdfText filePath name
    = if String.eqb (Str.toLowerCase e) "csv"
      then parseCSV currentYear dateParse csvStream filePath name
      else if String.eqb (Str.toLowerCase e) "pdf"
      then parsePDF currentYear dateParse pdfText filePath name
      else mkResult [] (Fin 0) name
             ["Failed to parse file: Unsupported file type: "
              ++ Str.toLowerCase e].
Proof.
  intros currentYear dateParse csvStream pdfText filePath name base e N H.
  assert (E : fileExtension name = Str.toLowerCase e).
  { destruct N as [-> | ->];
      [now apply fileExtension_after_dot | now apply fileExtension_no_dot]. }
  unfold parseStatementFile. cbv zeta. rewrite E. reflexivity.
Qed.

(** A witness: a name in capitals, and a name without a point. *)
Lemma parseStatementFile_by_extension_witness :
  parseStatementFile 2026 Env.noFallback (fun _ => inl []) (fun _ => inl "")
                     "uploads/tmp" "JULY.2024.CSV"
  = parseCSV 2026 Env.noFallback (fun _ => inl []) "uploads/tmp" "JULY.2024.CSV"
  /\
  parseStatementFile 2026 Env.noFallback (fun _ => inl []) (fun _ => inl "")
                     "uploads/tmp" "notes"
  = mkResult [] (Fin 0) "notes"
      ["Failed to parse file: Unsupported file type: notes"].
Proof.
  split.
  - apply (parseStatementFile_by_extension 2026 Env.noFallback
             (fun _ => inl []) (fun _ => inl "") "uploads/tmp"
             "JULY.2024.CSV" "JULY.2024" "CSV"); [left|]; reflexivity.
  - apply (parseStatementFile_by_extension 2026 Env.noFallback
             (fun _ => inl []) (fun _ => inl "") "uploads/tmp"
             "notes" "" "notes"); [right|]; reflexivity.
Defined.

End ExtensionFacts.

(** ** The first server's upload *)

Module FirstServerFacts.

Import JSDate FirstServer.

Lemma category_loaded categories description merchantName :
  let c := fst (Categorizer.categorizeTransaction categories description
                                                  merchantName) in
  c = "other" \/ In c categories.
Proof.
  cbv zeta. unfold Categorizer.categorizeTransaction. cbv zeta.
  destruct (Categorizer.firstRule _ _ _) as [r|] eqn:E; [|now left].
  right. now apply CategoryFacts.firstRule_some in E.
Qed.

Section Store.

Variable categoriesAt : nat -> list string.
Variable insertFails : StoredTransaction -> bool.
Variable uuid : nat -> string.

Abbreviation step := (FirstServer.storeOne categoriesAt insertFails uuid).

Lemma storeOne_cases st tx :
  (table (step st tx) = table st /\
   categorized (step st tx) = categorized st) \/
  exists row entry,
    table (step st tx) = (table st ++ [row])%list /\
    categorized (step st tx) = (categorized st ++ [entry])%list /\
    (category_id row = "other" \/
     exists n, In (category_id row) (categoriesAt n)).
Proof.
  unfold FirstServer.storeOne. cbv zeta.
  destruct (insertFails _); [now left|]. right. cbn [table categorized].
  eexists. eexists. split; [reflexivity|]. split; [reflexivity|].
  cbn [category_id].
  destruct (category_loaded (categoriesAt (drawn st)) (Parser.description tx)
              (Parser.merchantName tx)) as [E|I]; [now left | right; eauto].
Qed.

(** The loop only appends, one row for each entry of
    [categorizedTransactions], and every row it appends has the category
    [other] or a loaded one. *)
Lemma fold_appends txs :
  forall st,
    let st' := fold_left step txs st in
    exists added,
      table st' = (table st ++ added)%list /\
      (List.length (categorized st')
       = List.length (categorized st) + List.length added)%nat /\
      (List.length added <= List.length txs)%nat /\
      Forall (fun r => category_id r = "other" \/
                       exists n, In (category_id r) (categoriesAt n))
             added.
Proof.
  induction txs as [|tx txs IH]; intros st; cbn [fold_left]; cbv zeta.
  - exists []. rewrite app_nil_r. simpl. repeat split; auto; lia.
  - destruct (IH (step st tx)) as (added & T & C & L & F).
    destruct (storeOne_cases st tx) as [(Et & Ec)|(row & entry & Et & Ec & K)];
      rewrite Et, Ec in *.
    + exists added. simpl. repeat split; auto; lia.
    + exists (row :: added). rewrite <- app_assoc in T. split; [exact T|].
      rewrite length_app in C. simpl in C |- *. split; [lia|]. split; [lia|].
      constructor; [exact K | exact F].
Qed.

Hypothesis accepts_all : forall r, insertFails r = false.


End Store.



(** Whatever the storage engine does, the upload only appends to the
    transactions, no more rows than were extracted and as many as it reports
    stored; every row it appends has the category [other] or a category that
    was loaded when the row was categorised, hence, when only categories of
    the [Database] class are ever loaded, a category that class has seeded;
    and an answer that is not a success has changed nothing. *)
Theorem upload_appends :
  forall currentYear dateParse csvStream pdfText categoriesAt statementFails
         insertFails w file uuid,
    let out :=
      upload currentYear dateParse csvStream pdfText categoriesAt
             statementFails insertFails w file uuid in
    exists added,
      transactions (fst out) = (transactions w ++ added)%list /\
      Forall (fun r => category_id r = "other" \/
                       exists n, In (category_id r) (categoriesAt n)) added /\
      ((forall n c, In c (categoriesAt n) -> In c Database.seededCategories) ->
       Forall (fun r => In (category_id r) Database.seededCategories) added) /\
      match snd out with
      | Success _ n total _ =>
          n = List.length added /\
          exists s, statements (fst out) = (statements w ++ [s])%list /\
                    (n <= transaction_count s)%nat /\ total_amount s = total
      | Failure _ _ _ => added = [] /\ fst out = w
      end.
Proof.
  intros currentYear dateParse csvStream pdfText categoriesAt statementFails
         insertFails w file uuid out.
  assert (Seeded : forall added,
            Forall (fun r => category_id r = "other" \/
                             exists n, In (category_id r) (categoriesAt n))
                   added ->
            (forall n c, In c (categoriesAt n) ->
                         In c Database.seededCategories) ->
            Forall (fun r => In (category_id r) Database.seededCategories)
                   added).
  { intros added F H. eapply Forall_impl; [|exact F].
    intros r [E|(n & I)]; [rewrite E; vm_compute; tauto | exact (H n _ I)]. }
  assert (Nothing : forall status error details,
            out = (w, Failure status error details) ->
            exists added,
              transactions (fst out) = (transactions w ++ added)%list /\
              Forall (fun r => category_id r = "other" \/
                               exists n, In (category_id r) (categoriesAt n))
                     added /\
              ((forall n c, In c (categoriesAt n) ->
                            In c Database.seededCategories) ->
               Forall (fun r => In (category_id r) Database.seededCategories)
                      added) /\
              match snd out with
              | Success _ n total _ =>
                  n = List.length added /\
                  exists s, statements (fst out) = (statements w ++ [s])%list /\
                            (n <= transaction_count s)%nat /\
                            total_amount s = total
              | Failure _ _ _ => added = [] /\ fst out = w
              end).
  { intros status error details ->. exists []. cbn [fst snd].
    rewrite app_nil_r. repeat split; auto. }
  unfold out, upload in *.
  destruct file as [f|]; [|eapply Nothing; reflexivity].
  cbv zeta in *.
  set (r := ParserFile.parseStatementFile currentYear dateParse csvStream
              pdfText (path f) (originalname f)) in *.
  destruct (ParserFile.transactions r) as [|tx txs] eqn:T;
    [eapply Nothing; reflexivity|].
  destruct (statementFails _) as [message|];
    [eapply Nothing; reflexivity|].
  clear Nothing. cbn [fst snd transactions statements].
  destruct (fold_appends categoriesAt insertFails (fun n => uuid (S n))
              (tx :: txs) (mkLoop (transactions w) [] 0))
    as (added & E & C & L & F).
  cbv zeta in E, C, L. cbn [table categorized] in E, C.
  exists added. split; [exact E|]. split; [exact F|].
  split; [exact (Seeded added F)|]. split; [rewrite C; reflexivity|].
  eexists. split; [reflexivity|]. cbn [transaction_count total_amount].
  split; [rewrite C; exact L | reflexivity].
Qed.

(** A file that passes the filter of the route but whose name ends in
    neither [csv] nor [pdf] (an Excel file, by its type) is always answered
    400, with the message that its type is not supported among the details,
    and nothing is stored. *)
Theorem route_unsupported :
  forall currentYear dateParse csvStream pdfText categoriesAt statementFails
         insertFails w f uuid,
    fileFilter f = true ->
    ParserFile.fileExtension (originalname f) <> "csv" ->
    ParserFile.fileExtension (originalname f) <> "pdf" ->
    route currentYear dateParse csvStream pdfText categoriesAt statementFails
          insertFails w (Some f) uuid
    = (w, Failure 400 "No transactions found in file"
            ["Failed to parse file: Unsupported file type: "
             ++ ParserFile.fileExtension (originalname f)]).
Proof.
  intros currentYear dateParse csvStream pdfText categoriesAt statementFails
         insertFails w f uuid F C P.
  unfold route. rewrite F. unfold upload. cbv zeta.
  unfold ParserFile.parseStatementFile. cbv zeta.
  apply String.eqb_neq in C, P. rewrite C, P. reflexivity.
Qed.

(** A witness: a spreadsheet. *)
Lemma route_unsupported_witness :
  route 2026 Env.noFallback (fun _ => inl []) (fun _ => inl "")
        (fun _ => Database.seededCategories) (fun _ => None)
        (fun _ => false) (mkWorld [] [])
        (Some (mkFile "uploads/tmp" "july.xls" "application/vnd.ms-excel"))
        Env.txId
  = (mkWorld [] [],
     Failure 400 "No transactions found in file"
       ["Failed to parse file: Unsupported file type: "
        ++ ParserFile.fileExtension "july.xls"]).
Proof.
  apply (route_unsupported 2026 Env.noFallback (fun _ => inl [])
           (fun _ => inl "") (fun _ => Database.seededCategories)
           (fun _ => None)
           (fun _ => false) (mkWorld [] [])
           (mkFile "uploads/tmp" "july.xls" "application/vnd.ms-excel")
           Env.txId);
    [reflexivity | vm_compute; discriminate | vm_compute; discriminate].
Defined.

End FirstServerFacts.

(** ** The [StatementParser] class on rows and files *)

Module StatementFileFacts.

Import JSDate StatementFile.

Lemma findDescription_first fields row :
  findDescription fields row
  = match List.find (fun f => Parser.truthy (Parser.get row f)) fields with
    | Some f => Str.trim (Parser.get row f)
    | None => EmptyString
    end.
Proof.
  induction fields as [|f fields IH]; simpl; [reflexivity|].
  destruct (Parser.truthy (Parser.get row f)); [reflexivity | exact IH].
Qed.

Lemma findAmount_first fields row :
  findAmount fields row
  = match List.find
            (fun f => Parser.truthy (Parser.get row f)
                      && negb (isNaN (StatementParser.parseAmount
                                        (Parser.get row f))))
            fields with
    | Some f => StatementParser.parseAmount (Parser.get row f)
    | None => Fin 0
    end.
Proof.
  induction fields as [|f fields IH]; simpl; [reflexivity|].
  destruct (Parser.truthy (Parser.get row f)); cbn [andb]; [|exact IH].
  destruct (isNaN _); [exact IH | reflexivity].
Qed.

Lemma statement_findAmount_number fields row : isNaN (findAmount fields row) = false.
Proof.
  induction fields as [|f fields IH]; simpl; [reflexivity|].
  destruct (Parser.truthy _); [|exact IH].
  destruct (isNaN (StatementParser.parseAmount _)) eqn:N; simpl;
    [exact IH | exact N].
Qed.

Lemma statement_findDate_field currentYear fields row d :
  findDate currentYear fields row = Some d ->
  exists f, In f fields /\ Parser.truthy (Parser.get row f) = true /\
            StatementParser.parseDate currentYear (Parser.get row f) = Some d.
Proof.
  induction fields as [|f fields IH]; simpl; [discriminate|].
  destruct (Parser.truthy (Parser.get row f)) eqn:T.
  - destruct (StatementParser.parseDate _ _) as [d'|] eqn:P.
    + intros [= <-]. eauto.
    + intros H. destruct (IH H) as (g & I & K). eauto.
  - intros H. destruct (IH H) as (g & I & K). eauto.
Qed.

(** The row builder of the class decides by the first field that is not
    empty: the description of a transaction it returns is the first
    description field that is not empty, trimmed, and is not empty itself;
    the amount is what [parseAmount] reads in the first amount field that
    holds a number, and is a number other than zero; the date is what
    [parseDate] reads in a date field.  So a row whose first description
    field is blank, or whose first numeric amount field is zero, is rejected
    whatever its later fields hold. *)
Theorem parseCSVRow_first_fields :
  forall currentYear row,
    let firstDescription :=
      List.find (fun f => Parser.truthy (Parser.get row f))
                possibleDescriptionFields in
    let firstAmount :=
      List.find (fun f => Parser.truthy (Parser.get row f)
                          && negb (isNaN (StatementParser.parseAmount
                                            (Parser.get row f))))
                possibleAmountFields in
    match parseCSVRow currentYear row with
    | Some tx =>
        (exists f, firstDescription = Some f /\
                   Parser.description tx = Str.trim (Parser.get row f)) /\
        Str.isEmpty (Parser.description tx) = false /\
        (exists f, firstAmount = Some f /\
                   Parser.amount tx
                   = StatementParser.parseAmount (Parser.get row f)) /\
        isNaN (Parser.amount tx) = false /\
        isZero (Parser.amount tx) = false /\
        (exists f, In f possibleDateFields /\
                   StatementParser.parseDate currentYear (Parser.get row f)
                   = Some (Parser.date tx)) /\
        Parser.originalText tx = Parser.RawRow row
    | None =>
        findDate currentYear possibleDateFields row = None \/
        (forall f, firstDescription = Some f ->
                   Str.trim (Parser.get row f) = EmptyString) \/
        (forall f, firstAmount = Some f ->
                   isZero (StatementParser.parseAmount (Parser.get row f))
                   = true)
    end.
Proof.
  intros currentYear row firstDescription firstAmount. unfold parseCSVRow.
  cbv zeta.
  pose proof (findDescription_first possibleDescriptionFields row) as D.
  pose proof (findAmount_first possibleAmountFields row) as A.
  pose proof (statement_findAmount_number possibleAmountFields row) as N.
  fold firstDescription in D. fold firstAmount in A.
  destruct (findDate currentYear possibleDateFields row) as [d|] eqn:Fd;
    [|now left].
  destruct (Str.isEmpty (findDescription possibleDescriptionFields row)) eqn:E.
  { cbn [orb]. right. left. intros f Hf. rewrite Hf in D. rewrite D in E.
    now destruct (Str.trim (Parser.get row f)). }
  destruct (isZero (findAmount possibleAmountFields row)) eqn:Z0.
  { cbn [orb]. right. right. intros f Hf. rewrite Hf in A. now rewrite <- A. }
  cbn [orb Parser.description Parser.amount Parser.date Parser.originalText].
  split.
  { destruct firstDescription as [f|]; [eauto|]. rewrite D in E. discriminate. }
  split; [exact E|]. split.
  { destruct firstAmount as [f|]; [eauto|]. rewrite A in Z0. discriminate. }
  split; [exact N|]. split; [exact Z0|]. split; [|reflexivity].
  destruct (statement_findDate_field _ _ _ _ Fd) as (f & I & _ & P). eauto.
Qed.

(** *** The date of the statement *)

Lemma dateGt_step latest d :
  let next := if Js.dateGt d latest then d else latest in
  isInvalid latest = false ->
  isInvalid next = false /\ Js.dateGt latest next = false /\
  Js.dateGt d next = false /\ (next = latest \/ next = d).
Proof.
  cbv zeta. destruct latest as [|l]; [discriminate|]. intros _.
  destruct d as [|t]; simpl.
  - repeat split; auto. apply Z.ltb_irrefl.
  - destruct (Z.ltb_spec l t); simpl; repeat split; auto;
      try apply Z.ltb_irrefl; apply Z.ltb_ge; lia.
Qed.

Lemma dateGt_trans a b c :
  isInvalid b = false ->
  Js.dateGt a b = false -> Js.dateGt b c = false -> isInvalid c = false ->
  Js.dateGt a c = false.
Proof.
  destruct a, b, c; simpl; try discriminate; auto.
  intros _ H1 H2 _. apply Z.ltb_ge in H1, H2. apply Z.ltb_ge. lia.
Qed.

(** The fold keeps the latest date seen so far. *)
Lemma fold_latest txs :
  forall start,
    isInvalid start = false ->
    let latest :=
      fold_left
        (fun latest transaction =>
           if Js.dateGt (Parser.date transaction) latest
           then Parser.date transaction else latest) txs start in
    isInvalid latest = false /\
    Js.dateGt start latest = false /\
    (forall tx, In tx txs -> Js.dateGt (Parser.date tx) latest = false) /\
    (latest = start \/ exists tx, In tx txs /\ latest = Parser.date tx).
Proof.
  induction txs as [|tx txs IH]; intros start V; cbn [fold_left]; cbv zeta.
  - split; [exact V|]. split; [|split; [intros ? []|now left]].
    destruct start; [discriminate | apply Z.ltb_irrefl].
  - destruct (dateGt_step start (Parser.date tx) V) as (V1 & S1 & D1 & C1).
    cbv zeta in V1, S1, D1, C1.
    destruct (IH _ V1) as (V2 & S2 & A2 & C2). cbv zeta in V2, S2, A2, C2.
    split; [exact V2|]. split; [exact (dateGt_trans _ _ _ V1 S1 S2 V2)|].
    split.
    + intros x [<-|I]; [exact (dateGt_trans _ _ _ V1 D1 S2 V2) | now apply A2].
    + destruct C2 as [C2|(x & I & C2)].
      * rewrite C2. destruct C1 as [C1|C1]; [now left|].
        right. exists tx. split; [now left | exact C1].
      * right. exists x. split; [now right | exact C2].
Qed.

Lemma totalOf_fold {X} (f : X -> option Parser.ParsedTransaction) xs :
  forall acc,
    snd acc = ParserFile.totalOf (fst acc) ->
    snd (fold_left (fun acc x => ParserFile.push acc (f x)) xs acc)
    = ParserFile.totalOf
        (fst (fold_left (fun acc x => ParserFile.push acc (f x)) xs acc)).
Proof.
  induction xs as [|x xs IH]; intros acc H; simpl; [exact H|].
  apply IH. unfold ParserFile.push. destruct (f x) as [tx|]; [|exact H].
  cbn [fst snd]. unfold ParserFile.totalOf in *.
  now rewrite fold_left_app, <- H.
Qed.

(** What a result of the class says, whichever reader produced it. *)
Lemma finish_latest now epochLocal acc :
  snd acc = ParserFile.totalOf (fst acc) ->
  let r := finish now epochLocal acc in
  errors r = [] /\
  totalAmount r = ParserFile.totalOf (transactions r) /\
  (transactions r = [] -> statementDate r = now) /\
  (transactions r <> [] ->
   isInvalid (statementDate r) = false /\
   Js.dateGt (Time epochLocal) (statementDate r) = false /\
   (forall tx, In tx (transactions r) ->
      Js.dateGt (Parser.date tx) (statementDate r) = false) /\
   (statementDate r = Time epochLocal \/
    exists tx, In tx (transactions r) /\ statementDate r = Parser.date tx)).
Proof.
  intros T r. unfold r, finish.
  cbn [errors totalAmount transactions statementDate].
  split; [reflexivity|]. split; [exact T|]. split.
  - intros ->. reflexivity.
  - intros NE. destruct (fst acc) as [|tx txs] eqn:E; [contradiction|].
    cbn [List.length Nat.ltb Nat.leb].
    exact (fold_latest (tx :: txs) (Time epochLocal) eq_refl).
Qed.

(** Whenever [parseFile] returns a result: it has no error message; its
    total is the sum of the absolute values of the amounts; and its statement
    date is the time of the parsing when nothing was extracted, and otherwise
    the latest date of the transactions, counting the epoch among them: a
    valid date no earlier than the epoch and than any transaction, and the
    date of the epoch or of a transaction.  It throws (or the promise is
    rejected) only when the type is neither [csv] nor [pdf] in any case, with
    the type in the message as it was given, or when the file cannot be
    read. *)
Theorem parseFile_result :
  forall currentYear now epochLocal csvStream pdfText filePath fileType,
    match parseFile currentYear now epochLocal csvStream pdfText filePath
                    fileType with
    | inl r =>
        errors r = [] /\
        totalAmount r = ParserFile.totalOf (transactions r) /\
        (transactions r = [] -> statementDate r = now) /\
        (transactions r <> [] ->
         isInvalid (statementDate r) = false /\
         Js.dateGt (Time epochLocal) (statementDate r) = false /\
         (forall tx, In tx (transactions r) ->
            Js.dateGt (Parser.date tx) (statementDate r) = false) /\
         (statementDate r = Time epochLocal \/
          exists tx, In tx (transactions r) /\ statementDate r = Parser.date tx))
    | inr message =>
        (Str.toLowerCase fileType <> "csv" /\
         Str.toLowerCase fileType <> "pdf" /\
         message = "Unsupported file type: " ++ fileType) \/
        csvStream filePath = inr message \/
        exists reason, pdfText filePath = inr reason /\
                       message = "Failed to parse PDF: " ++ reason
    end.
Proof.
  intros currentYear now epochLocal csvStream pdfText filePath fileType.
  unfold parseFile. cbv zeta.
  destruct (String.eqb_spec (Str.toLowerCase fileType) "csv") as [C|C].
  { unfold parseCSV. destruct (csvStream filePath) as [rows|message];
      [|right; now left].
    apply finish_latest. now apply totalOf_fold. }
  destruct (String.eqb_spec (Str.toLowerCase fileType) "pdf") as [P|P];
    [|left; auto].
  unfold parsePDF. destruct (pdfText filePath) as [text|reason];
    [|right; right; eauto].
  unfold parsePDFText. apply finish_latest. now apply totalOf_fold.
Qed.

End StatementFileFacts.

(** ** The server's CSV rows *)

Module ServerRowFacts.

Import JSDate StrFacts RegexFacts NumFacts Server.

Lemma collect_Forall {X Y} (f : X -> option Y) (P : Y -> Prop) xs :
  (forall x y, In x xs -> f x = Some y -> P y) ->
  Forall P (collect f xs).
Proof.
  induction xs as [|x xs IH]; intros H; simpl; [constructor|].
  destruct (f x) as [y|] eqn:E.
  - constructor; [apply (H x y); auto; now left|].
    apply IH. intros x' y' I. apply H. now right.
  - apply IH. intros x' y' I. apply H. now right.
Qed.

Lemma collect_length {X Y} (f : X -> option Y) xs :
  (List.length (collect f xs) <= List.length xs)%nat.
Proof.
  induction xs as [|x xs IH]; simpl; [lia|].
  destruct (f x); simpl; lia.
Qed.

Lemma ltZero_abs x : ltZero (abs x) = false.
Proof.
  destruct x as [|b|q]; simpl; try reflexivity.
  apply negb_false_iff, Qle_bool_iff, Qabs_nonneg.
Qed.

Section WithClock.

Variable currentYear : Z.
Variable dateParse : string -> Date.

Abbreviation buildRow := (Server.buildRow currentYear dateParse).
Abbreviation buildPositional := (Server.buildPositional currentYear dateParse).

Lemma server_findDate_field fields row d :
  Server.findDate currentYear dateParse fields row = Some d ->
  exists f, In f fields /\
            Server.parseDate currentYear dateParse (Parser.get row f) = Some d.
Proof.
  induction fields as [|f fields IH]; simpl; [discriminate|].
  destruct (Parser.truthy (Parser.get row f)).
  - destruct (Server.parseDate _ _ _) as [d'|] eqn:P.
    + intros [= <-]. eauto.
    + intros H. destruct (IH H) as (g & I & K). eauto.
  - intros H. destruct (IH H) as (g & I & K). eauto.
Qed.

(** The amount of a row with headers: the [Debit] column decides when it is
    not empty, then the [Credit] column, then the amount fields. *)
Lemma findAmount_sign row :
  let amount := Server.findAmount row in
  (Parser.truthy (Parser.get row "Debit") = true ->
   amount = neg (abs (Server.parseAmount (Parser.get row "Debit"))) /\
   gtZero amount = false) /\
  (Parser.truthy (Parser.get row "Debit") = false ->
   Parser.truthy (Parser.get row "Credit") = true ->
   amount = abs (Server.parseAmount (Parser.get row "Credit")) /\
   ltZero amount = false) /\
  (Parser.truthy (Parser.get row "Debit") = false ->
   Parser.truthy (Parser.get row "Credit") = false ->
   isNaN amount = false).
Proof.
  cbv zeta. unfold Server.findAmount.
  destruct (Parser.truthy (Parser.get row "Debit")).
  - split; [|split; discriminate]. intros _. split; [reflexivity|].
    apply gtZero_neg_abs.
  - destruct (Parser.truthy (Parser.get row "Credit")).
    + split; [discriminate|]. split; [|discriminate]. intros _ _.
      split; [reflexivity | apply ltZero_abs].
    + split; [discriminate|]. split; [discriminate|]. intros _ _.
      apply BuilderFacts.findAmount_number.
Qed.

Lemma buildRow_some row tx :
  buildRow row = Some tx ->
  Parser.originalText tx = Parser.RawRow row /\
  Str.isEmpty (Parser.description tx) = false /\
  isZero (Parser.amount tx) = false /\
  Parser.merchantName tx = merchantOf (Parser.description tx) /\
  Parser.amount tx = Server.findAmount row /\
  exists f, In f allDateFields /\
            Server.parseDate currentYear dateParse (Parser.get row f)
            = Some (Parser.date tx).
Proof.
  unfold Server.buildRow. cbv zeta.
  destruct (Server.findDate _ _ _ _) as [d|] eqn:D; [|discriminate].
  destruct (Parser.truthy _) eqn:T; [|discriminate].
  destruct (isZero _) eqn:Z0; [discriminate|]. cbn [andb negb].
  intros [= <-].
  cbn [Parser.originalText Parser.description Parser.amount Parser.merchantName
       Parser.date].
  unfold Parser.truthy in T. apply negb_true_iff in T.
  repeat split; auto. exact (server_findDate_field _ _ _ D).
Qed.

Lemma buildPositional_some row tx :
  buildPositional row = Some tx ->
  Parser.originalText tx = Parser.RawRow row /\
  Str.isEmpty (Parser.description tx) = false /\
  isZero (Parser.amount tx) = false /\
  Parser.merchantName tx = merchantOf (Parser.description tx) /\
  isNaN (Parser.amount tx) = false /\
  (5 <= List.length row)%nat.
Proof.
  unfold Server.buildPositional. cbv zeta.
  destruct (5 <=? _)%nat eqn:L; [|discriminate].
  destruct (Server.parseDate _ _ _) as [d|]; [|discriminate].
  destruct (Parser.truthy _) eqn:T; [|discriminate].
  destruct (isNaN _) eqn:N; [discriminate|].
  destruct (isZero _) eqn:Z0; [discriminate|]. cbn [andb negb].
  intros [= <-].
  cbn [Parser.originalText Parser.description Parser.amount Parser.merchantName].
  unfold Parser.truthy in T. apply negb_true_iff in T.
  apply Nat.leb_le in L. rewrite length_map in L.
  repeat split; auto.
Qed.

End WithClock.

(** Every transaction the server's [parseCSV] returns is built from one of
    the rows, which it keeps as its original text; its description is not
    empty, its amount is not zero, and its merchant name is cut from its
    description; no more transactions are returned than there are rows.  The
    amount can fail to be a number only for a row whose [Debit] or [Credit]
    column is not empty.  For a row with headers, a [Debit] column that is
    not empty decides the amount, whatever the [Credit] column and the amount
    fields hold, and the amount is then never positive; without it a
    [Credit] column that is not empty decides, and the amount is never
    negative. *)
Theorem parseCSV_rows :
  forall currentYear dateParse rows,
    (List.length (parseCSV currentYear dateParse rows) <= List.length rows)%nat
    /\
    Forall
      (fun tx =>
         Str.isEmpty (Parser.description tx) = false /\
         isZero (Parser.amount tx) = false /\
         Parser.merchantName tx = merchantOf (Parser.description tx) /\
         exists row,
           In row rows /\ Parser.originalText tx = Parser.RawRow row /\
           (isNaN (Parser.amount tx) = true ->
            (Parser.truthy (Parser.get row "Debit")
             || Parser.truthy (Parser.get row "Credit"))%bool = true))
      (parseCSV currentYear dateParse rows) /\
    forall row,
      match Server.buildRow currentYear dateParse row with
      | Some tx =>
          (Parser.truthy (Parser.get row "Debit") = true ->
           Parser.amount tx
           = neg (abs (Server.parseAmount (Parser.get row "Debit"))) /\
           gtZero (Parser.amount tx) = false) /\
          (Parser.truthy (Parser.get row "Debit") = false ->
           Parser.truthy (Parser.get row "Credit") = true ->
           Parser.amount tx
           = abs (Server.parseAmount (Parser.get row "Credit")) /\
           ltZero (Parser.amount tx) = false)
      | None => True
      end.
Proof.
  intros currentYear dateParse rows. split; [|split].
  - unfold parseCSV. destruct rows as [|first rest]; [simpl; lia|].
    destruct (negb _); apply collect_length.
  - unfold parseCSV. destruct rows as [|first rest]; [constructor|].
    set (all := first :: rest).
    destruct (negb _); apply collect_Forall; intros row tx I B.
    + destruct (buildPositional_some _ _ _ _ B) as (O & D & Z0 & M & N & _).
      repeat split; auto. exists row. repeat split; auto. congruence.
    + destruct (buildRow_some _ _ _ _ B) as (O & D & Z0 & M & A & _).
      repeat split; auto. exists row. repeat split; auto.
      intros N. rewrite A in N.
      destruct (findAmount_sign row) as (_ & _ & K). cbv zeta in K.
      destruct (Parser.truthy (Parser.get row "Debit")); [reflexivity|].
      destruct (Parser.truthy (Parser.get row "Credit")); [reflexivity|].
      rewrite K in N by reflexivity. discriminate.
  - intros row.
    destruct (Server.buildRow currentYear dateParse row) as [tx|] eqn:B;
      [|exact I].
    destruct (buildRow_some _ _ _ _ B) as (_ & _ & _ & _ & A & _).
    rewrite A. destruct (findAmount_sign row) as (K1 & K2 & _). auto.
Qed.

(** *** The merchant name of the server's rows *)

Abbreviation notSpace := (fun c : ascii => negb (Ascii.eqb c " ")).

(** The spaces of a string. *)
Abbreviation spaces s := (Str.remove notSpace s).

Lemma spaces_app a b : spaces (a ++ b) = spaces a ++ spaces b.
Proof. apply remove_app. Qed.

Lemma spaces_none w : Str.forallb notSpace w = true -> spaces w = EmptyString.
Proof.
  induction w as [|c w IH]; simpl; [reflexivity|].
  intros H. apply andb_true_iff in H as [Hc Hw]. now rewrite Hc, IH.
Qed.

(** The pieces of [split(' ')] have no space, and joined with spaces they
    give the string back; the first [n] of them joined are a prefix of the
    string with at most [n - 1] spaces. *)
Lemma splitOnSpace_prefix fuel :
  forall s n,
    (String.length s <= fuel)%nat ->
    exists rest,
      s = Parser.join (firstn n (splitOnSpace fuel s)) ++ rest /\
      (String.length (spaces (Parser.join (firstn n (splitOnSpace fuel s))))
       <= n - 1)%nat /\
      ((String.length (spaces s) < n)%nat -> rest = EmptyString) /\
      ((1 <= n)%nat -> rest = EmptyString \/ exists u, rest = String " " u).
Proof.
  induction fuel as [|fuel IH]; intros s n L.
  - destruct s; [|simpl in L; lia]. exists EmptyString.
    destruct n as [|[|n]]; simpl; repeat split; auto; lia.
  - cbn [splitOnSpace].
    pose proof (takeWhile_dropWhile notSpace s) as TD.
    pose proof (takeWhile_forallb notSpace s) as TW.
    set (w := Str.takeWhile notSpace s) in *. clearbody w.
    destruct (Str.dropWhile notSpace s) as [|c u] eqn:D.
    + rewrite app_nil_r_str in TD. subst s.
      destruct n as [|n].
      * exists w. simpl. repeat split; auto; lia.
      * exists EmptyString. cbn [firstn]. rewrite firstn_nil. cbn [Parser.join].
        rewrite app_nil_r_str, spaces_none by exact TW.
        simpl. repeat split; auto; lia.
    + assert (Hc : c = " "%char).
      { pose proof (ExtensionFacts.dropWhile_head _ _ _ _ D) as H.
        now apply negb_false_iff, Ascii.eqb_eq in H. }
      subst c.
      assert (Lu : (String.length u <= fuel)%nat).
      { rewrite <- TD, length_app_str in L. simpl in L. lia. }
      assert (Sp : spaces s = String " " (spaces u)).
      { rewrite <- TD, spaces_app, spaces_none by exact TW. reflexivity. }
      destruct n as [|n].
      * exists s. simpl. repeat split; auto; lia.
      * cbn [firstn]. destruct (IH u n Lu) as (rest & E & B & F & R).
        destruct (firstn n (splitOnSpace fuel u)) as [|x l] eqn:Fn.
        -- exists (String " " u). cbn [Parser.join].
           rewrite spaces_none by exact TW. split; [now rewrite TD|].
           split; [simpl; lia|]. split; [|right; eauto].
           intros K. rewrite Sp in K. simpl in K.
           destruct n as [|n]; [lia|].
           exfalso. cbn [firstn] in Fn.
           destruct fuel; simpl in Fn; [discriminate|].
           destruct (Str.dropWhile notSpace u); discriminate.
        -- exists rest.
           change (Parser.join (w :: x :: l))
             with (w ++ " " ++ Parser.join (x :: l)).
           assert (Hn : (1 <= n)%nat) by (destruct n; [discriminate | lia]).
           split; [|split; [|split]].
           ++ rewrite app_assoc_str. cbn [append]. rewrite <- E. now rewrite TD.
           ++ rewrite spaces_app, spaces_none by exact TW. cbn [append].
              change (spaces (String " " (Parser.join (x :: l))))
                with (String " " (spaces (Parser.join (x :: l)))).
              simpl in B |- *. lia.
           ++ intros K. apply F. rewrite Sp in K. simpl in K. lia.
           ++ intros _. exact (R Hn).
Qed.

(** The merchant name the server gives a row is the beginning of its
    description: it has at most two spaces, it is the whole description when
    that has at most two, and otherwise what follows it in the description
    begins with a space. *)
Theorem merchantOf_prefix :
  forall description,
    exists rest,
      description = merchantOf description ++ rest /\
      (String.length (Str.remove (fun c => negb (Ascii.eqb c " "))
                                 (merchantOf description)) <= 2)%nat /\
      ((String.length (Str.remove (fun c => negb (Ascii.eqb c " ")) description)
        <= 2)%nat -> merchantOf description = description) /\
      (rest = EmptyString \/ exists u, rest = String " " u).
Proof.
  intros description. unfold merchantOf.
  destruct (splitOnSpace_prefix (String.length description) description 3
              (le_n _)) as (rest & E & B & F & R).
  exists rest. split; [exact E|]. split; [exact B|]. split.
  - intros K. rewrite (F ltac:(lia)) in E. now rewrite app_nil_r_str in E.
  - apply R. lia.
Qed.

End ServerRowFacts.

(** ** [trim], [replace(/\s+/g, ' ')] and [split(/\s+/)] *)

Module WordFacts.

Import StrFacts RegexFacts Words.

Abbreviation nonSpace := (fun c : ascii => negb (Str.isSpace c)).

Lemma rev_onto_app s : forall acc, Str.rev_onto s acc = Str.rev s ++ acc.
Proof.
  unfold Str.rev. induction s as [|c s IH]; intros acc; simpl; [reflexivity|].
  rewrite IH, (IH (String c EmptyString)), app_assoc_str. reflexivity.
Qed.

Lemma rev_cons c s : Str.rev (String c s) = Str.rev s ++ String c EmptyString.
Proof. unfold Str.rev at 1. simpl. apply rev_onto_app. Qed.

Lemma rev_app a b : Str.rev (a ++ b) = Str.rev b ++ Str.rev a.
Proof.
  induction a as [|c a IH]; simpl.
  - change (Str.rev EmptyString) with EmptyString. now rewrite app_nil_r_str.
  - now rewrite !rev_cons, IH, app_assoc_str.
Qed.

Lemma rev_rev s : Str.rev (Str.rev s) = s.
Proof.
  induction s as [|c s IH]; [reflexivity|].
  now rewrite rev_cons, rev_app, IH.
Qed.

Lemma forallb_rev p s : Str.forallb p (Str.rev s) = Str.forallb p s.
Proof.
  induction s as [|c s IH]; [reflexivity|].
  rewrite rev_cons, forallb_app, IH. simpl.
  now rewrite andb_true_r, andb_comm.
Qed.

(** What [trimEnd] removes is white space at the end. *)
Lemma trimEnd_prefix s :
  exists tail, s = Str.trimEnd s ++ tail /\ Str.forallb Str.isSpace tail = true.
Proof.
  unfold Str.trimEnd.
  exists (Str.rev (Str.takeWhile Str.isSpace (Str.rev s))). split.
  - rewrite <- rev_app, takeWhile_dropWhile. symmetry. apply rev_rev.
  - rewrite forallb_rev. apply takeWhile_forallb.
Qed.

Lemma endsClean_snoc s c :
  endsClean (s ++ String c EmptyString) = negb (Str.isSpace c).
Proof.
  induction s as [|d s IH]; [reflexivity|].
  cbn [append endsClean]. destruct (s ++ String c EmptyString) eqn:E;
    [now destruct s | exact IH].
Qed.

Lemma trimEnd_endsClean s : endsClean (Str.trimEnd s) = true.
Proof.
  unfold Str.trimEnd.
  destruct (Str.dropWhile Str.isSpace (Str.rev s)) as [|c r] eqn:D;
    [reflexivity|].
  rewrite rev_cons, endsClean_snoc.
  apply negb_true_iff. exact (ExtensionFacts.dropWhile_head _ _ _ _ D).
Qed.

Lemma spaced_suffix atEnd a b :
  spaced atEnd (a ++ b) = true -> spaced atEnd b = true.
Proof.
  induction a as [|c a IH]; [auto|]. cbn [append spaced].
  intros H. apply andb_true_iff in H as [_ H]. auto.
Qed.

Lemma collapseSpaces_head c t :
  Str.isSpace c = false ->
  Parser.collapseSpaces (String c t) = String c (Parser.collapseSpaces t).
Proof. intros H. cbn [Parser.collapseSpaces]. now rewrite H. Qed.

Lemma spaced_space atEnd d x :
  Str.isSpace d = false -> spaced atEnd (String d x) = true ->
  spaced atEnd (String " " (String d x)) = true.
Proof.
  intros Hd H.
  change (spaced atEnd (String " " (String d x)))
    with ((Ascii.eqb " " " " && negb (Str.isSpace d))
          && spaced atEnd (String d x))%bool.
  rewrite H, Hd. reflexivity.
Qed.

(** After [replace(/\s+/g, ' ')] every white-space character is a single
    space. *)
Lemma collapseSpaces_spaced s : spaced true (Parser.collapseSpaces s) = true.
Proof.
  induction s as [|c t IH]; [reflexivity|].
  destruct (Str.isSpace c) eqn:Hc.
  - cbn [Parser.collapseSpaces]. rewrite Hc.
    destruct t as [|d t']; [reflexivity|].
    destruct (Str.isSpace d) eqn:Hd; [exact IH|].
    rewrite (collapseSpaces_head d t' Hd) in *.
    now apply spaced_space.
  - rewrite (collapseSpaces_head c t Hc). cbn [spaced]. now rewrite Hc.
Qed.

Lemma forallb_collapseSpaces p s :
  p " "%char = true -> Str.forallb p s = true ->
  Str.forallb p (Parser.collapseSpaces s) = true.
Proof.
  intros Hp. induction s as [|c t IH]; [reflexivity|].
  intros H. cbn [Str.forallb] in H. apply andb_true_iff in H as [Hc Ht].
  cbn [Parser.collapseSpaces]. destruct (Str.isSpace c).
  - destruct t as [|d t']; [simpl; now rewrite Hp|].
    destruct (Str.isSpace d); [now apply IH|].
    cbn [Str.forallb]. rewrite Hp. now apply IH.
  - cbn [Str.forallb]. rewrite Hc. now apply IH.
Qed.

Lemma forallb_dropWhile p q s :
  Str.forallb p s = true -> Str.forallb p (Str.dropWhile q s) = true.
Proof.
  intros H. rewrite <- (takeWhile_dropWhile q s), forallb_app in H.
  now apply andb_true_iff in H.
Qed.

Lemma forallb_trim p s :
  Str.forallb p s = true -> Str.forallb p (Str.trim s) = true.
Proof.
  intros H. unfold Str.trim.
  destruct (trimEnd_prefix (Str.trimStart s)) as (tail & E & _).
  assert (K : Str.forallb p (Str.trimStart s) = true)
    by now apply forallb_dropWhile.
  rewrite E, forallb_app in K. now apply andb_true_iff in K.
Qed.

(** A prefix that does not end with white space, of a string whose
    white-space characters are single spaces, has its spaces between
    words. *)
Lemma spaced_prefix p :
  forall tail,
    spaced true (p ++ tail) = true -> endsClean p = true ->
    spaced false p = true.
Proof.
  induction p as [|c t IH]; intros tail S E; [reflexivity|].
  cbn [append spaced] in S. apply andb_true_iff in S as [Sc St].
  cbn [spaced]. destruct t as [|d t'].
  - cbn [endsClean] in E. apply negb_true_iff in E. now rewrite E.
  - rewrite (IH tail St E), andb_true_r. exact Sc.
Qed.

(** After [replace(/\s+/g, ' ').trim()] the string is made of words with one
    space between them. *)
Lemma cleaned_tidy s :
  let cleaned := Str.trim (Parser.collapseSpaces s) in
  spaced false cleaned = true /\ startsClean cleaned = true.
Proof.
  cbv zeta. unfold Str.trim.
  set (p := Str.trimStart (Parser.collapseSpaces s)).
  assert (Sp : spaced true p = true).
  { unfold p, Str.trimStart.
    apply (spaced_suffix true (Str.takeWhile Str.isSpace (Parser.collapseSpaces s))).
    rewrite takeWhile_dropWhile. apply collapseSpaces_spaced. }
  assert (Hp : startsClean p = true).
  { unfold p, Str.trimStart.
    destruct (Str.dropWhile Str.isSpace (Parser.collapseSpaces s)) eqn:D;
      [reflexivity|].
    simpl. apply negb_true_iff. exact (ExtensionFacts.dropWhile_head _ _ _ _ D). }
  destruct (trimEnd_prefix p) as (tail & E & _).
  pose proof (trimEnd_endsClean p) as C.
  split.
  - apply (spaced_prefix _ tail); [now rewrite <- E | exact C].
  - rewrite E in Hp. now destruct (Str.trimEnd p).
Qed.

(** The strings [split(/\s+/)] and [join(' ')] take apart and put together:
    words that are not empty, without white space. *)
Lemma splitSpaces_words (p : ascii -> bool) fuel :
  forall s,
    (String.length s <= fuel)%nat ->
    s <> EmptyString ->
    spaced false s = true -> startsClean s = true ->
    Str.forallb p s = true ->
    Forall (fun w => w <> EmptyString /\
                     Str.forallb (fun c => nonSpace c && p c) w = true)
           (Parser.splitSpaces fuel s) /\
    Parser.join (Parser.splitSpaces fuel s) = s.
Proof.
  induction fuel as [|fuel IH]; intros s L N S C P.
  - destruct s; [contradiction | simpl in L; lia].
  - cbn [Parser.splitSpaces].
    pose proof (takeWhile_dropWhile nonSpace s) as TD.
    pose proof (takeWhile_forallb nonSpace s) as TW.
    set (w := Str.takeWhile nonSpace s) in *.
    assert (Wn : w <> EmptyString).
    { unfold w. destruct s as [|c s']; [contradiction|].
      simpl in C |- *. rewrite C. discriminate. }
    assert (Wq : Str.forallb (fun c => nonSpace c && p c) w = true).
    { clearbody w. rewrite <- TD, forallb_app in P.
      apply andb_true_iff in P as [P _]. clear -TW P.
      induction w as [|c w IH]; [reflexivity|]. simpl in *.
      apply andb_true_iff in TW as [T1 T2]. apply andb_true_iff in P as [P1 P2].
      now rewrite T1, P1, IH. }
    clearbody w.
    destruct (Str.dropWhile nonSpace s) as [|c u] eqn:D.
    + rewrite app_nil_r_str in TD. subst w. split; [|reflexivity].
      constructor; [auto | constructor].
    + pose proof (ExtensionFacts.dropWhile_head _ _ _ _ D) as Hc.
      apply negb_false_iff in Hc.
      assert (Su : spaced false (String c u) = true)
        by (apply (spaced_suffix false w); now rewrite TD).
      cbn [spaced] in Su. rewrite Hc in Su.
      apply andb_true_iff in Su as [Sc Su].
      apply andb_true_iff in Sc as [Ec Sd]. apply Ascii.eqb_eq in Ec. subst c.
      destruct u as [|d u']; [discriminate|].
      assert (Hd : Str.isSpace d = false) by now apply negb_true_iff.
      cbn [Str.dropWhile]. change (Str.isSpace " ") with true. cbn iota.
      rewrite Hd.
      assert (Pu : Str.forallb p (String d u') = true).
      { rewrite <- TD, forallb_app in P. apply andb_true_iff in P as [_ P].
        cbn [Str.forallb] in P. now apply andb_true_iff in P as [_ P]. }
      assert (Lu : (String.length (String d u') <= fuel)%nat).
      { rewrite <- TD, length_app_str in L. simpl in L |- *. lia. }
      destruct (IH (String d u') Lu ltac:(discriminate) Su
                  ltac:(simpl; now rewrite Hd) Pu) as (F & J).
      split; [constructor; auto|].
      destruct (Parser.splitSpaces fuel (String d u')) as [|x l] eqn:Sx.
      * simpl in J. discriminate.
      * change (Parser.join (w :: x :: l))
          with (w ++ " " ++ Parser.join (x :: l)).
        rewrite J. exact TD.
Qed.

Lemma Forall_firstn {X} (P : X -> Prop) n l : Forall P l -> Forall P (firstn n l).
Proof.
  intros H. rewrite <- (firstn_skipn n l) in H.
  now apply Forall_app in H.
Qed.

(** The merchant name [extractMerchantName] of the stand-alone parser gives
    a description is made of at most three words with one space between
    them: the words are not empty and hold no white space, no [#] and no
    [*]. *)
Theorem extractMerchantName_words :
  forall description,
    exists ws,
      Parser.extractMerchantName description = Parser.join ws /\
      (List.length ws <= 3)%nat /\
      Forall (fun w =>
                w <> EmptyString /\
                Str.forallb
                  (fun c => negb (Str.isSpace c)
                            && negb (Ascii.eqb c "#" || Ascii.eqb c "*")) w
                = true) ws.
Proof.
  intros description. unfold Parser.extractMerchantName. cbv zeta.
  set (raw := Str.remove (fun c => Ascii.eqb c "#" || Ascii.eqb c "*")%bool _).
  set (cleaned := Str.trim (Parser.collapseSpaces raw)).
  assert (P : Str.forallb
                (fun c => negb (Ascii.eqb c "#" || Ascii.eqb c "*")) cleaned
              = true).
  { unfold cleaned. apply forallb_trim, forallb_collapseSpaces; [reflexivity|].
    unfold raw. apply forallb_removed. }
  destruct (cleaned_tidy raw) as (S & C). cbv zeta in S, C. fold cleaned in S, C.
  destruct cleaned as [|c0 s0] eqn:E.
  { exists []. simpl. repeat split; auto. }
  rewrite <- E in *.
  destruct (splitSpaces_words
              (fun c => negb (Ascii.eqb c "#" || Ascii.eqb c "*"))
              (String.length cleaned) cleaned (le_n _)
              ltac:(rewrite E; discriminate) S C P) as (F & J).
  set (words := Parser.splitSpaces (String.length cleaned) cleaned) in *.
  destruct (3 <? List.length words)%nat eqn:L.
  - exists (firstn 3 words). split; [reflexivity|]. split.
    + rewrite length_firstn. lia.
    + now apply Forall_firstn.
  - exists words. apply Nat.ltb_ge in L. split; [now rewrite J|]. split; auto.
Qed.

End WordFacts.

(** ** The three copies of [parseDate] *)

Module DateCopies.

Import Regex JSDate Spec DateFacts.

Lemma statement_tryFormats currentYear fs s :
  StatementParser.tryFormats currentYear fs s
  = option_map (fun fc => Parser.formatDate currentYear (fst fc) (snd fc))
               (firstFormat fs s).
Proof.
  induction fs as [|f fs IH]; simpl; [reflexivity|].
  now destruct (matchRe (Parser.formatRegex f) s).
Qed.

(** The three copies of [parseDate] (the stand-alone parser's, the class's
    and the server's) read the same formats and differ in what they do with
    the date.  The class returns the date of the format that matches and
    knows no other way; whatever it returns, the server returns too; and the
    stand-alone parser returns it too when its year is from 1901 to 2099.
    Conversely a date the stand-alone parser returns is the date the server
    returns, unless a format matched with a year outside that range and the
    date is the engine's own reading of the string.  Where no format matches,
    the server accepts any date the engine reads, the stand-alone parser
    only one with a year from 1901 to 2099. *)
Theorem parseDate_copies :
  forall currentYear dateParse dateStr,
    let byFormat := StatementParser.parseDate currentYear dateStr in
    let standAlone := Parser.parseDate currentYear dateParse dateStr in
    let server := Server.parseDate currentYear dateParse dateStr in
    (forall d, byFormat = Some d -> server = Some d) /\
    (forall d, byFormat = Some d -> Parser.isValidDate d = true ->
               standAlone = Some d) /\
    (forall d, standAlone = Some d ->
       server = Some d \/
       exists d', byFormat = Some d' /\ Parser.isValidDate d' = false /\
                  d = dateParse dateStr) /\
    (byFormat = None ->
     server = (if isInvalid (dateParse dateStr) then None
               else Some (dateParse dateStr)) /\
     standAlone = (if Parser.isValidDate (dateParse dateStr)
                   then Some (dateParse dateStr) else None)).
Proof.
  intros currentYear dateParse dateStr byFormat standAlone server.
  unfold byFormat, standAlone, server.
  rewrite parseDate_by_format. cbv zeta.
  unfold StatementParser.parseDate, Server.parseDate.
  rewrite statement_tryFormats, server_tryFormats.
  destruct (firstFormat Parser.formats (Str.remove Parser.isDateNoise dateStr))
    as [[f caps]|]; cbn [option_map fst snd].
  - set (d0 := Parser.formatDate currentYear f caps).
    split; [auto|]. split.
    { intros d [= <-] V. now rewrite V. }
    split; [|discriminate].
    intros d. destruct (Parser.isValidDate d0) eqn:V.
    + intros [= <-]. now left.
    + destruct (Parser.isValidDate (dateParse dateStr)); [|discriminate].
      intros [= <-]. right. exists d0. auto.
  - split; [discriminate|]. split; [discriminate|]. split.
    + intros d. cbn [Parser.isValidDate].
      destruct (Parser.isValidDate (dateParse dateStr)) eqn:V; [|discriminate].
      intros [= <-]. left.
      destruct (dateParse dateStr); [discriminate | reflexivity].
    + intros _. cbn [Parser.isValidDate].
      now destruct (isInvalid (dateParse dateStr)).
Qed.

End DateCopies.

(** ** Statement lines read back *)

Module LineRoundTrip.

Import Regex JSDate StrFacts RegexFacts Spec FormatFacts Words WordFacts.
Local Open Scope nat_scope.

Abbreviation linePattern :=
  (seq [Grp 1 (seq [times digit 1 2; lit "/"; times digit 1 2; lit "/";
                    times digit 4 4]);
        plus space; Grp 2 (plusLazy dot); plus space; opt "$";
        Parser.amountPattern; Eol]).

(** The characters of an amount as the patterns capture it. *)
Abbreviation amountChar :=
  (fun c : ascii => digitOrComma c || Ascii.eqb "." c).

Lemma nonempty_length (s : string) : 1 <= String.length s -> s <> "".
Proof. destruct s; simpl; [lia | discriminate]. Qed.

Lemma optional_char c o :
  Str.forallb (Ascii.eqb c) o = true -> String.length o <= 1 ->
  o = "" \/ o = String c "".
Proof.
  destruct o as [|x [|y o]]; simpl; auto; [|lia].
  intros H _. rewrite andb_true_r in H. apply Ascii.eqb_eq in H. subst. auto.
Qed.

(** What a match of the first pattern is made of. *)
Lemma line_sound w rest caps' :
  matches linePattern 0 w rest [] caps' ->
  exists d1 d2 d3 s1 g2 s2 o i p f,
    w = d1 ++ "/" ++ d2 ++ "/" ++ d3 ++ s1 ++ g2 ++ s2 ++ o ++ i ++ p ++ f /\
    rest = "" /\
    caps' = [(3, i ++ p ++ f); (2, g2); (1, d1 ++ "/" ++ d2 ++ "/" ++ d3)] /\
    Str.forallb digit d1 = true /\ Str.forallb digit d2 = true /\
    Str.forallb digit d3 = true /\
    Str.forallb space s1 = true /\ s1 <> "" /\
    Str.forallb space s2 = true /\ s2 <> "" /\
    (o = "" \/ o = "$") /\
    Str.forallb digitOrComma i = true /\ i <> "" /\
    (p = "" \/ p = ".") /\ Str.forallb digit f = true.
Proof.
  intros M.
  cbn [Parser.amountPattern seq matches times lit plus plusLazy opt] in M.
  destruct M as (w1 & t1 & mid1 & -> & G1 & M).
  destruct G1 as (inner & G1 & ->).
  destruct G1 as (d1 & u1 & m1 & -> & (D1 & L1 & _ & ->) & G1).
  destruct G1 as (x1 & u2 & m2 & -> & (c1 & -> & C1 & ->) & G1).
  destruct G1 as (d2 & u3 & m3 & -> & (D2 & L2 & _ & ->) & G1).
  destruct G1 as (x2 & d3 & m4 & -> & (c2 & -> & C2 & ->) & (D3 & L3 & _ & ->)).
  destruct M as (s1 & t2 & mid2 & -> & (S1 & LS1 & _ & ->) & M).
  destruct M as (g2 & t3 & mid3 & -> & (inner2 & (Dg & Lg & _ & ->) & ->) & M).
  destruct M as (s2 & t4 & mid4 & -> & (S2 & LS2 & _ & ->) & M).
  destruct M as (o & t5 & mid5 & -> & (O1 & _ & LO & ->) & M).
  destruct M as (g3 & e & mid6 & -> & (inner3 & G3 & ->) & (-> & -> & ->)).
  destruct G3 as (i & u4 & m5 & -> & (Hi & Li & _ & ->) & G3).
  destruct G3 as (p & f & m6 & -> & (Hp & _ & Lp & ->) & (Hf & _ & Lf & ->)).
  apply lit_char in C1, C2. subst c1 c2.
  exists d1, d2, d3, s1, g2, s2, o, i, p, f.
  split; [now rewrite !app_nil_r_str, !app_assoc_str|].
  split; [reflexivity|]. split; [reflexivity|].
  cbn [within] in *.
  repeat split; auto using nonempty_length, optional_char.
Qed.

(** A run of a class ends at the first character that is not of the class. *)
Lemma run_split (p : ascii -> bool) a : forall a' x x' r r',
  Str.forallb p a = true -> Str.forallb p a' = true ->
  p x = false -> p x' = false ->
  a ++ String x r = a' ++ String x' r' ->
  a = a' /\ x = x' /\ r = r'.
Proof.
  induction a as [|c a IH]; intros a' x x' r r' Ha Ha' Hx Hx' E.
  - destruct a' as [|c' a']; simpl in *.
    + injection E as -> ->. auto.
    + injection E as -> _. apply andb_true_iff in Ha' as [Hc _]. congruence.
  - destruct a' as [|c' a']; simpl in *.
    + injection E as -> _. apply andb_true_iff in Ha as [Hc _]. congruence.
    + injection E as -> E.
      apply andb_true_iff in Ha as [_ Ha]. apply andb_true_iff in Ha' as [_ Ha'].
      destruct (IH _ _ _ _ _ Ha Ha' Hx Hx' E) as (-> & -> & ->). auto.
Qed.

Lemma rev_inj a b : Str.rev a = Str.rev b -> a = b.
Proof. intros H. rewrite <- (rev_rev a), <- (rev_rev b). now rewrite H. Qed.

Lemma last_char (s : string) :
  s <> "" -> exists s' z, s = s' ++ String z "".
Proof.
  intros N. destruct (Str.rev s) as [|z r] eqn:E.
  - exfalso. apply N. apply rev_inj. exact E.
  - exists (Str.rev r), z. apply rev_inj. now rewrite rev_app, rev_rev.
Qed.

(** What follows the last white-space character of a string is determined
    by the string. *)
Lemma suffix_unique X Y c c' t t' :
  Str.forallb nonSpace t = true -> Str.forallb nonSpace t' = true ->
  Str.isSpace c = true -> Str.isSpace c' = true ->
  X ++ String c t = Y ++ String c' t' ->
  X = Y /\ c = c' /\ t = t'.
Proof.
  intros Ht Ht' Hc Hc' E. apply (f_equal Str.rev) in E.
  rewrite !rev_app, !rev_cons, !app_assoc_str in E. cbn [append] in E.
  apply (run_split nonSpace) in E;
    [|now rewrite forallb_rev|now rewrite forallb_rev
     |now rewrite Hc|now rewrite Hc'].
  destruct E as (E1 & E2 & E3).
  apply rev_inj in E1, E3. auto.
Qed.

Lemma space_not_digit c : Str.isSpace c = true -> Str.isDigit c = false.
Proof. destruct c as [[] [] [] [] [] [] [] []]; vm_compute; auto. Qed.

Lemma amountChar_nonSpace c : amountChar c = true -> nonSpace c = true.
Proof. destruct c as [[] [] [] [] [] [] [] []]; vm_compute; auto. Qed.

Lemma dollar_nonSpace (o : string) :
  o = "" \/ o = "$" -> Str.forallb nonSpace o = true.
Proof. intros [-> | ->]; reflexivity. Qed.

Lemma amount_chars i p f :
  Str.forallb digitOrComma i = true -> p = "" \/ p = "." ->
  Str.forallb digit f = true ->
  Str.forallb nonSpace (i ++ p ++ f) = true.
Proof.
  intros Hi Hp Hf. apply (forallb_impl amountChar); [exact amountChar_nonSpace|].
  rewrite !forallb_app. apply andb_true_iff. split; [|apply andb_true_iff; split].
  - apply (forallb_impl digitOrComma); [|exact Hi]. intros c H. now rewrite H.
  - destruct Hp as [-> | ->]; reflexivity.
  - apply (forallb_impl digit); [|exact Hf]. intros c H.
    unfold digitOrComma. unfold digit in H. now rewrite H.
Qed.

Lemma amount_head i p f :
  Str.forallb digitOrComma i = true -> i <> "" ->
  exists q r, i ++ p ++ f = String q r /\ digitOrComma q = true.
Proof.
  intros Hi Ni. destruct i as [|q i]; [contradiction|].
  simpl in Hi. apply andb_true_iff in Hi as [Hq _]. simpl. eauto.
Qed.

(** A line written as a date, a description and an amount, with one space
    between them, is matched by the first pattern in one way only. *)
Lemma line_unique a b c desc dl i0 p0 f0 d1 d2 d3 s1 g2 s2 o i p f :
  formatFields Parser.MDY a b c = true ->
  desc <> "" -> startsClean desc = true -> endsClean desc = true ->
  dl = "" \/ dl = "$" ->
  Str.forallb digitOrComma i0 = true -> i0 <> "" ->
  p0 = "" \/ p0 = "." -> Str.forallb digit f0 = true ->
  Str.forallb digit d1 = true -> Str.forallb digit d2 = true ->
  Str.forallb digit d3 = true ->
  Str.forallb space s1 = true -> s1 <> "" ->
  Str.forallb space s2 = true -> s2 <> "" ->
  o = "" \/ o = "$" ->
  Str.forallb digitOrComma i = true -> i <> "" ->
  p = "" \/ p = "." -> Str.forallb digit f = true ->
  formatWord Parser.MDY a b c ++ " " ++ desc ++ " " ++ dl ++ i0 ++ p0 ++ f0
  = d1 ++ "/" ++ d2 ++ "/" ++ d3 ++ s1 ++ g2 ++ s2 ++ o ++ i ++ p ++ f ->
  d1 ++ "/" ++ d2 ++ "/" ++ d3 = formatWord Parser.MDY a b c /\
  g2 = desc /\ i ++ p ++ f = i0 ++ p0 ++ f0.
Proof.
  intros F Nd Sd Ed Hdl Hi0 Ni0 Hp0 Hf0 D1 D2 D3 S1 N1 S2 N2 Ho Hi Ni Hp Hf E.
  cbn [formatFields] in F. rewrite !andb_true_iff, !isDigits_spec in F.
  destruct F as [[(Ha & _) (Hb & _)] (Hc & _)].
  cbn [formatWord] in E. rewrite !app_assoc_str in E. cbn [append] in E.
  split_digits E Ha D1. destruct E as (<- & _ & E).
  split_digits E Hb D2. destruct E as (<- & _ & E).
  destruct s1 as [|x s1']; [contradiction|].
  cbn [Str.forallb] in S1. apply andb_true_iff in S1 as [Sx S1].
  cbn [append] in E.
  apply digits_split in E;
    [|exact Hc|exact D3|reflexivity|now apply space_not_digit].
  destruct E as (<- & <- & E).
  assert (s1' = "") as ->.
  { destruct s1' as [|y s1'']; [reflexivity|]. exfalso.
    destruct desc as [|h desc']; [contradiction|].
    cbn [append] in E. injection E as -> _.
    cbn [Str.forallb] in S1. apply andb_true_iff in S1 as [Sy _].
    simpl in Sd. unfold space in Sy. rewrite Sy in Sd. discriminate. }
  cbn [append] in E.
  destruct (last_char s2 N2) as (s2' & z & ->).
  rewrite forallb_app in S2. apply andb_true_iff in S2 as [S2 Sz].
  cbn [Str.forallb] in Sz. rewrite andb_true_r in Sz.
  assert (E' : desc ++ String " " (dl ++ i0 ++ p0 ++ f0)
               = (g2 ++ s2') ++ String z (o ++ i ++ p ++ f))
    by (rewrite E, !app_assoc_str; reflexivity).
  clear E. rename E' into E.
  apply suffix_unique in E;
    [|rewrite forallb_app, (dollar_nonSpace dl Hdl); now apply amount_chars
     |rewrite forallb_app, (dollar_nonSpace o Ho); now apply amount_chars
     |reflexivity|exact Sz].
  destruct E as (E1 & _ & E2).
  assert (s2' = "") as ->.
  { destruct s2' as [|y s2'']; [reflexivity|]. exfalso.
    destruct (last_char (String y s2'') ltac:(discriminate)) as (u & v & Eu).
    rewrite Eu in *. rewrite forallb_app in S2.
    apply andb_true_iff in S2 as [_ Sv]. cbn [Str.forallb] in Sv.
    rewrite andb_true_r in Sv.
    rewrite E1, <- app_assoc_str, endsClean_snoc in Ed.
    unfold space in Sv. rewrite Sv in Ed. discriminate. }
  rewrite app_nil_r_str in E1. subst g2.
  split; [reflexivity|]. split; [reflexivity|].
  destruct (amount_head i0 p0 f0 Hi0 Ni0) as (q0 & r0 & A0 & Q0).
  destruct (amount_head i p f Hi Ni) as (q & r & A & Q).
  rewrite A0, A in *.
  destruct Hdl as [-> | ->], Ho as [-> | ->]; cbn [append] in E2.
  - now symmetry.
  - injection E2 as -> _. vm_compute in Q0. discriminate Q0.
  - injection E2 as <- _. vm_compute in Q. discriminate Q.
  - injection E2 as -> ->. reflexivity.
Qed.

Lemma matches_rep cls lo hi g pos w rest caps :
  Str.forallb cls w = true -> lo <= String.length w ->
  within hi (String.length w) ->
  matches (Rep cls lo hi g) pos w rest caps caps.
Proof. intros. cbn [matches]. auto. Qed.

Lemma matches_grp i r pos w rest caps inner :
  matches r pos w rest caps inner ->
  matches (Grp i r) pos w rest caps ((i, w) :: inner).
Proof. intros H. cbn [matches]. eauto. Qed.

Lemma nonempty_one (s : string) : s <> "" -> 1 <= String.length s.
Proof. destruct s; simpl; [contradiction | lia]. Qed.

Lemma optional_matches c o pos rest caps :
  o = "" \/ o = String c "" -> matches (opt c) pos o rest caps caps.
Proof.
  intros H. apply matches_rep.
  - destruct H as [-> | ->]; simpl; [reflexivity|].
    now rewrite Ascii.eqb_refl.
  - lia.
  - destruct H as [-> | ->]; simpl; lia.
Qed.

(** Such a line is matched by the first pattern. *)
Lemma line_matches a b c desc dl i0 p0 f0 :
  formatFields Parser.MDY a b c = true ->
  desc <> "" -> Str.forallb dot desc = true ->
  dl = "" \/ dl = "$" ->
  Str.forallb digitOrComma i0 = true -> i0 <> "" ->
  p0 = "" \/ p0 = "." -> Str.forallb digit f0 = true ->
  String.length f0 <= 2 ->
  exists caps',
    matches linePattern 0
      (formatWord Parser.MDY a b c ++ " " ++ desc ++ " " ++ dl
       ++ (i0 ++ p0 ++ f0) ++ "") "" [] caps'.
Proof.
  intros F Nd Dd Hdl Hi0 Ni0 Hp0 Hf0 Lf0.
  cbn [formatFields] in F. rewrite !andb_true_iff, !isDigits_spec in F.
  destruct F as [[(Ha & La & La') (Hb & Lb & Lb')] (Hc & Lc & Lc')].
  eexists. cbn [seq formatWord Parser.amountPattern].
  eapply matches_cat.
  { apply matches_grp.
    eapply matches_cat; [apply matches_rep; [exact Ha|exact La|exact La']|].
    eapply (matches_cat _ _ _ "/"); [apply matches_lit|].
    eapply matches_cat; [apply matches_rep; [exact Hb|exact Lb|exact Lb']|].
    eapply (matches_cat _ _ _ "/"); [apply matches_lit|].
    apply matches_rep; [exact Hc|exact Lc|exact Lc']. }
  eapply (matches_cat _ _ _ " ");
    [apply matches_rep; [reflexivity|simpl; lia|exact I]|].
  eapply matches_cat.
  { apply matches_grp, matches_rep;
      [exact Dd | now apply nonempty_one | exact I]. }
  eapply (matches_cat _ _ _ " ");
    [apply matches_rep; [reflexivity|simpl; lia|exact I]|].
  eapply matches_cat; [now apply optional_matches|].
  eapply matches_cat.
  { apply matches_grp.
    eapply matches_cat;
      [apply matches_rep; [exact Hi0 | now apply nonempty_one | exact I]|].
    eapply matches_cat; [now apply optional_matches|].
    apply matches_rep; [exact Hf0 | lia | exact Lf0]. }
  cbn [matches]. auto.
Qed.

Lemma includes_absent c s :
  Str.forallb (fun d => negb (Ascii.eqb d c)) s = true ->
  Str.includes s (String c "") = false.
Proof.
  induction s as [|d s IH]; [reflexivity|].
  cbn [Str.forallb]. intros H. apply andb_true_iff in H as [Hd Hs].
  cbn [Str.includes String.prefix]. rewrite (IH Hs), orb_false_r.
  apply negb_true_iff in Hd.
  destruct (ascii_dec c d) as [->|N]; [|reflexivity].
  now rewrite Ascii.eqb_refl in Hd.
Qed.

Lemma amountChar_plain c :
  amountChar c = true ->
  negb (Ascii.eqb c "(") = true /\ notMinus c = true.
Proof. destruct c as [[] [] [] [] [] [] [] []]; vm_compute; auto. Qed.

(** An amount written with digits, commas and a point is read as a number
    that is not negative. *)
Lemma parseAmount_written amt :
  Str.forallb amountChar amt = true ->
  ltZero (Parser.parseAmount amt) = false.
Proof.
  intros H. unfold Parser.parseAmount.
  rewrite AmountFacts.parseAmount_unfold. cbv zeta.
  assert (P : parenthesized amt = false).
  { unfold parenthesized. rewrite includes_absent; [reflexivity|].
    apply forallb_remove. apply (forallb_impl amountChar); [|exact H].
    intros c Hc. now apply amountChar_plain. }
  rewrite P. unfold numericResidue. rewrite P.
  apply LineFacts.parseFloat_nonneg, forallb_remove.
  apply (forallb_impl amountChar); [|exact H].
  intros c Hc. now apply amountChar_plain.
Qed.

Lemma amount_written i p f :
  Str.forallb digitOrComma i = true -> p = "" \/ p = "." ->
  Str.forallb digit f = true ->
  Str.forallb amountChar (i ++ p ++ f) = true.
Proof.
  intros Hi Hp Hf.
  rewrite !forallb_app. apply andb_true_iff. split; [|apply andb_true_iff; split].
  - apply (forallb_impl digitOrComma); [|exact Hi]. intros c H. now rewrite H.
  - destruct Hp as [-> | ->]; reflexivity.
  - apply (forallb_impl digit); [|exact Hf]. intros c H.
    unfold digitOrComma. unfold digit in H. now rewrite H.
Qed.

(** A statement line written as a date MM/DD/YYYY that [parseDate] reads, a
    description, and an amount with or without [$], with one space between
    them, is read back as written: the date is the date read, the
    description is the description with its white space normalised, the
    amount is the amount written, negated, and the original text is the
    line.  The description begins and ends with a character that is not
    white space and holds no line break, and what is left of it after
    normalisation has two characters or more; the amount is made of digits
    and commas, then at most a point and at most two digits, and is a number
    other than zero. *)
Theorem parsePDFLine_reads_line :
  forall currentYear dateParse a b c date desc (dollar point : bool)
         whole cents,
    formatFields Parser.MDY a b c = true ->
    Parser.parseDate currentYear dateParse (formatWord Parser.MDY a b c)
    = Some date ->
    Str.forallb dot desc = true ->
    startsClean desc = true -> endsClean desc = true ->
    2 <= String.length (Str.trim (Parser.collapseSpaces desc)) ->
    Str.forallb digitOrComma whole = true -> whole <> "" ->
    Str.forallb Str.isDigit cents = true -> String.length cents <= 2 ->
    let amt := whole ++ (if point then "." else "") ++ cents in
    isNaN (Parser.parseAmount amt) = false ->
    isZero (Parser.parseAmount amt) = false ->
    let line := formatWord Parser.MDY a b c ++ " " ++ desc ++ " "
                ++ (if dollar then "$" else "") ++ amt in
    Parser.parsePDFLine currentYear dateParse line
    = Some (Parser.mkParsed date (Str.trim (Parser.collapseSpaces desc))
              (neg (Parser.parseAmount amt)) (Parser.RawLine line)
              (Parser.extractMerchantName
                 (Str.trim (Parser.collapseSpaces desc)))).
Proof.
  intros currentYear dateParse a b c date desc dollar point whole cents
         F PD Dd Sd Ed L2 Hw Nw Hc Lc amt NN NZ line.
  set (dl := if dollar then "$" else "") in *.
  set (pt := if point then "." else "") in *.
  assert (Hdl : dl = "" \/ dl = "$") by (unfold dl; destruct dollar; auto).
  assert (Hpt : pt = "" \/ pt = ".") by (unfold pt; destruct point; auto).
  assert (Nd : desc <> "").
  { intros ->. simpl in L2. lia. }
  destruct (line_matches a b c desc dl whole pt cents F Nd Dd Hdl Hw Nw Hpt
              Hc Lc) as (caps0 & M0).
  apply matchAt_complete in M0. rewrite !app_nil_r_str in M0.
  fold amt in M0. fold line in M0.
  destruct (matchAt linePattern 0 line) as [m|] eqn:M; [|congruence].
  clear M0. pose proof (searchFrom_first _ _ _ _ M) as S.
  apply matchAt_sound in M as (w & caps' & E & Mw & _ & _ & G).
  apply line_sound in Mw
    as (d1 & d2 & d3 & s1 & g2 & s2 & o & i & p & f & -> & R & -> & D1 & D2
        & D3 & S1 & N1 & S2 & N2 & Ho & Hi & Ni & Hp & Hf).
  rewrite R, app_nil_r_str in E.
  destruct (line_unique a b c desc dl whole pt cents d1 d2 d3 s1 g2 s2 o i p f
              F Nd Sd Ed Hdl Hw Nw Hpt Hc D1 D2 D3 S1 N1 S2 N2 Ho Hi Ni Hp Hf E)
    as (E1 & E2 & E3).
  rewrite E1, E2, E3 in G. fold amt in G.
  unfold Parser.parsePDFLine.
  change Parser.patterns with (linePattern :: List.tl Parser.patterns).
  cbn [Parser.tryPatterns]. unfold matchRe. rewrite S, G.
  unfold Parser.buildLine. cbn [group Nat.eqb]. rewrite PD, NN, NZ.
  cbn [orb].
  destruct (Str.trim (Parser.collapseSpaces desc)) as [|c0 t0] eqn:T;
    [simpl in L2; lia|].
  rewrite <- T in *. replace (Str.isEmpty _) with false by now rewrite T.
  replace (String.length _ <? 2) with false
    by (symmetry; apply Nat.ltb_ge; exact L2).
  cbn [orb].
  assert (GZ : gtZero (Parser.parseAmount amt) = true).
  { apply LineFacts.positive_of_nonneg; auto.
    apply parseAmount_written. unfold amt. now apply amount_written. }
  rewrite GZ. reflexivity.
Qed.

(** A witness: the line of the scenario. *)
Lemma parsePDFLine_reads_line_witness :
  Parser.parsePDFLine 2026 Env.noFallback
    "07/28/2024 STARBUCKS #4521 COFFEE $5.75"
  = Some (Parser.mkParsed (Time 1722124800000) "STARBUCKS #4521 COFFEE"
            (neg (Parser.parseAmount "5.75"))
            (Parser.RawLine "07/28/2024 STARBUCKS #4521 COFFEE $5.75")
            (Parser.extractMerchantName "STARBUCKS #4521 COFFEE")).
Proof.
  apply (parsePDFLine_reads_line 2026 Env.noFallback "07" "28" "2024"
           (Time 1722124800000) "STARBUCKS #4521 COFFEE" true true "5" "75");
    try reflexivity; try discriminate; vm_compute; lia.
Defined.

End LineRoundTrip.

(** ** The endpoints together: what an upload leaves for the others *)

Module EndpointFacts.

Import JSDate Server ServerApi.

Lemma rowOf_fresh sourceId newId tx : isStale (rowOf sourceId newId tx) = false.
Proof.
  unfold isStale, rowOf. cbn [description merchant_name category_id].
  now rewrite String.eqb_refl.
Qed.

Lemma map_fresh added :
  Forall (fun r => isStale r = false) added ->
  List.map recategorized added = added /\
  List.filter isStale added = [] /\
  List.filter (fun r => negb (isStale r)) added = added.
Proof.
  induction 1 as [|r added Hr _ (M & F & G)]; simpl; [auto|].
  rewrite M, F, G, Hr, (RecategorizeFacts.recategorized_fresh r Hr). auto.
Qed.

(** What an upload adds to the table, whatever its answer. *)
Lemma upload_adds currentYear dateParse insertFails csvRows w req fileId txId :
  exists added,
    transactions (fst (Server.upload currentYear dateParse insertFails csvRows
                                     w req fileId txId))
    = (transactions w ++ added)%list /\
    Forall (fun r => isStale r = false) added.
Proof.
  unfold Server.upload. destruct (file req) as [f|]; cbn [fst].
  2:{ exists []. now rewrite app_nil_r. }
  cbv zeta. cbn [disk transactions uploaded_files].
  destruct (readFileSync (disk w) (path f)) as [fileBuffer|message];
    cbn [fst transactions].
  2:{ exists []. now rewrite app_nil_r. }
  destruct (match detectFormat _ _ with
            | Delimited => _ | LineBased => _ | Unsupported => _ end)
    as [[|tx txs]|]; cbn [fst transactions];
    try (exists []; now rewrite app_nil_r).
  destruct (StorageFacts.fold_added insertFails (sourceOf req) txId (tx :: txs)
              (mkLoop (transactions w) 0 0 0)) as (added & E & A).
  exists added. split; [exact E|].
  eapply Forall_impl; [|exact A]. intros r (t & i & _ & ->).
  apply rowOf_fresh.
Qed.

(** A file the upload hands to the PDF reader is never ingested: whatever
    it holds, the reader returns no transaction, so the answer is 400 "No
    transactions found in the file", no row is stored, the temporary file
    stays on disk and the record of the file stays [processing], without
    counts and without a message. *)
Theorem upload_pdf_finds_nothing :
  forall currentYear dateParse insertFails csvRows w f src alt fileId txId
         fileBuffer,
    readFileSync (disk w) (path f) = inl fileBuffer ->
    detectFormat (Str.toLowerCase (originalname f)) fileBuffer = LineBased ->
    let req := mkRequest (Some f) src alt in
    Server.upload currentYear dateParse insertFails csvRows w req fileId txId
    = (mkWorld (transactions w)
         (uploaded_files w
          ++ [mkUploaded fileId (multerName f) (originalname f) (sourceOf req)
                         "processing" EmptyString 0 0 0])
         (disk w),
       Failure 400 "No transactions found in the file").
Proof.
  intros currentYear dateParse insertFails csvRows w f src alt fileId txId
         fileBuffer R D req.
  unfold Server.upload. cbn [file req disk transactions uploaded_files].
  rewrite R, D. reflexivity.
Qed.

(** A witness: a file named [statement.pdf] that begins with the PDF
    magic. *)
Lemma upload_pdf_finds_nothing_witness :
  Env.upload (Env.worldWith (Readable "%PDF-1.4 07/28/2024 COFFEE $5.75"))
             (Env.requestOf "Statement.PDF") "file_1" Env.txId
  = (mkWorld []
       [mkUploaded "file_1" "tmp" "Statement.PDF" "card_A" "processing"
                   EmptyString 0 0 0]
       [(Env.tempPath, Readable "%PDF-1.4 07/28/2024 COFFEE $5.75")],
     Failure 400 "No transactions found in the file").
Proof.
  apply (upload_pdf_finds_nothing 2026 Env.noFallback Env.accepts Env.plainCsv
           (Env.worldWith (Readable "%PDF-1.4 07/28/2024 COFFEE $5.75"))
           (mkFile Env.tempPath "tmp" "Statement.PDF") "card_A" ""
           "file_1" Env.txId "%PDF-1.4 07/28/2024 COFFEE $5.75");
    reflexivity.
Defined.

(** The upload stores every row under the category the rules give it, so
    the recategorisation has nothing to do on what an upload added: when the
    ids of the table after an upload are pairwise different, recategorising
    it updates exactly as many rows as recategorising the table before the
    upload would have, leaves the added rows as the upload stored them, and
    counts them as unchanged. *)
Theorem recategorize_after_upload :
  forall currentYear dateParse insertFails csvRows w req fileId txId,
    let w' := fst (Server.upload currentYear dateParse insertFails csvRows
                                 w req fileId txId) in
    uniqueIds (transactions w') = true ->
    exists added,
      transactions w' = (transactions w ++ added)%list /\
      fst (recategorize (transactions w'))
      = (fst (recategorize (transactions w)) ++ added)%list /\
      updated (snd (recategorize (transactions w')))
      = updated (snd (recategorize (transactions w))) /\
      unchanged (snd (recategorize (transactions w')))
      = (unchanged (snd (recategorize (transactions w)))
         + List.length added)%nat.
Proof.
  intros currentYear dateParse insertFails csvRows w req fileId txId w' U.
  destruct (upload_adds currentYear dateParse insertFails csvRows w req
              fileId txId) as (added & E & F).
  fold w' in E. exists added. split; [exact E|].
  apply RecategorizeFacts.uniqueIds_NoDup in U. rewrite E in U |- *.
  assert (U0 : NoDup (List.map id (transactions w))).
  { rewrite map_app in U. now apply NoDup_app_remove_r in U. }
  rewrite (RecategorizeFacts.recategorize_map _ U).
  rewrite (RecategorizeFacts.recategorize_map _ U0).
  cbn [fst snd updated unchanged].
  destruct (map_fresh added F) as (M & Fs & G).
  rewrite map_app, !filter_app, M, Fs, G, app_nil_r, length_app.
  auto.
Qed.

(** A witness: the file of the scenario, uploaded into a table that holds
    one row stored under a category the rules do not give it. *)
Lemma recategorize_after_upload_witness :
  let w := mkWorld [mkStored "tx_old" (Fin (-15 # 1)) "NETFLIX.COM"
                             "NETFLIX.COM" (Time 0) "other" "card_A"
                             (Parser.RawLine "NETFLIX.COM")]
                   [] [(Env.tempPath, Readable Env.sampleCsv)] in
  let w' := fst (Env.upload w (Env.requestOf "statement.csv") "file_1"
                            Env.txId) in
  exists added,
    transactions w' = (transactions w ++ added)%list /\
    fst (recategorize (transactions w'))
    = (fst (recategorize (transactions w)) ++ added)%list /\
    updated (snd (recategorize (transactions w')))
    = updated (snd (recategorize (transactions w))) /\
    unchanged (snd (recategorize (transactions w')))
    = (unchanged (snd (recategorize (transactions w)))
       + List.length added)%nat.
Proof.
  intros w.
  apply (recategorize_after_upload 2026 Env.noFallback Env.accepts
           Env.plainCsv w (Env.requestOf "statement.csv") "file_1" Env.txId).
  vm_compute. reflexivity.
Defined.

End EndpointFacts.
